(** * bussim: the bus network simulation of [busstop/objects.py] and
    [busstop/linear.py], embedded as executable Rocq definitions.

    Conventions of the embedding.
    - Python [int] is [Z]; Python [float] is modelled by the exact rationals
      [Q]: a number of the model stands for the exact value of a double, and
      a sum of the model is the sum the code computes whenever that sum is
      itself a double.  Rounding is not modelled; [exact_in_doubles] is the
      condition under which the positions of a bus are never rounded, and
      the statement about the positions over a run assumes it.
    - [str] is [string]; the one-letter tags [bus.move] ('h', 'v', 's') and
      [bus.rapid_express_local] ('r', 'e', 'l') are enumerations.
    - [BusStop] objects are shared between [self.stops], [self.hori_stops],
      [self.vert_stops] and [self.s_stops]: they live in a store
      ([stop_objs]) and the four lists hold references (positions in the
      store).  The buses of [self.buses] and the passengers are held by value:
      every bus object is assumed to occur once in [self.buses] and to own its
      [busdir] dictionary, and a passenger object is in one collection at a
      time (this is how [update_stop] and [stop_at] create and move them).
    - [time.time()], [random.random()] and [random.choice] read an
      environment: three infinite tapes with a cursor each.
    - A Python exception aborts the call; the mutations made before it stay.
      Computations are functions [World -> outcome A * World]. *)

From Stdlib Require Import ZArith QArith Qround String List Bool Lqa.
From stdpp Require Import base tactics option list strings gmap pretty.
Import ListNotations.

#[local] Open Scope string_scope.
#[local] Open Scope Z_scope.
#[local] Open Scope list_scope.

(* ===================================================================== *)
(** ** Python numbers and lists *)
(* ===================================================================== *)

(** [x < y] on floats. *)
Definition Qltb (x y : Q) : bool := negb (Qle_bool y x).

(** [round(x)] with one argument: the nearest integer, ties to the even one. *)
Definition py_round (x : Q) : Z :=
  let f := Qfloor x in
  let r := (x - inject_Z f)%Q in
  if Qltb r (1 # 2) then f
  else if Qltb (1 # 2) r then f + 1
  else if Z.even f then f else f + 1.

(** [round(x, 1)]. *)
Definition py_round1 (x : Q) : Q := (inject_Z (py_round (x * 10)) / 10)%Q.

(** Position denoted by a Python list index: [0 .. len-1] as they are,
    [-len .. -1] counted from the end, anything else is an [IndexError]. *)
Definition py_index {A : Type} (l : list A) (i : Z) : option nat :=
  let n := Z.of_nat (length l) in
  if (0 <=? i) && (i <? n) then Some (Z.to_nat i)
  else if (- n <=? i) && (i <? 0) then Some (Z.to_nat (i + n))
  else None.

(** [l[i] += 1]. *)
Definition py_incr (l : list Z) (i : Z) : option (list Z) :=
  match py_index l i with
  | Some k => match l !! k with
              | Some x => Some (<[k := x + 1]> l)
              | None => None
              end
  | None => None
  end.

(** [x in l] for a list of strings. *)
Definition str_in (x : string) (l : list string) : bool :=
  existsb (String.eqb x) l.

(** First element satisfying [f], with its position. *)
Fixpoint find_first {A : Type} (f : A -> bool) (l : list A) : option (nat * A) :=
  match l with
  | [] => None
  | x :: l' => if f x then Some (O, x)
               else match find_first f l' with
                    | Some (i, y) => Some (S i, y)
                    | None => None
                    end
  end.

(* ===================================================================== *)
(** ** objects.py: the entities *)
(* ===================================================================== *)

Inductive Move := MoveH | MoveV | MoveS.
Inductive Service := Rapid | Express | Local.

Record BusPassenger := mkBusPassenger {
  name : string;
  source : string;
  destination : string;
  horizontal_direction : Z;
  vertical_direction : Z;
  inclined_direction : Z;
  arrive_time : Q;
  change : bool;
  changed_and_alight : bool
}.

Record BusStop := mkBusStop {
  stop_name : string;
  stop_position : Z * Z;
  stop_passengers : list BusPassenger
}.

(** The dictionary [{'h': _, 'v': _, 's': _}] given to a bus. *)
Record BusDir := mkBusDir { dir_h : Z; dir_v : Z; dir_s : Z }.

Record Bus := mkBus {
  bus_name : string;
  bus_position : Q * Q;
  direction : Z;
  speed : Q;
  bus_passengers : list BusPassenger;
  stopped : bool;
  stations : list string;   (* names of the stop objects in [bus.stations] *)
  move : Move;
  rapid_express_local : Service;
  capacity : Z;
  bus_passenger_count : Z;
  busdir : BusDir
}.

Inductive exn :=
| TypeError | ValueError | IndexError | KeyError | NameError
| AttributeError | UnboundLocalError
| InvalidRef        (* model only: a reference that names no object *)
| LoopFuel.         (* model only: the retry loop outlived its fuel *)

(** [BusStop.__init__]: the checks that a typed value can fail. *)
Definition BusStop_init (nm : string) (pos : Z * Z) (ps : list BusPassenger)
  : exn + BusStop :=
  if negb (forallb (fun p => String.eqb (source p) nm) ps) then inl ValueError
  else inr (mkBusStop nm pos ps).

(** [Bus.__init__]; [position] is a pair of ints there. *)
Definition Bus_init (nm : string) (pos : Z * Z) (d : Z) (sp : Q)
    (ps : list BusPassenger) (st : bool) (sts : list string) (mv : Move)
    (rel : Service) (cap : Z) (cnt : Z) (bd : BusDir) : exn + Bus :=
  if negb ((d =? 1) || (d =? -1)) then inl TypeError
  else if (match mv with MoveV => true | _ => false end) && negb (fst pos =? 75)
  then inl ValueError
  else if (match mv with MoveH => true | _ => false end) && negb (snd pos =? 0)
  then inl ValueError
  else inr (mkBus nm (inject_Z (fst pos), inject_Z (snd pos)) d sp ps st sts mv
                  rel cap cnt bd).

(** Attribute assignments. *)
Definition set_changed_and_alight (x : bool) (p : BusPassenger) : BusPassenger :=
  mkBusPassenger (name p) (source p) (destination p) (horizontal_direction p)
    (vertical_direction p) (inclined_direction p) (arrive_time p) (change p) x.

Definition set_arrive_time (x : Q) (p : BusPassenger) : BusPassenger :=
  mkBusPassenger (name p) (source p) (destination p) (horizontal_direction p)
    (vertical_direction p) (inclined_direction p) x (change p)
    (changed_and_alight p).

Definition set_direction_of (m : Move) (x : Z) (p : BusPassenger) : BusPassenger :=
  match m with
  | MoveH => mkBusPassenger (name p) (source p) (destination p) x
               (vertical_direction p) (inclined_direction p) (arrive_time p)
               (change p) (changed_and_alight p)
  | MoveV => mkBusPassenger (name p) (source p) (destination p)
               (horizontal_direction p) x (inclined_direction p) (arrive_time p)
               (change p) (changed_and_alight p)
  | MoveS => mkBusPassenger (name p) (source p) (destination p)
               (horizontal_direction p) (vertical_direction p) x (arrive_time p)
               (change p) (changed_and_alight p)
  end.

Definition direction_of (m : Move) (p : BusPassenger) : Z :=
  match m with
  | MoveH => horizontal_direction p
  | MoveV => vertical_direction p
  | MoveS => inclined_direction p
  end.

Definition set_stop_passengers (x : list BusPassenger) (st : BusStop) : BusStop :=
  mkBusStop (stop_name st) (stop_position st) x.

Definition busdir_get (d : BusDir) (m : Move) : Z :=
  match m with MoveH => dir_h d | MoveV => dir_v d | MoveS => dir_s d end.

Definition busdir_set (d : BusDir) (m : Move) (x : Z) : BusDir :=
  match m with
  | MoveH => mkBusDir x (dir_v d) (dir_s d)
  | MoveV => mkBusDir (dir_h d) x (dir_s d)
  | MoveS => mkBusDir (dir_h d) (dir_v d) x
  end.

Definition set_bus_position (x : Q * Q) (b : Bus) : Bus :=
  mkBus (bus_name b) x (direction b) (speed b) (bus_passengers b) (stopped b)
    (stations b) (move b) (rapid_express_local b) (capacity b)
    (bus_passenger_count b) (busdir b).

Definition set_direction (x : Z) (b : Bus) : Bus :=
  mkBus (bus_name b) (bus_position b) x (speed b) (bus_passengers b) (stopped b)
    (stations b) (move b) (rapid_express_local b) (capacity b)
    (bus_passenger_count b) (busdir b).

Definition set_bus_passengers (x : list BusPassenger) (b : Bus) : Bus :=
  mkBus (bus_name b) (bus_position b) (direction b) (speed b) x (stopped b)
    (stations b) (move b) (rapid_express_local b) (capacity b)
    (bus_passenger_count b) (busdir b).

Definition set_stopped (x : bool) (b : Bus) : Bus :=
  mkBus (bus_name b) (bus_position b) (direction b) (speed b) (bus_passengers b)
    x (stations b) (move b) (rapid_express_local b) (capacity b)
    (bus_passenger_count b) (busdir b).

Definition set_bus_passenger_count (x : Z) (b : Bus) : Bus :=
  mkBus (bus_name b) (bus_position b) (direction b) (speed b) (bus_passengers b)
    (stopped b) (stations b) (move b) (rapid_express_local b) (capacity b)
    x (busdir b).

Definition set_busdir (x : BusDir) (b : Bus) : Bus :=
  mkBus (bus_name b) (bus_position b) (direction b) (speed b) (bus_passengers b)
    (stopped b) (stations b) (move b) (rapid_express_local b) (capacity b)
    (bus_passenger_count b) x.

(* ===================================================================== *)
(** ** The network object, the module global and the environment *)
(* ===================================================================== *)

(** Attributes assigned by [BusNetwork.__init__]; nothing reassigns them
    (the buses and the stop objects, which are mutated, are kept apart). *)
Record Route := mkRoute {
  vert_start : Q;
  vert_end : Q;
  hori_start : Q;
  hori_end : Q;
  s_start : Q;
  s_end : Q;
  stops : list nat;
  hori_stops : list nat;
  vert_stops : list nat;
  s_stops : list nat;
  rates : gmap string Q
}.

(** Attributes assigned by [init] and updated by the simulation. *)
Record Tally := mkTally {
  start_time : Q;
  revenue_list : list Q;
  plot_times : list Q;
  passenger_count : Z;
  passenger_num : Z;
  board_passengers : Z;
  leave_passengers : Z;
  income : Q;
  fixed_cost : Q;
  oil_cost : Q
}.

Record Env := mkEnv {
  time_tape : nat -> Q;      (* the k-th value returned by time.time() *)
  random_tape : nat -> Q;    (* the k-th value returned by random.random() *)
  choice_tape : nat -> nat   (* the k-th position drawn by random.choice *)
}.

Record World := mkWorld {
  route : Route;
  stop_objs : list BusStop;
  buses : list Bus;
  tally : Tally;
  avg_wait_time : list Z;    (* the module global of linear.py *)
  env : Env;
  clock_reads : nat;
  random_draws : nat;
  choice_draws : nat
}.

Definition set_stop_objs (x : list BusStop) (w : World) : World :=
  mkWorld (route w) x (buses w) (tally w) (avg_wait_time w) (env w)
    (clock_reads w) (random_draws w) (choice_draws w).

Definition set_buses (x : list Bus) (w : World) : World :=
  mkWorld (route w) (stop_objs w) x (tally w) (avg_wait_time w) (env w)
    (clock_reads w) (random_draws w) (choice_draws w).

Definition set_tally (x : Tally) (w : World) : World :=
  mkWorld (route w) (stop_objs w) (buses w) x (avg_wait_time w) (env w)
    (clock_reads w) (random_draws w) (choice_draws w).

Definition set_avg_wait_time (x : list Z) (w : World) : World :=
  mkWorld (route w) (stop_objs w) (buses w) (tally w) x (env w)
    (clock_reads w) (random_draws w) (choice_draws w).

Definition set_clock_reads (x : nat) (w : World) : World :=
  mkWorld (route w) (stop_objs w) (buses w) (tally w) (avg_wait_time w) (env w)
    x (random_draws w) (choice_draws w).

Definition set_random_draws (x : nat) (w : World) : World :=
  mkWorld (route w) (stop_objs w) (buses w) (tally w) (avg_wait_time w) (env w)
    (clock_reads w) x (choice_draws w).

Definition set_choice_draws (x : nat) (w : World) : World :=
  mkWorld (route w) (stop_objs w) (buses w) (tally w) (avg_wait_time w) (env w)
    (clock_reads w) (random_draws w) x.

Definition set_revenue_list (x : list Q) (t : Tally) : Tally :=
  mkTally (start_time t) x (plot_times t) (passenger_count t) (passenger_num t)
    (board_passengers t) (leave_passengers t) (income t) (fixed_cost t)
    (oil_cost t).

Definition set_plot_times (x : list Q) (t : Tally) : Tally :=
  mkTally (start_time t) (revenue_list t) x (passenger_count t) (passenger_num t)
    (board_passengers t) (leave_passengers t) (income t) (fixed_cost t)
    (oil_cost t).

Definition set_passenger_count (x : Z) (t : Tally) : Tally :=
  mkTally (start_time t) (revenue_list t) (plot_times t) x (passenger_num t)
    (board_passengers t) (leave_passengers t) (income t) (fixed_cost t)
    (oil_cost t).

Definition set_passenger_num (x : Z) (t : Tally) : Tally :=
  mkTally (start_time t) (revenue_list t) (plot_times t) (passenger_count t) x
    (board_passengers t) (leave_passengers t) (income t) (fixed_cost t)
    (oil_cost t).

Definition set_board_passengers (x : Z) (t : Tally) : Tally :=
  mkTally (start_time t) (revenue_list t) (plot_times t) (passenger_count t)
    (passenger_num t) x (leave_passengers t) (income t) (fixed_cost t)
    (oil_cost t).

Definition set_leave_passengers (x : Z) (t : Tally) : Tally :=
  mkTally (start_time t) (revenue_list t) (plot_times t) (passenger_count t)
    (passenger_num t) (board_passengers t) x (income t) (fixed_cost t)
    (oil_cost t).

Definition set_income (x : Q) (t : Tally) : Tally :=
  mkTally (start_time t) (revenue_list t) (plot_times t) (passenger_count t)
    (passenger_num t) (board_passengers t) (leave_passengers t) x (fixed_cost t)
    (oil_cost t).

Definition set_fixed_cost (x : Q) (t : Tally) : Tally :=
  mkTally (start_time t) (revenue_list t) (plot_times t) (passenger_count t)
    (passenger_num t) (board_passengers t) (leave_passengers t) (income t) x
    (oil_cost t).

Definition set_oil_cost (x : Q) (t : Tally) : Tally :=
  mkTally (start_time t) (revenue_list t) (plot_times t) (passenger_count t)
    (passenger_num t) (board_passengers t) (leave_passengers t) (income t)
    (fixed_cost t) x.

(** The tuples appended to [events]: tag and labelled fields. *)
Inductive event :=
| WAITS (pax dep des : string) (hd vd sd : Z)
| BOARDS (pax dep des : string) (hd vd sd : Z)
| CHANGES (pax dep des : string) (hd vd sd : Z)
| ALIGHTS (pax dep des : string) (hd vd sd : Z)
| LEFT (pax : string)
| BUS_TURNS (bus : string).

(* ===================================================================== *)
(** ** Computations: state, exceptions, environment *)
(* ===================================================================== *)

Inductive outcome (A : Type) :=
| Returned (a : A)
| Raised (e : exn).
Arguments Returned {A} a.
Arguments Raised {A} e.

Definition M (A : Type) : Type := World -> outcome A * World.

Definition ret {A : Type} (a : A) : M A := fun w => (Returned a, w).

Definition bind {A B : Type} (m : M A) (k : A -> M B) : M B :=
  fun w => match m w with
           | (Returned a, w') => k a w'
           | (Raised e, w') => (Raised e, w')
           end.

Definition raise {A : Type} (e : exn) : M A := fun w => (Raised e, w).

Definition gets {A : Type} (f : World -> A) : M A := fun w => (Returned (f w), w).

Definition modify (f : World -> World) : M unit := fun w => (Returned tt, f w).

Notation "'do' x <- m ; k" := (bind m (fun x => k))
  (at level 10, x name, m at level 100, k at level 200).
Notation "m ;; k" := (bind m (fun _ => k))
  (at level 100, k at level 200, right associativity).

Definition modify_tally (f : Tally -> Tally) : M unit :=
  modify (fun w => set_tally (f (tally w)) w).

(** [for x in l: events += body(x)]. *)
Fixpoint for_each {A : Type} (l : list A) (body : A -> M (list event))
  : M (list event) :=
  match l with
  | [] => ret []
  | x :: l' =>
      do evs <- body x;
      do evs' <- for_each l' body;
      ret (evs ++ evs')
  end.

(** [time.time()], [random.random()], the position drawn by [random.choice]. *)
Definition time_time : M Q :=
  fun w => (Returned (time_tape (env w) (clock_reads w)),
            set_clock_reads (S (clock_reads w)) w).

Definition random_random : M Q :=
  fun w => (Returned (random_tape (env w) (random_draws w)),
            set_random_draws (S (random_draws w)) w).

Definition random_position : M nat :=
  fun w => (Returned (choice_tape (env w) (choice_draws w)),
            set_choice_draws (S (choice_draws w)) w).

Definition get_bus (bi : nat) : M Bus :=
  fun w => match buses w !! bi with
           | Some b => (Returned b, w)
           | None => (Raised InvalidRef, w)
           end.

Definition put_bus (bi : nat) (b : Bus) : M unit :=
  modify (fun w => set_buses (<[bi := b]> (buses w)) w).

Definition get_stop (si : nat) : M BusStop :=
  fun w => match stop_objs w !! si with
           | Some st => (Returned st, w)
           | None => (Raised InvalidRef, w)
           end.

Definition put_stop (si : nat) (st : BusStop) : M unit :=
  modify (fun w => set_stop_objs (<[si := st]> (stop_objs w)) w).

(* ===================================================================== *)
(** ** linear.py: [LinearBusRouteModel] *)
(* ===================================================================== *)

(** The name tables that [init] stores in [self]; they are constants. *)
Definition busstop : list string :=
  ["Centre St"; "South St"; "North St"; "West St"; "Queens St"; "East St";
   "Abbey St"; "Harr St"; "Steph St"; "Kenn St"].

Definition busstop_coordinates : gmap string (Z * Z) :=
  list_to_map
    [("West St", (0, 0)); ("Queens St", (25, 0)); ("Centre St", (75, 0));
     ("South St", (75, -30)); ("North St", (75, 30)); ("Abbey St", (50, 0));
     ("East St", (100, 0)); ("Harr St", (55, 30)); ("Kenn St", (5, -20));
     ("Steph St", (100, 30))].

Definition busstop_y : list string := ["South St"; "North St"; "Centre St"].
Definition busstop_x : list string :=
  ["West St"; "Queens St"; "Abbey St"; "East St"; "Centre St"].
Definition busstop_s : list string :=
  ["Queens St"; "North St"; "Harr St"; "Kenn St"; "Steph St"].

(** [init].  Both event loops read [passenger.map_direction], an attribute
    that [BusPassenger] does not have; the second one also reads the loop
    variable [stop] left over from the first, a local variable of [init]
    that is unbound when the stop list is empty. *)
Definition init : M (list event) :=
  do t <- time_time;
  modify_tally (fun _ => mkTally t [] [] 0 0 0 0 0 0 0) ;;
  modify (set_avg_wait_time (repeat 0 9)) ;;
  do sts <- gets (fun w => stops (route w));
  do evs <- for_each sts (fun si =>
              do stop <- get_stop si;
              for_each (stop_passengers stop)
                       (fun passenger => raise AttributeError));
  do n <- gets (fun w => length (buses w));
  do evs' <- for_each (seq 0 n) (fun bi =>
               do bus <- get_bus bi;
               modify_tally (fun t => set_fixed_cost (fixed_cost t + 25)%Q t) ;;
               for_each (bus_passengers bus)
                        (fun passenger =>
                           match sts with
                           | [] => raise UnboundLocalError
                           | _ => raise AttributeError
                           end));
  ret (evs ++ evs').

(** *** [stop_at] *)

Definition nonzero (x : Z) : bool := negb (x =? 0).

(** The test of the loop that fills [leaving_passengers]. *)
Definition alights_at (sn : string) (p : BusPassenger) : bool :=
  if String.eqb (destination p) sn then true
  else if String.eqb sn "Centre St" && nonzero (horizontal_direction p)
          && nonzero (vertical_direction p) then true
  else if String.eqb sn "Queens St" && nonzero (horizontal_direction p)
          && nonzero (inclined_direction p) then true
  else if String.eqb sn "North St" && nonzero (vertical_direction p)
          && nonzero (inclined_direction p) then true
  else false.

(** The assignment the same loop makes in its first branch. *)
Definition mark_arrival (sn : string) (p : BusPassenger) : BusPassenger :=
  if String.eqb (destination p) sn then set_changed_and_alight true p else p.

Definition axis_names (m : Move) : list string :=
  match m with MoveV => busstop_y | MoveH => busstop_x | MoveS => busstop_s end.

Definition fare (c : Service) : Q :=
  match c with Rapid => 3.5%Q | Express => 5%Q | Local => 2%Q end.

(** The boarding loop [for passenger in stop.passengers], up to the point
    where it boards ([return events]), stops ([break]) or runs out. *)
Inductive scan_result :=
| ScanBoard (j : nat) (passenger : BusPassenger)
| ScanBreak
| ScanDone.

Fixpoint board_scan (bus : Bus) (sn : string) (j : nat)
    (waiting : list BusPassenger) : scan_result :=
  match waiting with
  | [] => ScanDone
  | passenger :: rest =>
      let direction := direction_of (move bus) passenger in
      let not_same_axes :=
        negb (str_in (destination passenger) (axis_names (move bus)))
        && str_in sn (stations bus) in
      match rapid_express_local bus with
      | Rapid =>
          let dest_in_stations :=
            str_in (destination passenger) (stations bus)
            && str_in sn (stations bus) in
          if dest_in_stations || not_same_axes then
            if busdir_get (busdir bus) (move bus) =? direction then
              if Z.of_nat (length (bus_passengers bus)) <? capacity bus
              then ScanBoard j passenger
              else ScanBreak
            else board_scan bus sn (S j) rest
          else board_scan bus sn (S j) rest
      | Express =>
          let dest_in_stations :=
            str_in (destination passenger) (stations bus)
            && str_in sn (stations bus) in
          if dest_in_stations then
            if busdir_get (busdir bus) (move bus) =? direction then
              if Z.of_nat (length (bus_passengers bus)) <? capacity bus
              then ScanBoard j passenger
              else ScanBreak
            else board_scan bus sn (S j) rest
          else board_scan bus sn (S j) rest
      | Local =>
          if busdir_get (busdir bus) (move bus) =? direction then
            if Z.of_nat (length (bus_passengers bus)) <? capacity bus
            then ScanBoard j passenger
            else ScanBreak
          else board_scan bus sn (S j) rest
      end
  end.

Definition store_cost : M unit :=
  modify_tally (fun t =>
    set_revenue_list
      (revenue_list t ++ [(income t - fixed_cost t - oil_cost t)%Q]) t).

Definition store_time (plot_time : Q) : M unit :=
  modify_tally (fun t => set_plot_times (plot_times t ++ [plot_time]) t).

(** The body run for the passenger that boards: the [j]-th waiting
    passenger of [stop]; [bus] and [stop] are the two objects as they stand. *)
Definition board (bi si : nat) (bus : Bus) (stop : BusStop) (j : nat)
    (passenger : BusPassenger) : M (list event) :=
  do current_time <- time_time;
  let wait_time := py_round (current_time - arrive_time passenger) in
  do hist <- gets avg_wait_time;
  match py_incr hist (wait_time - 5) with
  | None => raise IndexError
  | Some hist' =>
      modify (set_avg_wait_time hist') ;;
      modify_tally (fun t => set_passenger_count (passenger_count t + 1) t) ;;
      modify_tally
        (fun t => set_income (income t + fare (rapid_express_local bus))%Q t) ;;
      do start <- gets (fun w => start_time (tally w));
      let plot_time := py_round1 (current_time - start) in
      store_cost ;;
      store_time plot_time ;;
      modify_tally (fun t => set_board_passengers (board_passengers t + 1) t) ;;
      put_bus bi
        (set_bus_passenger_count (bus_passenger_count bus + 1)
           (set_bus_passengers (bus_passengers bus ++ [passenger])
              (set_stopped true bus))) ;;
      put_stop si
        (set_stop_passengers (delete j (stop_passengers stop)) stop) ;;
      ret [BOARDS (name passenger) (source passenger) (destination passenger)
             (horizontal_direction passenger) (vertical_direction passenger)
             (inclined_direction passenger)]
  end.

(** The boarding loop and the two lines after it
    ([bus.stopped = False; return events]). *)
Definition board_or_depart (bi si : nat) (bus : Bus) (stop : BusStop)
  : M (list event) :=
  match board_scan bus (stop_name stop) 0 (stop_passengers stop) with
  | ScanBoard j passenger => board bi si bus stop j passenger
  | ScanBreak | ScanDone => put_bus bi (set_stopped false bus) ;; ret []
  end.

(** [stop_at(bus, stop)].  The scan of [bus.passengers] sets
    [changed_and_alight] on every passenger whose destination is this stop
    and collects [leaving_passengers]; [leaving_passengers[0]] is the first
    onboard passenger passing [alights_at], and [remove] takes it out at its
    position.  The events of the alighting branch read [passenger], the loop
    variable left by the scan (the last onboard passenger).  The line printed
    for a bus that was not stopped is console output, not an event. *)
Definition stop_at (bi si : nat) : M (list event) :=
  do bus <- get_bus bi;
  do stop <- get_stop si;
  if negb (length (bus_passengers bus) =? 0)%nat then
    let marked := map (mark_arrival (stop_name stop)) (bus_passengers bus) in
    let bus := set_bus_passengers marked bus in
    put_bus bi bus ;;
    match find_first (alights_at (stop_name stop)) marked with
    | Some (i, leaving0) =>
        let passenger := List.last marked leaving0 in
        put_bus bi (set_bus_passengers (delete i marked) (set_stopped true bus)) ;;
        if change leaving0 && negb (changed_and_alight leaving0) then
          do now <- time_time;
          put_stop si
            (set_stop_passengers
               (stop_passengers stop
                ++ [set_direction_of (move bus) 0 (set_arrive_time now leaving0)])
               stop) ;;
          ret [CHANGES (name leaving0) (source passenger) (destination leaving0)
                 (horizontal_direction passenger) (vertical_direction passenger)
                 (inclined_direction passenger)]
        else
          ret [ALIGHTS (name leaving0) (source passenger) (destination leaving0)
                 (horizontal_direction passenger) (vertical_direction passenger)
                 (inclined_direction passenger)]
    | None => board_or_depart bi si bus stop
    end
  else if negb (length (stop_passengers stop) =? 0)%nat then
    board_or_depart bi si bus stop
  else
    put_bus bi (set_stopped false bus) ;; ret [].

(** *** Movement *)

(** [lo <= x <= hi]. *)
Definition Qbetween (lo x hi : Q) : bool := Qle_bool lo x && Qle_bool x hi.

(** The body of [if not (start <= new <= end)]. *)
Definition turn_around (bi : nat) (m : Move) : M (list event) :=
  do bus <- get_bus bi;
  put_bus bi
    (set_busdir (busdir_set (busdir bus) m (- busdir_get (busdir bus) m))
       (set_direction (- direction bus) bus)) ;;
  modify_tally (fun t => set_oil_cost (oil_cost t + 2.5)%Q t) ;;
  ret [BUS_TURNS (bus_name bus)].

(** The closing [if bus.direction == 1: ... else: ...] of the three
    [update_bus_*] methods: [refs] is the stop list of the geometry and
    [coord] selects the stop coordinate that is compared. *)
Definition serve_crossed (bi : nat) (refs : list nat) (coord : Z * Z -> Z)
    (old new : Q) : M (list event) :=
  do bus <- get_bus bi;
  if direction bus =? 1 then
    for_each refs (fun si =>
      do stop <- get_stop si;
      let c := inject_Z (coord (stop_position stop)) in
      if Qltb old c && Qle_bool c new then stop_at bi si else ret [])
  else
    for_each refs (fun si =>
      do stop <- get_stop si;
      let c := inject_Z (coord (stop_position stop)) in
      if Qltb c old && Qle_bool new c then stop_at bi si else ret []).

Definition update_bus_vert (bi : nat) : M (list event) :=
  do bus <- get_bus bi;
  do rt <- gets route;
  let '(old_x, old_y) := bus_position bus in
  if negb (stopped bus) then
    let new_y := (old_y + speed bus * inject_Z (direction bus))%Q in
    put_bus bi (set_bus_position (old_x, new_y) bus) ;;
    do evs <- (if negb (Qbetween (vert_start rt) new_y (vert_end rt))
               then turn_around bi MoveV else ret []);
    do evs' <- serve_crossed bi (vert_stops rt) snd old_y new_y;
    ret (evs ++ evs')
  else
    let new_y := old_y in
    let old_y := (old_y - speed bus * inject_Z (direction bus))%Q in
    put_bus bi (set_bus_position (old_x, new_y) bus) ;;
    serve_crossed bi (vert_stops rt) snd old_y new_y.

Definition update_bus_hori (bi : nat) : M (list event) :=
  do bus <- get_bus bi;
  do rt <- gets route;
  let '(old_x, old_y) := bus_position bus in
  if negb (stopped bus) then
    let new_x := (old_x + speed bus * inject_Z (direction bus))%Q in
    put_bus bi (set_bus_position (new_x, old_y) bus) ;;
    do evs <- (if negb (Qbetween (hori_start rt) new_x (hori_end rt))
               then turn_around bi MoveH else ret []);
    do evs' <- serve_crossed bi (hori_stops rt) fst old_x new_x;
    ret (evs ++ evs')
  else
    let new_x := old_x in
    let old_x := (old_x - speed bus * inject_Z (direction bus))%Q in
    put_bus bi (set_bus_position (new_x, old_y) bus) ;;
    serve_crossed bi (hori_stops rt) fst old_x new_x.

(** The position a moving inclined bus gets: the [if/elif/else] of
    [update_bus_s] on the plateaus and the slope. *)
Definition s_new_position (bus : Bus) : Q * Q :=
  let '(old_x, old_y) := bus_position bus in
  let old_y := if Qle_bool 30 old_y then 30%Q
               else if Qle_bool old_y (-20) then (-20)%Q else old_y in
  if Qle_bool 30 old_y && Qltb 55 old_x then
    ((old_x + speed bus * inject_Z (direction bus))%Q, 30%Q)
  else if Qle_bool old_y (-20) && Qltb old_x 5 then
    ((old_x + speed bus * inject_Z (direction bus))%Q, (-20)%Q)
  else
    let new_x := (old_x + speed bus * inject_Z (direction bus))%Q in
    let new_y := (old_y + speed bus * inject_Z (direction bus))%Q in
    let new_y := if Qle_bool 30 new_y then 30%Q
                 else if Qle_bool new_y (-20) then (-20)%Q else new_y in
    (new_x, new_y).

Definition update_bus_s (bi : nat) : M (list event) :=
  do bus <- get_bus bi;
  do rt <- gets route;
  let '(old_x, old_y) := bus_position bus in
  if negb (stopped bus) then
    let '(new_x, new_y) := s_new_position bus in
    put_bus bi (set_bus_position (new_x, new_y) bus) ;;
    do evs <- (if negb (Qbetween (s_start rt) new_x (s_end rt))
               then turn_around bi MoveS else ret []);
    do evs' <- serve_crossed bi (s_stops rt) fst old_x new_x;
    ret (evs ++ evs')
  else
    let new_x := old_x in
    let old_x := (old_x - speed bus * inject_Z (direction bus))%Q in
    put_bus bi (set_bus_position (new_x, old_y) bus) ;;
    serve_crossed bi (s_stops rt) fst old_x new_x.

(** *** Arrivals *)

(** The [while not valid] loop drawing the destination; [fuel] bounds the
    number of draws the model follows. *)
Fixpoint pick_destination (fuel : nat) (sn : string) : M string :=
  match fuel with
  | O => raise LoopFuel
  | S fuel' =>
      do k <- random_position;
      let destination := nth (k mod length busstop)%nat busstop "" in
      if negb (String.eqb sn destination) then ret destination
      else pick_destination fuel' sn
  end.

(** "Finds whether the passenger change at transfer stations." *)
Definition needs_change (sn destination : string) : bool :=
  if String.eqb sn "Centre St"
     && (str_in destination busstop_x || str_in destination busstop_y) then false
  else if String.eqb sn "North St"
     && (str_in destination busstop_s || str_in destination busstop_y) then false
  else if String.eqb sn "Queens St"
     && (str_in destination busstop_x || str_in destination busstop_s) then false
  else if str_in sn busstop_y && negb (str_in destination busstop_y) then true
  else if str_in sn busstop_x && negb (str_in destination busstop_x) then true
  else if str_in sn busstop_s && negb (str_in destination busstop_s) then true
  else false.

(** The pair of tests [coords[destination][k] > coords[stop.name][k]] /
    [<]: the sign assigned, [None] when neither test assigns the variable. *)
Definition toward (proj : Z * Z -> Z) (sn destination : string)
  : exn + option Z :=
  match busstop_coordinates !! destination, busstop_coordinates !! sn with
  | Some d, Some c =>
      inr (if proj d >? proj c then Some 1
           else if proj d <? proj c then Some (-1) else None)
  | _, _ => inl KeyError
  end.

(** The three direction variables, in the order horizontal, vertical,
    inclined; [None] is a variable that no branch assigned. *)
Definition Dirs : Type := option Z * option Z * option Z.

Definition with_sign (r : exn + option Z) (k : option Z -> exn + Dirs)
  : exn + Dirs :=
  match r with inl e => inl e | inr x => k x end.

Definition passenger_directions (sn destination : string) (change : bool)
  : exn + Dirs :=
  let trip a b := String.eqb sn a && String.eqb destination b in
  if trip "East St" "Harr St" || trip "South St" "Kenn St" then
    inr (Some (-1), Some 1, Some (-1))
  else if trip "Harr St" "East St" || trip "Kenn St" "South St" then
    inr (Some 1, Some (-1), Some 1)
  else if trip "East St" "Steph St" then inr (Some (-1), Some 1, Some 1)
  else if trip "Steph St" "East St" then inr (Some 1, Some (-1), Some (-1))
  else if trip "Abbey St" "Steph St" then inr (Some 1, Some 1, Some 1)
  else if trip "Steph St" "Abbey St" then inr (Some (-1), Some (-1), Some (-1))
  else if trip "Harr St" "Centre St" then inr (Some 0, Some (-1), Some 1)
  else if trip "Centre St" "Harr St" then inr (Some 0, Some 1, Some (-1))
  else if trip "West St" "North St" then inr (Some 1, Some 0, Some 1)
  else if trip "North St" "West St" then inr (Some (-1), Some 0, Some (-1))
  else if trip "Centre St" "East St" then inr (Some 1, Some 0, Some 0)
  else if trip "East St" "Centre St" then inr (Some (-1), Some 0, Some 0)
  else if trip "Centre St" "Steph St" then inr (Some 0, Some 1, Some 1)
  else if trip "Steph St" "Centre St" then inr (Some 0, Some (-1), Some (-1))
  else if trip "Kenn St" "West St" || trip "Abbey St" "Harr St" then
    inr (Some (-1), Some 0, Some 1)
  else if trip "West St" "Kenn St" || trip "Harr St" "Abbey St" then
    inr (Some 1, Some 0, Some (-1))
  else if negb change then
    if (String.eqb sn "Centre St" && str_in destination busstop_y)
       || (String.eqb sn "North St" && str_in destination busstop_y) then
      with_sign (toward snd sn destination) (fun vd => inr (Some 0, vd, Some 0))
    else if (String.eqb sn "Centre St" && str_in destination busstop_x)
       || (String.eqb sn "Queens St" && str_in destination busstop_x) then
      with_sign (toward fst sn destination) (fun hd => inr (hd, Some 0, Some 0))
    else if (String.eqb sn "Queens St" && str_in destination busstop_s)
       || (String.eqb sn "North St" && str_in destination busstop_s) then
      with_sign (toward fst sn destination) (fun sd => inr (Some 0, Some 0, sd))
    else if str_in sn busstop_x then
      with_sign (toward fst sn destination) (fun hd => inr (hd, Some 0, Some 0))
    else if str_in sn busstop_s then
      with_sign (toward fst sn destination) (fun sd => inr (Some 0, Some 0, sd))
    else if str_in sn busstop_y then
      with_sign (toward snd sn destination) (fun vd => inr (Some 0, vd, Some 0))
    else inr (None, None, None)
  else
    if (str_in sn busstop_y && str_in destination busstop_x)
       || (str_in sn busstop_x && str_in destination busstop_y) then
      with_sign (toward snd sn destination) (fun vd =>
      with_sign (toward fst sn destination) (fun hd => inr (hd, vd, Some 0)))
    else if (str_in sn busstop_x && str_in destination busstop_s)
       || (str_in sn busstop_s && str_in destination busstop_x) then
      with_sign (toward fst sn destination) (fun sd =>
      with_sign (toward fst sn destination) (fun hd => inr (hd, Some 0, sd)))
    else if (str_in sn busstop_y && str_in destination busstop_s)
       || (str_in sn busstop_s && str_in destination busstop_y) then
      with_sign (toward snd sn destination) (fun vd =>
      with_sign (toward fst sn destination) (fun sd => inr (Some 0, vd, sd)))
    else inr (None, None, None).

(** [update_stop(stop)]. *)
Definition update_stop (fuel : nat) (si : nat) : M (list event) :=
  do stop <- get_stop si;
  do rt <- gets route;
  match rates rt !! stop_name stop with
  | Some rate =>
      do r <- random_random;
      if Qltb r rate then
        do dest <- pick_destination fuel (stop_name stop);
        let change := needs_change (stop_name stop) dest in
        match passenger_directions (stop_name stop) dest change with
        | inl e => raise e
        | inr (hd, vd, sd) =>
            do num <- gets (fun w => passenger_num (tally w));
            let nm := "random" +:+ pretty num in
            modify_tally (fun t => set_passenger_num (passenger_num t + 1) t) ;;
            do arrive <- time_time;
            match hd, vd, sd with
            | Some horizontal, Some vertical, Some inclined =>
                let passenger :=
                  mkBusPassenger nm (stop_name stop) dest horizontal
                    vertical inclined arrive change false in
                put_stop si
                  (set_stop_passengers (stop_passengers stop ++ [passenger])
                     stop) ;;
                ret [WAITS (name passenger) (stop_name stop)
                       (destination passenger) horizontal vertical inclined]
            | _, _, _ => raise UnboundLocalError
            end
        end
      else ret []
  | None => ret []
  end.

(** *** Abandonment *)

(** [leave_stop(stop)]. *)
Definition leave_stop (si : nat) : M (list event) :=
  do stop <- get_stop si;
  do current_time <- time_time;
  match find_first (fun passenger =>
                      Qltb 12 (current_time - arrive_time passenger))
                   (stop_passengers stop) with
  | Some (i, passenger) =>
      put_stop si
        (set_stop_passengers (delete i (stop_passengers stop)) stop) ;;
      do hist <- gets avg_wait_time;
      match py_incr hist (-1) with
      | None => raise IndexError
      | Some hist' =>
          modify (set_avg_wait_time hist') ;;
          modify_tally
            (fun t => set_leave_passengers (leave_passengers t + 1) t) ;;
          ret [LEFT (name passenger)]
      end
  | None => ret []
  end.

(** *** The tick and the accessors *)

Definition update_bus (bi : nat) : M (list event) :=
  do bus <- get_bus bi;
  match move bus with
  | MoveH => update_bus_hori bi
  | MoveV => update_bus_vert bi
  | MoveS => update_bus_s bi
  end.

(** The third loop of [update]. *)
Definition leave_phase : M (list event) :=
  do sts <- gets (fun w => stops (route w));
  for_each sts leave_stop.

(** [update()]. *)
Definition update (fuel : nat) : M (list event) :=
  do n <- gets (fun w => length (buses w));
  do evs1 <- for_each (seq 0 n) update_bus;
  do sts <- gets (fun w => stops (route w));
  do evs2 <- for_each sts (update_stop fuel);
  do evs3 <- leave_phase;
  ret (evs1 ++ evs2 ++ evs3).

(** [n] calls of [update()], as the animation loop makes them. *)
Fixpoint run (fuel : nat) (n : nat) : M (list event) :=
  match n with
  | O => ret []
  | S n' =>
      do evs <- update fuel;
      do evs' <- run fuel n';
      ret (evs ++ evs')
  end.

Definition get_wait : M (list Z) := gets avg_wait_time.
Definition get_tally : M Z := gets (fun w => passenger_count (tally w)).
Definition get_passenger : M (list Z) :=
  gets (fun w => [board_passengers (tally w); leave_passengers (tally w)]).

(** The state a computation leaves and the value it gives. *)
Definition state_after {A : Type} (m : M A) (w : World) : World := snd (m w).
Definition result_of {A : Type} (m : M A) (w : World) : outcome A := fst (m w).

(** *** [init_conditions] *)

(** [random.randint(a, b)]: an integer between [a] and [b], both included,
    taken from the same tape of draws as [random.choice]. *)
Definition random_randint (a b : Z) : M Z :=
  do k <- random_position;
  ret (a + Z.of_nat k mod (b - a + 1)).

(** A loop that collects no events. *)
Fixpoint for_do {A : Type} (l : list A) (body : A -> M unit) : M unit :=
  match l with
  | [] => ret tt
  | x :: l' => body x ;; for_do l' body
  end.

(** [init_conditions(stops, buses)], for stops and buses of the model. *)
Definition init_conditions (srefs brefs : list nat) : M unit :=
  for_do srefs (fun si =>
    do stop <- get_stop si;
    put_stop si (set_stop_passengers [] stop)) ;;
  for_do brefs (fun bi =>
    do bus <- get_bus bi;
    let bus := set_stopped false (set_bus_passengers [] bus) in
    put_bus bi bus ;;
    match move bus with
    | MoveS =>
        do k <- random_randint 60 90;
        put_bus bi (set_bus_position (inject_Z k, 30%Q) bus)
    | MoveH =>
        do k <- random_randint 10 90;
        put_bus bi (set_bus_position (inject_Z k, 0%Q) bus)
    | MoveV =>
        do k <- random_randint (-20) 20;
        put_bus bi (set_bus_position (75%Q, inject_Z k) bus)
    end).

Definition get_revenue : M (list Q) := gets (fun w => revenue_list (tally w)).
Definition get_time : M (list Q) := gets (fun w => plot_times (tally w)).

(** *** objects.py: [BusStop.update_animation] *)




(* ===================================================================== *)
(** ** Notions used to state the properties *)
(* ===================================================================== *)

(** Onboard count within the capacity. *)
Definition cap_ok (b : Bus) : Prop :=
  0 <= Z.of_nat (length (bus_passengers b)) <= capacity b.

(** The boarding rule in the words of the specification: the class rule,
    the direction flag of the bus's geometry equal to the bus's sign-table
    entry, and room on board. *)
Definition recognized (bus : Bus) (nm : string) : bool := str_in nm (stations bus).

Definition on_own_axis (bus : Bus) (nm : string) : bool :=
  str_in nm (axis_names (move bus)).

Definition class_rule (bus : Bus) (sn : string) (p : BusPassenger) : bool :=
  match rapid_express_local bus with
  | Rapid => (recognized bus (destination p) && recognized bus sn)
             || (negb (on_own_axis bus (destination p)) && recognized bus sn)
  | Express => recognized bus sn && recognized bus (destination p)
  | Local => true
  end.

Definition boarding_eligible (bus : Bus) (sn : string) (p : BusPassenger) : bool :=
  class_rule bus sn p
  && (direction_of (move bus) p =? busdir_get (busdir bus) (move bus))
  && (Z.of_nat (length (bus_passengers bus)) <? capacity bus).

(** The onboard passengers as the scan of [stop_at] leaves them. *)
Definition scanned (stop : BusStop) (bus : Bus) : list BusPassenger :=
  map (mark_arrival (stop_name stop)) (bus_passengers bus).

(** The removed passenger still has a transfer to make: [change] is set and
    [changed_and_alight] is not. *)
Definition transfer_pending (p : BusPassenger) : bool :=
  change p && negb (changed_and_alight p).

(** What the transfer branch puts into the stop's waiting list. *)
Definition deposited (m : Move) (now : Q) (p : BusPassenger) : BusPassenger :=
  set_direction_of m 0 (set_arrive_time now p).

Definition is_BOARDS (e : event) : bool :=
  match e with BOARDS _ _ _ _ _ _ => true | _ => false end.
Definition is_ALIGHTS (e : event) : bool :=
  match e with ALIGHTS _ _ _ _ _ _ => true | _ => false end.
Definition is_CHANGES (e : event) : bool :=
  match e with CHANGES _ _ _ _ _ _ => true | _ => false end.
Definition is_LEFT (e : event) : bool :=
  match e with LEFT _ => true | _ => false end.
Definition is_BUS_TURNS (e : event) : bool :=
  match e with BUS_TURNS _ => true | _ => false end.

Definition count_events (f : event -> bool) (evs : list event) : nat :=
  length (filter (fun e => f e = true) evs).

(** The three stops where [stop_at] sets down transferring passengers. *)
Definition transfer_hub (nm : string) : bool :=
  String.eqb nm "Centre St" || String.eqb nm "Queens St"
  || String.eqb nm "North St".

(** A waiting passenger is where it belongs: at the stop it arrived at, or,
    with a transfer still to make, at a hub on the way. *)
Definition located_at (st : BusStop) (p : BusPassenger) : Prop :=
  source p = stop_name st
  \/ (transfer_hub (stop_name st) = true /\ transfer_pending p = true
      /\ destination p <> stop_name st).

Definition stop_located (st : BusStop) : Prop :=
  Forall (located_at st) (stop_passengers st).

(** The interval of the network that bounds a bus, and the coordinate that
    its turn-around test compares with it. *)
Definition bounds_of (rt : Route) (m : Move) : Q * Q :=
  match m with
  | MoveH => (hori_start rt, hori_end rt)
  | MoveV => (vert_start rt, vert_end rt)
  | MoveS => (s_start rt, s_end rt)
  end.

Definition free_coordinate (b : Bus) : Q :=
  match move b with
  | MoveV => snd (bus_position b)
  | MoveH | MoveS => fst (bus_position b)
  end.

(** The coordinate a moving bus computes in this tick. *)
Definition new_coordinate (b : Bus) : Q :=
  (free_coordinate b + speed b * inject_Z (direction b))%Q.

Definition on_plateaus (b : Bus) : Prop :=
  move b = MoveS -> (-20 <= snd (bus_position b) <= 30)%Q.

(** Position inside the configured interval (and between the plateaus). *)
Definition within_bounds (rt : Route) (b : Bus) : Prop :=
  (fst (bounds_of rt (move b)) <= free_coordinate b
   <= snd (bounds_of rt (move b)))%Q
  /\ on_plateaus b.

(** Position at most one step outside the interval, heading back in. *)
Definition near_bounds (rt : Route) (b : Bus) : Prop :=
  (fst (bounds_of rt (move b)) - speed b <= free_coordinate b
   <= snd (bounds_of rt (move b)) + speed b)%Q
  /\ ((snd (bounds_of rt (move b)) < free_coordinate b)%Q -> direction b = -1)
  /\ ((free_coordinate b < fst (bounds_of rt (move b)))%Q -> direction b = 1)
  /\ on_plateaus b.

(** A bus the movement rules are meant for. *)
Definition bus_sane (rt : Route) (b : Bus) : Prop :=
  (direction b = 1 \/ direction b = -1)
  /\ (0 <= speed b)%Q
  /\ (fst (bounds_of rt (move b)) <= snd (bounds_of rt (move b)))%Q.

(** The bucket the plot labels "<=5", "6", ..., "12", ">12" assign to a
    wait of [x] whole seconds. *)
Definition labelled_bucket (x : Z) : nat :=
  if x <=? 5 then 0%nat else if 12 <? x then 8%nat else Z.to_nat (x - 5).

(** The test the boarding loop applies before it looks at the capacity. *)
Definition wanted (bus : Bus) (sn : string) (p : BusPassenger) : bool :=
  class_rule bus sn p
  && (direction_of (move bus) p =? busdir_get (busdir bus) (move bus)).

(** The accumulators after a boarding on a bus of class [c] at time [now]. *)
Definition boarded_tally (c : Service) (now : Q) (t : Tally) : Tally :=
  mkTally (start_time t)
    (revenue_list t ++ [(income t + fare c - fixed_cost t - oil_cost t)%Q])
    (plot_times t ++ [py_round1 (now - start_time t)])
    (passenger_count t + 1) (passenger_num t) (board_passengers t + 1)
    (leave_passengers t) (income t + fare c)%Q (fixed_cost t) (oil_cost t).

(** The bus object after the scan of [stop_at], after an alighting at
    position [i], after the boarding of [p], and when it departs. *)
Definition bus_scanned (stop : BusStop) (bus : Bus) : Bus :=
  set_bus_passengers (scanned stop bus) bus.

Definition bus_alighted (stop : BusStop) (bus : Bus) (i : nat) : Bus :=
  set_bus_passengers (delete i (scanned stop bus))
    (set_stopped true (bus_scanned stop bus)).

Definition bus_boarded (stop : BusStop) (bus : Bus) (p : BusPassenger) : Bus :=
  set_bus_passenger_count (bus_passenger_count bus + 1)
    (set_bus_passengers (scanned stop bus ++ [p])
       (set_stopped true (bus_scanned stop bus))).

Definition bus_departs (stop : BusStop) (bus : Bus) : Bus :=
  set_stopped false (bus_scanned stop bus).

(** The tuple of the [CHANGES] / [ALIGHTS] events: the name and destination
    of the passenger that leaves, the other fields of the last one scanned. *)
Definition alight_fields (mk : string -> string -> string -> Z -> Z -> Z -> event)
    (leaving0 passenger : BusPassenger) : event :=
  mk (name leaving0) (source passenger) (destination leaving0)
     (horizontal_direction passenger) (vertical_direction passenger)
     (inclined_direction passenger).

Definition boards_event (p : BusPassenger) : event :=
  BOARDS (name p) (source p) (destination p) (horizontal_direction p)
    (vertical_direction p) (inclined_direction p).

(** What one call [stop_at(bus, stop)] does, case by case: the outcome and
    the state it leaves. *)
Inductive stop_at_does (w : World) (bi si : nat)
  : outcome (list event) * World -> Prop :=
| SA_no_bus :
    buses w !! bi = None ->
    stop_at_does w bi si (Raised InvalidRef, w)
| SA_no_stop bus :
    buses w !! bi = Some bus -> stop_objs w !! si = None ->
    stop_at_does w bi si (Raised InvalidRef, w)
| SA_changes bus stop i leaving0 :
    buses w !! bi = Some bus -> stop_objs w !! si = Some stop ->
    find_first (alights_at (stop_name stop)) (scanned stop bus)
      = Some (i, leaving0) ->
    transfer_pending leaving0 = true ->
    stop_at_does w bi si
      (Returned [alight_fields CHANGES leaving0
                   (List.last (scanned stop bus) leaving0)],
       mkWorld (route w)
         (<[si := set_stop_passengers
                    (stop_passengers stop
                     ++ [deposited (move bus)
                           (time_tape (env w) (clock_reads w)) leaving0])
                    stop]> (stop_objs w))
         (<[bi := bus_alighted stop bus i]> (buses w))
         (tally w) (avg_wait_time w) (env w) (S (clock_reads w))
         (random_draws w) (choice_draws w))
| SA_alights bus stop i leaving0 :
    buses w !! bi = Some bus -> stop_objs w !! si = Some stop ->
    find_first (alights_at (stop_name stop)) (scanned stop bus)
      = Some (i, leaving0) ->
    transfer_pending leaving0 = false ->
    stop_at_does w bi si
      (Returned [alight_fields ALIGHTS leaving0
                   (List.last (scanned stop bus) leaving0)],
       set_buses (<[bi := bus_alighted stop bus i]> (buses w)) w)
| SA_boards bus stop j p hist' :
    buses w !! bi = Some bus -> stop_objs w !! si = Some stop ->
    find_first (alights_at (stop_name stop)) (scanned stop bus) = None ->
    board_scan (bus_scanned stop bus) (stop_name stop) 0 (stop_passengers stop)
      = ScanBoard j p ->
    py_incr (avg_wait_time w)
      (py_round (time_tape (env w) (clock_reads w) - arrive_time p) - 5)
      = Some hist' ->
    stop_at_does w bi si
      (Returned [boards_event p],
       mkWorld (route w)
         (<[si := set_stop_passengers (delete j (stop_passengers stop)) stop]>
            (stop_objs w))
         (<[bi := bus_boarded stop bus p]> (buses w))
         (boarded_tally (rapid_express_local bus)
            (time_tape (env w) (clock_reads w)) (tally w))
         hist' (env w) (S (clock_reads w)) (random_draws w) (choice_draws w))
| SA_index_error bus stop j p :
    buses w !! bi = Some bus -> stop_objs w !! si = Some stop ->
    find_first (alights_at (stop_name stop)) (scanned stop bus) = None ->
    board_scan (bus_scanned stop bus) (stop_name stop) 0 (stop_passengers stop)
      = ScanBoard j p ->
    py_incr (avg_wait_time w)
      (py_round (time_tape (env w) (clock_reads w) - arrive_time p) - 5)
      = None ->
    stop_at_does w bi si
      (Raised IndexError,
       set_clock_reads (S (clock_reads w))
         (set_buses (<[bi := bus_scanned stop bus]> (buses w)) w))
| SA_departs bus stop :
    buses w !! bi = Some bus -> stop_objs w !! si = Some stop ->
    find_first (alights_at (stop_name stop)) (scanned stop bus) = None ->
    (forall j p,
        board_scan (bus_scanned stop bus) (stop_name stop) 0
          (stop_passengers stop) <> ScanBoard j p) ->
    stop_at_does w bi si
      (Returned [],
       set_buses (<[bi := bus_departs stop bus]> (buses w)) w).

(** Outcomes of one call of [stop_at] on bus [bi] and stop [si], from the
    state [w] (objects [bus], [stop]) to the state [w']. *)

(** One alighting or transfer was resolved and boarding was skipped: one
    [ALIGHTS] or [CHANGES] event, one passenger fewer on board, the bus
    marked stopped, nobody taken from the stop, no boarding recorded. *)
Definition alighted_once (w w' : World) (bi si : nat) (bus : Bus)
    (stop : BusStop) (evs : list event) : Prop :=
  exists e bus' stop',
    evs = [e] /\ (is_ALIGHTS e || is_CHANGES e) = true
    /\ buses w' !! bi = Some bus' /\ stop_objs w' !! si = Some stop'
    /\ stopped bus' = true
    /\ S (length (bus_passengers bus')) = length (bus_passengers bus)
    /\ (exists extra, stop_passengers stop' = stop_passengers stop ++ extra)
    /\ board_passengers (tally w') = board_passengers (tally w)
    /\ avg_wait_time w' = avg_wait_time w.

(** One boarding was resolved: one [BOARDS] event, one passenger moved from
    the stop to the bus, the bus marked stopped. *)
Definition boarded_once (w w' : World) (bi si : nat) (bus : Bus)
    (stop : BusStop) (evs : list event) : Prop :=
  exists e bus' stop',
    evs = [e] /\ is_BOARDS e = true
    /\ buses w' !! bi = Some bus' /\ stop_objs w' !! si = Some stop'
    /\ stopped bus' = true
    /\ length (bus_passengers bus') = S (length (bus_passengers bus))
    /\ S (length (stop_passengers stop')) = length (stop_passengers stop)
    /\ board_passengers (tally w') = board_passengers (tally w) + 1.

(** Nothing was resolved: no event, the stopped flag cleared, the same
    passengers on board and at the stop. *)
Definition nothing_resolved (w w' : World) (bi si : nat) (bus : Bus)
    (stop : BusStop) (evs : list event) : Prop :=
  exists bus',
    evs = []
    /\ buses w' !! bi = Some bus' /\ stop_objs w' = stop_objs w
    /\ stopped bus' = false
    /\ length (bus_passengers bus') = length (bus_passengers bus).

(** Nobody on board gets off at [stop]. *)
Definition nobody_alights (bus : Bus) (stop : BusStop) : Prop :=
  Forall (fun p => alights_at (stop_name stop) p = false) (bus_passengers bus).

(** [p], the [j]-th waiting passenger, is the first one eligible to board. *)
Definition first_eligible (bus : Bus) (stop : BusStop) (j : nat)
    (p : BusPassenger) : Prop :=
  stop_passengers stop !! j = Some p
  /\ boarding_eligible bus (stop_name stop) p = true
  /\ forall k q, (k < j)%nat -> stop_passengers stop !! k = Some q ->
                 boarding_eligible bus (stop_name stop) q = false.

(** The test of [leave_stop]: the wait exceeds 12. *)
Definition impatient (now : Q) (p : BusPassenger) : bool :=
  Qltb 12 (now - arrive_time p).

(** From [w] to [w'] every stop keeps its passengers, except that a stop
    referenced in [l] may have lost one. *)
Definition loses_at_most_one (l : list nat) (w w' : World) : Prop :=
  forall si stop,
    stop_objs w !! si = Some stop ->
    exists stop',
      stop_objs w' !! si = Some stop'
      /\ (si ∉ l -> stop' = stop)
      /\ (length (stop_passengers stop)
          <= S (length (stop_passengers stop')))%nat.

(** *** Relations between the states before and after a computation *)

(** [m] relates every state to the state it leaves, whatever its outcome. *)
Definition steps {A : Type} (R : World -> World -> Prop) (m : M A) : Prop :=
  forall w, R w (state_after m w).

(** Every event that [m] returns satisfies [P]. *)
Definition emits {A : Type} (P : A -> Prop) (m : M (list A)) : Prop :=
  forall w evs, result_of m w = Returned evs -> Forall P evs.

(** What serving a stop may do to a bus: passengers and the stopped flag
    change, nothing that concerns its movement does, and the onboard count
    stays within the capacity if it was. *)
Definition bus_served (b b' : Bus) : Prop :=
  bus_name b' = bus_name b /\ bus_position b' = bus_position b
  /\ direction b' = direction b /\ speed b' = speed b /\ move b' = move b
  /\ busdir b' = busdir b /\ capacity b' = capacity b
  /\ (cap_ok b -> cap_ok b').

(** What a tick may do to a stop: its waiting passengers stay located. *)
Definition stop_evolves (st st' : BusStop) : Prop :=
  stop_name st' = stop_name st /\ stop_position st' = stop_position st
  /\ (stop_located st -> stop_located st').

Definition service (w w' : World) : Prop :=
  route w' = route w
  /\ oil_cost (tally w') = oil_cost (tally w)
  /\ Forall2 bus_served (buses w) (buses w')
  /\ Forall2 stop_evolves (stop_objs w) (stop_objs w')
  /\ length (avg_wait_time w') = length (avg_wait_time w).

(** What a tick may do to a bus: the capacity bound and the position bound
    are kept. *)
Definition bus_evolves (rt : Route) (b b' : Bus) : Prop :=
  (cap_ok b -> cap_ok b')
  /\ (bus_sane rt b /\ near_bounds rt b -> bus_sane rt b' /\ near_bounds rt b').

Definition evolves (w w' : World) : Prop :=
  route w' = route w
  /\ Forall2 (bus_evolves (route w)) (buses w) (buses w')
  /\ Forall2 stop_evolves (stop_objs w) (stop_objs w')
  /\ length (avg_wait_time w') = length (avg_wait_time w).

(** *** The movement of a tick, object by object *)

(** The bus after the move of a tick, before the turn-around test. *)
Definition moved (b : Bus) : Bus :=
  match move b with
  | MoveH => set_bus_position
               ((fst (bus_position b) + speed b * inject_Z (direction b))%Q,
                snd (bus_position b)) b
  | MoveV => set_bus_position
               (fst (bus_position b),
                (snd (bus_position b) + speed b * inject_Z (direction b))%Q) b
  | MoveS => set_bus_position (s_new_position b) b
  end.

(** The bus after the two assignments of the turn-around. *)
Definition turned (m : Move) (b : Bus) : Bus :=
  set_busdir (busdir_set (busdir b) m (- busdir_get (busdir b) m))
    (set_direction (- direction b) b).

(** The turn-around test on the coordinate just computed. *)
Definition exits (rt : Route) (b : Bus) : bool :=
  negb (Qbetween (fst (bounds_of rt (move b))) (free_coordinate (moved b))
          (snd (bounds_of rt (move b)))).

(** The state after the move and the turn-around of bus [bi]. *)
Definition after_turn (w : World) (bi : nat) (bus : Bus) : World :=
  mkWorld (route w) (stop_objs w)
    (<[bi := turned (move bus) (moved bus)]> (buses w))
    (set_oil_cost (oil_cost (tally w) + 2.5)%Q (tally w))
    (avg_wait_time w) (env w) (clock_reads w) (random_draws w)
    (choice_draws w).

(** The state after the movement part of [update_bus_*] for bus [bi]. *)
Definition after_move (w : World) (bi : nat) (bus : Bus) : World :=
  if stopped bus then
    set_buses (<[bi := set_bus_position (bus_position bus) bus]> (buses w)) w
  else if exits (route w) bus then after_turn w bi bus
  else set_buses (<[bi := moved bus]> (buses w)) w.

(** The events of the movement part. *)
Definition move_events (rt : Route) (bus : Bus) : list event :=
  if stopped bus then []
  else if exits rt bus then [BUS_TURNS (bus_name bus)] else [].

(** *** A small network used in the examples *)

(** An environment whose clock always reads [t]; [random.random()] gives 1,
    so nobody arrives. *)
Definition env_at (t : Q) : Env :=
  mkEnv (fun _ => t) (fun _ => 1%Q) (fun _ => 0%nat).

Definition ann : BusPassenger :=
  mkBusPassenger "ann" "West St" "East St" 1 0 0 0%Q false false.

Definition bob : BusPassenger :=
  mkBusPassenger "bob" "Abbey St" "East St" 1 0 0 0%Q false false.

Definition cat : BusPassenger :=
  mkBusPassenger "cat" "Abbey St" "East St" 1 0 0 0%Q false false.

Definition west_st : BusStop := mkBusStop "West St" (0, 0) [ann].
Definition east_st : BusStop := mkBusStop "East St" (100, 0) [].
Definition abbey_st : BusStop := mkBusStop "Abbey St" (50, 0) [cat].

(** A local bus one step before the end of the horizontal line, with bob
    on board, and an empty one just before Abbey St. *)
Definition local1 : Bus :=
  mkBus "L1" (99%Q, 0%Q) 1 3%Q [bob] false [] MoveH Local 10 1
    (mkBusDir 1 0 0).

Definition local2 : Bus :=
  mkBus "L2" (49%Q, 0%Q) 1 3%Q [] false [] MoveH Local 10 0
    (mkBusDir 1 0 0).

Definition demo_route : Route :=
  mkRoute (-30)%Q 30%Q 0%Q 100%Q 0%Q 100%Q [0%nat; 1%nat; 2%nat]
    [0%nat; 1%nat; 2%nat] [] []
    (list_to_map [("West St", 0.5%Q); ("East St", 0.5%Q);
                  ("Abbey St", 0.5%Q)]).

(** A state in the middle of a run, at clock reading [t]: ann and cat have
    been waiting since time 0. *)
Definition demo (t : Q) : World :=
  mkWorld demo_route [west_st; east_st; abbey_st] [local1; local2]
    (mkTally 0%Q [] [] 1 3 1 0 2%Q 50%Q 0%Q) (repeat 0 9) (env_at t)
    0%nat 0%nat 0%nat.

(** *** Notions used in the further properties *)

(** [b'] is [b] up to its passengers, its passenger count and its stopped
    flag: what serving stops may change of a bus. *)
Definition same_but_load (b b' : Bus) : Prop :=
  set_bus_passenger_count (bus_passenger_count b)
    (set_stopped (stopped b) (set_bus_passengers (bus_passengers b) b')) = b.

(** What no tick changes of a bus: its name, speed, stations, geometry,
    service class and capacity, the sign-table entries of the two other
    geometries, and the coordinate across its line (the second coordinate
    of a horizontal bus, the first of a vertical one). *)
Definition bus_fixed (b b' : Bus) : Prop :=
  bus_name b' = bus_name b /\ speed b' = speed b /\ stations b' = stations b
  /\ move b' = move b /\ rapid_express_local b' = rapid_express_local b
  /\ capacity b' = capacity b
  /\ (forall m, m <> move b -> busdir_get (busdir b') m = busdir_get (busdir b) m)
  /\ (move b = MoveH -> snd (bus_position b') = snd (bus_position b))
  /\ (move b = MoveV -> fst (bus_position b') = fst (bus_position b)).

(** The direction is 1 or -1 and the sign-table entry of the bus's own
    geometry repeats it; a tick keeps both. *)
Definition signs_agree (b : Bus) : Prop :=
  (direction b = 1 \/ direction b = -1)
  /\ busdir_get (busdir b) (move b) = direction b.

Definition signs_kept (b b' : Bus) : Prop := signs_agree b -> signs_agree b'.

(** A relation on buses, lifted to the bus lists of two states. *)
Definition buses_rel (P : Bus -> Bus -> Prop) (w w' : World) : Prop :=
  Forall2 P (buses w) (buses w').

(** The number of samples in the histogram. *)
Definition hist_total (h : list Z) : Z := foldr Z.add 0 h.

(** How the accumulators of a later state [w'] relate to those of [w]:
    the start time and the fixed cost are the same; the passenger count,
    the revenue samples and the plot times have all grown by the number of
    boardings; the histogram has one more sample per boarding and per
    passenger that gave up; each boarding added a fare between 2 and 5 to
    the income; the oil cost and the passenger numbering did not go down. *)
Definition books (w w' : World) : Prop :=
  let t := tally w in
  let t' := tally w' in
  let boarded := board_passengers t' - board_passengers t in
  let gave_up := leave_passengers t' - leave_passengers t in
  start_time t' = start_time t
  /\ fixed_cost t' = fixed_cost t
  /\ 0 <= boarded /\ 0 <= gave_up
  /\ passenger_num t <= passenger_num t'
  /\ passenger_count t' = passenger_count t + boarded
  /\ Z.of_nat (length (revenue_list t'))
     = Z.of_nat (length (revenue_list t)) + boarded
  /\ Z.of_nat (length (plot_times t'))
     = Z.of_nat (length (plot_times t)) + boarded
  /\ hist_total (avg_wait_time w')
     = hist_total (avg_wait_time w) + boarded + gave_up
  /\ (income t
        + 2 * (inject_Z (board_passengers t') - inject_Z (board_passengers t))
      <= income t'
      <= income t
         + 5 * (inject_Z (board_passengers t') - inject_Z (board_passengers t)))%Q
  /\ (oil_cost t <= oil_cost t')%Q.

(** Every stop of the network exists and has nobody waiting, and no bus
    has anybody on board: the state in which [init] finds a network built
    with empty passenger lists, or one that [init_conditions] has reset. *)
Definition network_empty (w : World) : Prop :=
  Forall (fun si => exists st, stop_objs w !! si = Some st
                               /\ stop_passengers st = []) (stops (route w))
  /\ Forall (fun b => bus_passengers b = []) (buses w).

(** What [init_conditions] makes of a bus: nobody on board, not stopped,
    a whole-number position on its line drawn from the range of its
    geometry; the passenger count and everything else are as they were. *)
Definition bus_reset (b b' : Bus) : Prop :=
  bus_passengers b' = [] /\ stopped b' = false
  /\ set_bus_position (bus_position b)
       (set_stopped (stopped b) (set_bus_passengers (bus_passengers b) b')) = b
  /\ exists k : Z,
       match move b with
       | MoveS => 60 <= k <= 90 /\ bus_position b' = (inject_Z k, 30%Q)
       | MoveH => 10 <= k <= 90 /\ bus_position b' = (inject_Z k, 0%Q)
       | MoveV => -20 <= k <= 20 /\ bus_position b' = (75%Q, inject_Z k)
       end.

(** The number of direction flags that are not zero. *)
Definition flags_set (h v s : Z) : nat :=
  (Nat.b2n (nonzero h) + Nat.b2n (nonzero v) + Nat.b2n (nonzero s))%nat.

Definition is_sign (x : Z) : Prop := x = -1 \/ x = 0 \/ x = 1.

Definition is_WAITS (e : event) : bool :=
  match e with WAITS _ _ _ _ _ _ => true | _ => false end.

(** The number of events of one kind, as an integer. *)
Definition occurrences (f : event -> bool) (evs : list event) : Z :=
  Z.of_nat (count_events f evs).

(** The passengers in the model: those waiting at the stops and those on
    board the buses. *)
Definition waiting (w : World) : Z :=
  foldr (fun st n => Z.of_nat (length (stop_passengers st)) + n) 0
        (stop_objs w).

Definition on_board (w : World) : Z :=
  foldr (fun b n => Z.of_nat (length (bus_passengers b)) + n) 0 (buses w).

Definition headcount (w : World) : Z := waiting w + on_board w.

(** The events [evs] account for the change from [w] to [w']: one
    boarding, one abandonment, one new passenger number and one
    turn-around cost per event of the kind, and as many passengers more in
    the model as have arrived, less those that alighted or gave up. *)
Definition ledger (evs : list event) (w w' : World) : Prop :=
  board_passengers (tally w')
  = board_passengers (tally w) + occurrences is_BOARDS evs
  /\ leave_passengers (tally w')
     = leave_passengers (tally w) + occurrences is_LEFT evs
  /\ passenger_num (tally w')
     = passenger_num (tally w) + occurrences is_WAITS evs
  /\ (oil_cost (tally w')
      == oil_cost (tally w) + 2.5 * inject_Z (occurrences is_BUS_TURNS evs))%Q
  /\ headcount w'
     = headcount w + occurrences is_WAITS evs - occurrences is_ALIGHTS evs
       - occurrences is_LEFT evs.

(** [m] keeps the ledger: the events it returns account for what it did. *)
Definition logs (m : M (list event)) : Prop :=
  forall w evs, result_of m w = Returned evs -> ledger evs w (state_after m w).

(** The stop list and the stop coordinate that the update of a bus of
    geometry [m] looks at. *)
Definition line_stops (rt : Route) (m : Move) : list nat :=
  match m with
  | MoveH => hori_stops rt
  | MoveV => vert_stops rt
  | MoveS => s_stops rt
  end.

Definition line_coord (m : Move) : Z * Z -> Z :=
  match m with MoveV => snd | MoveH | MoveS => fst end.

(** The stretch [(old, new)] that the update of a bus compares the stops
    with: from its coordinate to the new one when it moves, the stretch of
    its last step when it is stopped. *)
Definition stretch (b : Bus) : Q * Q :=
  if stopped b then
    ((free_coordinate b - speed b * inject_Z (direction b))%Q,
     free_coordinate b)
  else (free_coordinate b, new_coordinate b).

(** The test that decides whether a stop at coordinate [c] is served by a
    bus of direction [d]. *)
Definition crossed (d : Z) (old new : Q) (c : Z) : bool :=
  if d =? 1 then Qltb old (inject_Z c) && Qle_bool (inject_Z c) new
  else Qltb (inject_Z c) old && Qle_bool new (inject_Z c).

(** From [w] to [w'] only bus [bi] and the stops that pass [served] may
    have changed; every stop keeps its name and its position. *)
Definition touches (bi : nat) (served : nat -> BusStop -> Prop)
    (w w' : World) : Prop :=
  (forall bj, bj <> bi -> buses w' !! bj = buses w !! bj)
  /\ length (buses w') = length (buses w)
  /\ length (stop_objs w') = length (stop_objs w)
  /\ forall sj st,
       stop_objs w !! sj = Some st ->
       exists st',
         stop_objs w' !! sj = Some st'
         /\ stop_name st' = stop_name st
         /\ stop_position st' = stop_position st
         /\ (~ served sj st -> st' = st).

(** The stops that a bus of direction [d] on the stop list [refs] serves
    when it covers the stretch from [old] to [new]. *)
Definition on_stretch (refs : list nat) (coord : Z * Z -> Z) (d : Z)
    (old new : Q) (sj : nat) (st : BusStop) : Prop :=
  sj ∈ refs /\ crossed d old new (coord (stop_position st)) = true.

(** A bus that [Bus.__init__] accepts. *)
Definition built (b : Bus) : Prop :=
  exists nm pos d sp ps st sts mv rel cap cnt bd,
    Bus_init nm pos d sp ps st sts mv rel cap cnt bd = inr b.

(** A direction of 1 or -1 and a position on the axis of the geometry:
    [y = 0] for a horizontal bus, [x = 75] for a vertical one. *)
Definition on_axis (b : Bus) : Prop :=
  (direction b = 1 \/ direction b = -1)
  /\ (move b = MoveH -> snd (bus_position b) = 0%Q)
  /\ (move b = MoveV -> fst (bus_position b) = 75%Q).

Definition direction_kept (b b' : Bus) : Prop :=
  (direction b = 1 \/ direction b = -1) ->
  (direction b' = 1 \/ direction b' = -1).

(** A bus arriving at the hub Centre St with dan on board, who travels
    from West St to South St and changes there. *)
Definition dan : BusPassenger :=
  mkBusPassenger "dan" "West St" "South St" 1 (-1) 0 0%Q true false.

Definition centre_st : BusStop := mkBusStop "Centre St" (75, 0) [].

Definition local3 : Bus :=
  mkBus "L3" (74%Q, 0%Q) 1 3%Q [dan] false [] MoveH Local 10 1
    (mkBusDir 1 0 0).

Definition hub_demo (t : Q) : World :=
  mkWorld
    (mkRoute (-30)%Q 30%Q 0%Q 100%Q 0%Q 100%Q [0%nat] [0%nat] [0%nat] []
       (list_to_map [("Centre St", 0.5%Q)]))
    [centre_st] [local3]
    (mkTally 0%Q [] [] 1 1 1 0 2%Q 25%Q 0%Q) (repeat 0 9) (env_at t)
    0%nat 0%nat 0%nat.

(** A network with nobody in it, where [random.random()] gives 0, so that
    somebody arrives at every stop that has a rate, and [random.choice]
    takes the first stop name; the second stop has a name that [init] does
    not know. *)
Definition depot : BusStop := mkBusStop "Depot" (10, 0) [].

Definition fresh_demo (t : Q) : World :=
  mkWorld
    (mkRoute (-30)%Q 30%Q 0%Q 100%Q 0%Q 100%Q [0%nat] [0%nat] [] []
       (list_to_map [("East St", 0.5%Q); ("Depot", 0.5%Q)]))
    [east_st; depot] [local2]
    (mkTally 0%Q [] [] 0 0 0 0 0%Q 0%Q 0%Q) (repeat 0 9)
    (mkEnv (fun _ => t) (fun _ => 0%Q) (fun _ => 0%nat))
    0%nat 0%nat 0%nat.

(** The name that the [k]-th further call of [random.choice(self.busstop)]
    returns in the state [w]. *)
Definition drawn (w : World) (k : nat) : string :=
  nth (choice_tape (env w) (choice_draws w + k) mod length busstop)%nat
      busstop "".





(** [x] is a whole multiple of [2^-k]. *)
Definition on_grid (k : nat) (x : Q) : Prop :=
  exists n : Z, (x * inject_Z (2 ^ Z.of_nat k) == inject_Z n)%Q.

(** [x] is a multiple [n * 2^-k] with [|n| <= 2^53]: a number that a
    double holds exactly. *)
Definition fits (k : nat) (x : Q) : Prop :=
  on_grid k x
  /\ (- inject_Z (2 ^ 53) <= x * inject_Z (2 ^ Z.of_nat k)
      <= inject_Z (2 ^ 53))%Q.

(** The speed and the coordinates of the bus are multiples of [2^-k]. *)
Definition bus_on_grid (k : nat) (b : Bus) : Prop :=
  on_grid k (speed b) /\ on_grid k (fst (bus_position b))
  /\ on_grid k (snd (bus_position b)).

(** The condition under which the positions of the model, which are exact
    rationals, are the floats of the code: speed and coordinates are
    multiples of [2^-k], and the interval of the line, widened by two
    steps (and the plateaus of an inclined bus, widened by one), stays
    below [2^53 * 2^-k].  Every sum and difference that the update of the
    bus forms is then such a multiple of that size, which double precision
    computes without rounding. *)
Definition exact_in_doubles (k : nat) (rt : Route) (b : Bus) : Prop :=
  bus_on_grid k b
  /\ (- inject_Z (2 ^ 53)
      <= (fst (bounds_of rt (move b)) - 2 * speed b) * inject_Z (2 ^ Z.of_nat k))%Q
  /\ ((snd (bounds_of rt (move b)) + 2 * speed b) * inject_Z (2 ^ Z.of_nat k)
      <= inject_Z (2 ^ 53))%Q
  /\ (move b = MoveS ->
      (- inject_Z (2 ^ 53) <= (-20 - speed b) * inject_Z (2 ^ Z.of_nat k))%Q
      /\ ((30 + speed b) * inject_Z (2 ^ Z.of_nat k) <= inject_Z (2 ^ 53))%Q).

Definition grid_kept (k : nat) (b b' : Bus) : Prop :=
  bus_on_grid k b -> bus_on_grid k b'.

(* ===================================================================== *)
(** ** Auxiliary facts *)
(* ===================================================================== *)

Lemma Qltb_lt (x y : Q) : Qltb x y = true <-> (x < y)%Q.
Proof.
  unfold Qltb. rewrite negb_true_iff. split.
  - intros H. apply Qnot_le_lt. intros Hle.
    apply Qle_bool_iff in Hle. congruence.
  - intros H. destruct (Qle_bool y x) eqn:E; [|done].
    apply Qle_bool_iff in E. exfalso. eapply Qlt_not_le; eauto.
Qed.

Lemma Qltb_ge (x y : Q) : Qltb x y = false <-> (y <= x)%Q.
Proof.
  unfold Qltb. rewrite negb_false_iff. apply Qle_bool_iff.
Qed.

Lemma Qbetween_true (lo x hi : Q) :
  Qbetween lo x hi = true <-> (lo <= x <= hi)%Q.
Proof.
  unfold Qbetween. rewrite andb_true_iff, !Qle_bool_iff. tauto.
Qed.

Lemma find_first_Some {A : Type} (f : A -> bool) (l : list A) i x :
  find_first f l = Some (i, x) ->
  l !! i = Some x /\ f x = true
  /\ forall k y, (k < i)%nat -> l !! k = Some y -> f y = false.
Proof.
  revert i. induction l as [|a l IH]; intros i; simpl; [done|].
  destruct (f a) eqn:Fa.
  - intros [= <- <-]. split; [done|]. split; [done|]. intros k y Hk. lia.
  - destruct (find_first f l) as [[i' y']|] eqn:E; [|done].
    intros [= <- <-]. destruct (IH i' eq_refl) as (H1 & H2 & H3).
    split; [done|]. split; [done|].
    intros [|k] y Hk Hy; simpl in Hy.
    + congruence.
    + apply (H3 k); [lia|done].
Qed.

Lemma find_first_None {A : Type} (f : A -> bool) (l : list A) :
  find_first f l = None -> Forall (fun x => f x = false) l.
Proof.
  induction l as [|a l IH]; simpl; [constructor|].
  destruct (f a) eqn:Fa; [done|].
  destruct (find_first f l) as [[i' y']|] eqn:E; [done|].
  intros _. constructor; [done|]. by apply IH.
Qed.

Lemma find_first_intro {A : Type} (f : A -> bool) (l : list A) i x :
  l !! i = Some x -> f x = true ->
  (forall k y, (k < i)%nat -> l !! k = Some y -> f y = false) ->
  find_first f l = Some (i, x).
Proof.
  revert i. induction l as [|a l IH]; intros i Hi Hx Hlt; [done|].
  destruct i as [|i]; simpl in *.
  - injection Hi as ->. by rewrite Hx.
  - rewrite (Hlt O a) by (lia || done).
    rewrite (IH i Hi Hx); [done|].
    intros k y Hk Hy. apply (Hlt (S k) y); [lia|done].
Qed.

Lemma py_incr_length (l l' : list Z) (i : Z) :
  py_incr l i = Some l' -> length l' = length l.
Proof.
  unfold py_incr. destruct (py_index l i); [|done].
  destruct (l !! n); [|done]. intros [= <-]. apply length_insert.
Qed.

Lemma py_incr_last (l : list Z) :
  length l = 9%nat ->
  exists x, l !! 8%nat = Some x /\ py_incr l (-1) = Some (<[8%nat := x + 1]> l).
Proof.
  intros Hl. do 9 (destruct l as [|? l]; [done|]).
  destruct l; [|done]. eexists. split; reflexivity.
Qed.

Lemma board_scan_unfold bus sn j p rest :
  board_scan bus sn j (p :: rest) =
  if wanted bus sn p then
    if Z.of_nat (length (bus_passengers bus)) <? capacity bus
    then ScanBoard j p else ScanBreak
  else board_scan bus sn (S j) rest.
Proof.
  simpl. unfold wanted, class_rule, recognized, on_own_axis.
  rewrite (Z.eqb_sym (direction_of (move bus) p)).
  destruct (rapid_express_local bus); simpl.
  - destruct (_ || _); simpl; [|done]. by destruct (_ =? _).
  - rewrite (andb_comm (str_in sn (stations bus))).
    destruct (_ && _); simpl; [|done]. by destruct (_ =? _).
  - by destruct (_ =? _).
Qed.

Lemma board_scan_ScanBoard bus sn l : forall j0 j p,
  board_scan bus sn j0 l = ScanBoard j p ->
  exists i, j = (j0 + i)%nat /\ l !! i = Some p
    /\ boarding_eligible bus sn p = true
    /\ forall k y, (k < i)%nat -> l !! k = Some y ->
                   boarding_eligible bus sn y = false.
Proof.
  induction l as [|a l IH]; intros j0 j p; [done|].
  rewrite board_scan_unfold.
  destruct (wanted bus sn a) eqn:Wa.
  - destruct (_ <? _) eqn:Hc; [|done]. intros [= <- <-].
    exists O. split; [lia|]. split; [done|]. split.
    + unfold boarding_eligible. unfold wanted in Wa. by rewrite Wa, Hc.
    + intros k y Hk. lia.
  - intros H. destruct (IH _ _ _ H) as (i & -> & Hi & He & Hlt).
    exists (S i). split; [lia|]. split; [done|]. split; [done|].
    intros [|k] y Hk Hy; simpl in Hy.
    + injection Hy as <-. unfold boarding_eligible. unfold wanted in Wa.
      by rewrite Wa.
    + apply (Hlt k); [lia|done].
Qed.

Lemma board_scan_no_board bus sn l : forall j0,
  (forall j p, board_scan bus sn j0 l <> ScanBoard j p) ->
  Forall (fun y => boarding_eligible bus sn y = false) l.
Proof.
  induction l as [|a l IH]; intros j0 H; [constructor|].
  rewrite board_scan_unfold in H.
  destruct (wanted bus sn a) eqn:Wa.
  - destruct (_ <? _) eqn:Hc; [by destruct (H j0 a)|].
    apply Forall_forall. intros y _. unfold boarding_eligible.
    rewrite Hc. apply andb_false_r.
  - constructor; [|by apply (IH (S j0))].
    unfold boarding_eligible. unfold wanted in Wa. by rewrite Wa.
Qed.

Lemma board_scan_first bus sn l : forall j0 i p,
  l !! i = Some p -> boarding_eligible bus sn p = true ->
  (forall k y, (k < i)%nat -> l !! k = Some y ->
               boarding_eligible bus sn y = false) ->
  board_scan bus sn j0 l = ScanBoard (j0 + i) p.
Proof.
  induction l as [|a l IH]; intros j0 i p Hi He Hlt; [done|].
  rewrite board_scan_unfold.
  assert (Hc : (Z.of_nat (length (bus_passengers bus)) <? capacity bus) = true).
  { unfold boarding_eligible in He. by apply andb_true_iff in He as [_ ?]. }
  destruct i as [|i]; simpl in Hi.
  - injection Hi as ->. unfold boarding_eligible in He. rewrite Hc in He.
    rewrite andb_true_r in He. unfold wanted. rewrite He, Hc.
    by rewrite Nat.add_0_r.
  - specialize (Hlt O a ltac:(lia) eq_refl) as Ha.
    unfold boarding_eligible in Ha. rewrite Hc, andb_true_r in Ha.
    unfold wanted. rewrite Ha.
    rewrite (IH (S j0) i p Hi He).
    + f_equal. lia.
    + intros k y Hk Hy. apply (Hlt (S k) y); [lia|done].
Qed.

Lemma bus_scanned_empty stop bus :
  bus_passengers bus = [] -> bus_scanned stop bus = bus.
Proof.
  intros H. unfold bus_scanned, scanned. rewrite H. destruct bus; simpl in *.
  by subst.
Qed.


Ltac sa_simpl :=
  unfold board_or_depart, board, bind, time_time, gets, modify, modify_tally,
    store_cost, store_time, put_bus, put_stop, ret, raise; simpl;
  rewrite ?list_insert_insert_eq.


Lemma length_eqb_0 {A : Type} (l : list A) :
  (length l =? 0)%nat = true <-> l = [].
Proof. destruct l; simpl; split; done. Qed.


Lemma stop_at_cases w bi si : stop_at_does w bi si (stop_at bi si w).
Proof.
  unfold stop_at, bind, get_bus, get_stop.
  destruct (buses w !! bi) as [bus|] eqn:Hb; [|by constructor].
  destruct (stop_objs w !! si) as [stop|] eqn:Hs; [|by econstructor].
  destruct (length (bus_passengers bus) =? 0)%nat eqn:Hlen;
    [change (negb true) with false|change (negb false) with true]; cbv iota.
  - (* no one on board *)
    apply length_eqb_0 in Hlen.
    assert (Hsc : scanned stop bus = []) by (unfold scanned; by rewrite Hlen).
    assert (Hbs : bus_scanned stop bus = bus) by by apply bus_scanned_empty.
    assert (Hff : find_first (alights_at (stop_name stop)) (scanned stop bus) = None)
      by by rewrite Hsc.
    destruct (length (stop_passengers stop) =? 0)%nat eqn:Hlen';
      [change (negb true) with false|change (negb false) with true]; cbv iota.
    + apply length_eqb_0 in Hlen'.
      rewrite <- Hbs. apply (SA_departs w bi si bus stop Hb Hs Hff).
      intros j p. by rewrite Hlen'.
    + unfold board_or_depart. rewrite <- Hbs.
      destruct (board_scan _ _ _ _) as [j p| |] eqn:Hscan.
      * sa_simpl.
        destruct (py_incr _ _) as [hist'|] eqn:Hinc; sa_simpl.
        -- exact (SA_boards w bi si bus stop j p hist' Hb Hs Hff Hscan Hinc).
        -- eapply (eq_ind _ (stop_at_does w bi si));
             [exact (SA_index_error w bi si bus stop j p Hb Hs Hff Hscan Hinc)|].
           rewrite Hbs, list_insert_id by done. by destruct w.
      * sa_simpl. apply (SA_departs w bi si bus stop Hb Hs Hff).
        intros j p. by rewrite Hscan.
      * sa_simpl. apply (SA_departs w bi si bus stop Hb Hs Hff).
        intros j p. by rewrite Hscan.
  - (* passengers on board *)
    sa_simpl.
    destruct (find_first _ _) as [[i leaving0]|] eqn:Hff.
    + sa_simpl.
      change (change leaving0 && negb (changed_and_alight leaving0))
        with (transfer_pending leaving0).
      destruct (transfer_pending leaving0) eqn:Hch; sa_simpl.
      * exact (SA_changes w bi si bus stop i leaving0 Hb Hs Hff Hch).
      * exact (SA_alights w bi si bus stop i leaving0 Hb Hs Hff Hch).
    + unfold board_or_depart.
      change (set_bus_passengers
                (map (mark_arrival (stop_name stop)) (bus_passengers bus)) bus)
        with (bus_scanned stop bus).
      destruct (board_scan _ _ _ _) as [j p| |] eqn:Hscan.
      * sa_simpl.
        destruct (py_incr _ _) as [hist'|] eqn:Hinc; sa_simpl.
        -- exact (SA_boards w bi si bus stop j p hist' Hb Hs Hff Hscan Hinc).
        -- exact (SA_index_error w bi si bus stop j p Hb Hs Hff Hscan Hinc).
      * sa_simpl. apply (SA_departs w bi si bus stop Hb Hs Hff).
        intros j p. by rewrite Hscan.
      * sa_simpl. apply (SA_departs w bi si bus stop Hb Hs Hff).
        intros j p. by rewrite Hscan.
Qed.

Lemma alights_at_mark sn p : alights_at sn (mark_arrival sn p) = alights_at sn p.
Proof. unfold mark_arrival. by destruct (String.eqb (destination p) sn). Qed.

Lemma mark_arrival_id sn p : alights_at sn p = false -> mark_arrival sn p = p.
Proof.
  unfold alights_at, mark_arrival.
  by destruct (String.eqb (destination p) sn).
Qed.

Lemma scanned_nobody_alights bus stop :
  nobody_alights bus stop -> scanned stop bus = bus_passengers bus.
Proof.
  unfold nobody_alights, scanned. induction 1 as [|p l Hp _ IH]; [done|].
  simpl. by rewrite IH, mark_arrival_id.
Qed.

Lemma find_first_scanned bus stop :
  find_first (alights_at (stop_name stop)) (scanned stop bus) = None <->
  nobody_alights bus stop.
Proof.
  unfold nobody_alights, scanned. split.
  - intros H. apply find_first_None in H. rewrite Forall_map in H.
    eapply Forall_impl; [exact H|]. intros p. simpl. by rewrite alights_at_mark.
  - induction 1 as [|p l Hp _ IH]; [done|]. simpl.
    by rewrite alights_at_mark, Hp, IH.
Qed.

Lemma length_scanned stop bus :
  length (scanned stop bus) = length (bus_passengers bus).
Proof. unfold scanned. apply length_map. Qed.

Lemma boarding_eligible_scanned stop bus sn p :
  boarding_eligible (bus_scanned stop bus) sn p = boarding_eligible bus sn p.
Proof.
  unfold boarding_eligible, bus_scanned. simpl. by rewrite length_scanned.
Qed.

Lemma find_first_lt {A} (f : A -> bool) l i x :
  find_first f l = Some (i, x) -> (i < length l)%nat.
Proof.
  intros H. apply find_first_Some in H as (H & _). by eapply lookup_lt_Some.
Qed.

Ltac sa_inv w bi si :=
  let H := fresh "Hsa" in
  pose proof (stop_at_cases w bi si) as H;
  unfold result_of, state_after;
  inversion H as [ ? Heq | ? ? ? Heq | ? ? ? ? ? ? ? ? Heq | ? ? ? ? ? ? ? ? Heq
                 | ? ? ? ? ? ? ? ? ? ? Heq | ? ? ? ? ? ? ? ? ? Heq
                 | ? ? ? ? ? ? Heq ]; clear H;
  simplify_eq; simpl.


Lemma length_delete_lt {A} (l : list A) i :
  (i < length l)%nat -> S (length (delete i l)) = length l.
Proof.
  intros H. rewrite length_delete by by apply lookup_lt_is_Some. lia.
Qed.

Lemma eligible_wanted bus sn p :
  boarding_eligible bus sn p = true ->
  wanted bus sn p = true
  /\ Z.of_nat (length (bus_passengers bus)) < capacity bus.
Proof.
  unfold boarding_eligible, wanted. rewrite andb_true_iff, Z.ltb_lt. tauto.
Qed.

Lemma scan_board_eligible stop bus j p :
  board_scan (bus_scanned stop bus) (stop_name stop) 0 (stop_passengers stop)
    = ScanBoard j p ->
  first_eligible bus stop j p.
Proof.
  intros H. apply board_scan_ScanBoard in H as (i & -> & Hi & He & Hlt).
  simpl. rewrite boarding_eligible_scanned in He.
  split; [done|]. split; [done|].
  intros k q Hk Hq. rewrite <- (boarding_eligible_scanned stop). eauto.
Qed.

(** C2.  One call of [stop_at] resolves at most one passenger action:
    either exactly one alighting or transfer (one [ALIGHTS] or [CHANGES]
    event, boarding skipped) or exactly one boarding (one [BOARDS] event),
    and then the bus is marked stopped; otherwise no event, and the stopped
    flag is cleared.  When nobody on board gets off and no waiting passenger
    passes the class and direction test, or the bus is full, the call
    returns no event and clears the flag.  The only exception the call can
    raise on existing objects is the [IndexError] of the histogram update,
    and then nobody has moved. *)
Theorem stop_at_one_action (w : World) (bi si : nat) (bus : Bus) (stop : BusStop) :
  buses w !! bi = Some bus ->
  stop_objs w !! si = Some stop ->
  let w' := state_after (stop_at bi si) w in
  match result_of (stop_at bi si) w with
  | Returned evs =>
      alighted_once w w' bi si bus stop evs
      \/ boarded_once w w' bi si bus stop evs
      \/ nothing_resolved w w' bi si bus stop evs
  | Raised e =>
      e = IndexError /\ stop_objs w' = stop_objs w
      /\ tally w' = tally w /\ avg_wait_time w' = avg_wait_time w
      /\ exists bus', buses w' !! bi = Some bus'
           /\ length (bus_passengers bus') = length (bus_passengers bus)
  end
  /\ (nobody_alights bus stop ->
      Forall (fun p => wanted bus (stop_name stop) p = false)
             (stop_passengers stop)
      \/ capacity bus <= Z.of_nat (length (bus_passengers bus)) ->
      result_of (stop_at bi si) w = Returned []
      /\ exists bus', buses w' !! bi = Some bus' /\ stopped bus' = false).
Proof.
  intros Hb Hs w'. subst w'.
  assert (Hbi : (bi < length (buses w))%nat) by by eapply lookup_lt_Some.
  assert (Hsi : (si < length (stop_objs w))%nat) by by eapply lookup_lt_Some.
  sa_inv w bi si.
  - (* transfer *)
    split.
    + left. eexists _, _, _. split; [done|]. split; [done|]. simpl.
      rewrite !list_lookup_insert_eq by done. split; [done|]. split; [done|].
      simpl. split; [done|]. split.
      { rewrite <- (length_scanned stop). apply length_delete_lt.
        by eapply find_first_lt. }
      split; [by eexists|]. done.
    + intros Hna _. apply find_first_scanned in Hna. congruence.
  - (* alighting *)
    split.
    + left. eexists _, _, _. split; [done|]. split; [done|]. simpl.
      rewrite !list_lookup_insert_eq by done. split; [done|]. split; [done|].
      simpl. split; [done|]. split.
      { rewrite <- (length_scanned stop). apply length_delete_lt.
        by eapply find_first_lt. }
      split; [by exists []; rewrite app_nil_r|]. done.
    + intros Hna _. apply find_first_scanned in Hna. congruence.
  - (* boarding *)
    match goal with H : board_scan _ _ _ _ = _ |- _ =>
      apply scan_board_eligible in H as (Hj & He & Hlt) end.
    split.
    + right. left. eexists _, _, _. split; [done|]. split; [done|]. simpl.
      rewrite !list_lookup_insert_eq by done. split; [done|]. split; [done|].
      simpl. split; [done|]. split.
      { rewrite length_app, length_scanned. simpl. lia. }
      split; [|done].
      apply length_delete_lt. by eapply lookup_lt_Some.
    + intros _ Hno. exfalso. apply eligible_wanted in He as [Hw Hc].
      destruct Hno as [Hall|Hfull]; [|lia].
      rewrite Forall_lookup in Hall. specialize (Hall _ _ Hj). congruence.
  - (* the histogram update raises *)
    match goal with H : board_scan _ _ _ _ = _ |- _ =>
      apply scan_board_eligible in H as (Hj & He & Hlt) end.
    split.
    + split; [done|]. split; [done|]. split; [done|]. split; [done|].
      eexists. rewrite list_lookup_insert_eq by done. split; [done|].
      simpl. apply length_scanned.
    + intros _ Hno. exfalso. apply eligible_wanted in He as [Hw Hc].
      destruct Hno as [Hall|Hfull]; [|lia].
      rewrite Forall_lookup in Hall. specialize (Hall _ _ Hj). congruence.
  - (* nothing to do *)
    split.
    + right. right. eexists. split; [done|]. simpl.
      rewrite list_lookup_insert_eq by done. split; [done|]. split; [done|].
      split; [done|]. simpl. apply length_scanned.
    + intros _ _. split; [done|]. eexists.
      rewrite list_lookup_insert_eq by done. done.
Qed.

Lemma find_first_mark sn l i p0 :
  find_first (alights_at sn) l = Some (i, p0) ->
  find_first (alights_at sn) (map (mark_arrival sn) l)
    = Some (i, mark_arrival sn p0).
Proof.
  revert i. induction l as [|a l IH]; intros i; simpl; [done|].
  rewrite alights_at_mark. destruct (alights_at sn a); [by intros [= <- <-]|].
  destruct (find_first (alights_at sn) l) as [[i' y]|]; [|done].
  intros [= <- <-]. by rewrite (IH i' eq_refl).
Qed.

Lemma first_eligible_scan stop bus j p :
  first_eligible bus stop j p ->
  board_scan (bus_scanned stop bus) (stop_name stop) 0 (stop_passengers stop)
    = ScanBoard j p.
Proof.
  intros (Hj & He & Hlt).
  apply (board_scan_first _ _ _ O j p); [done| |].
  - by rewrite boarding_eligible_scanned.
  - intros k q Hk Hq. rewrite boarding_eligible_scanned. eauto.
Qed.

(** C3.  Boarding in [stop_at] follows the class rule, the direction test
    and the capacity test ([boarding_eligible]), in arrival order: a
    [BOARDS] event is only ever emitted for the first eligible waiting
    passenger, when nobody gets off; and when nobody gets off, the first
    eligible waiting passenger does board (moved from the stop to the bus),
    unless its wait falls outside the histogram and the update raises. *)
Theorem boarding_rule (w : World) (bi si : nat) (bus : Bus) (stop : BusStop) :
  buses w !! bi = Some bus ->
  stop_objs w !! si = Some stop ->
  let w' := state_after (stop_at bi si) w in
  let now := time_tape (env w) (clock_reads w) in
  (forall evs e,
      result_of (stop_at bi si) w = Returned evs ->
      e ∈ evs -> is_BOARDS e = true ->
      exists j p bus',
        first_eligible bus stop j p /\ nobody_alights bus stop
        /\ evs = [boards_event p]
        /\ buses w' !! bi = Some bus'
        /\ bus_passengers bus' = bus_passengers bus ++ [p]
        /\ stop_objs w' !! si
           = Some (set_stop_passengers (delete j (stop_passengers stop)) stop))
  /\ (forall j p,
         first_eligible bus stop j p -> nobody_alights bus stop ->
         match py_incr (avg_wait_time w)
                 (py_round (now - arrive_time p) - 5) with
         | Some hist' =>
             result_of (stop_at bi si) w = Returned [boards_event p]
             /\ avg_wait_time w' = hist'
             /\ (exists bus', buses w' !! bi = Some bus'
                   /\ bus_passengers bus' = bus_passengers bus ++ [p])
             /\ stop_objs w' !! si
                = Some (set_stop_passengers (delete j (stop_passengers stop))
                          stop)
         | None => result_of (stop_at bi si) w = Raised IndexError
         end).
Proof.
  intros Hb Hs w' now. subst w' now.
  assert (Hbi : (bi < length (buses w))%nat) by by eapply lookup_lt_Some.
  assert (Hsi : (si < length (stop_objs w))%nat) by by eapply lookup_lt_Some.
  split.
  - intros evs e. sa_inv w bi si; intros [= <-] He Hbo.
    + apply list_elem_of_singleton in He as ->. done.
    + apply list_elem_of_singleton in He as ->. done.
    + match goal with H : find_first _ _ = None |- _ =>
        apply find_first_scanned in H as Hna end.
      match goal with H : board_scan _ _ _ _ = _ |- _ =>
        apply scan_board_eligible in H as Hfe end.
      eexists _, _, _. split; [exact Hfe|]. split; [done|]. split; [done|].
      rewrite !list_lookup_insert_eq by done. split; [done|]. split; [|done].
      simpl. by rewrite scanned_nobody_alights.
    + by apply elem_of_nil in He.
  - intros j p Hfe Hna.
    pose proof (first_eligible_scan _ _ _ _ Hfe) as Hscan.
    pose proof (proj2 (find_first_scanned bus stop) Hna) as Hff.
    sa_inv w bi si; try congruence.
    + match goal with H : board_scan _ _ _ _ = ScanBoard _ _ |- _ =>
        rewrite Hscan in H; injection H as <- <- end.
      match goal with H : py_incr _ _ = _ |- _ => rewrite H end.
      rewrite !list_lookup_insert_eq by done.
      split; [done|]. split; [done|]. split; [|done].
      eexists. split; [done|]. simpl. by rewrite scanned_nobody_alights.
    + match goal with H : board_scan _ _ _ _ = ScanBoard _ _ |- _ =>
        rewrite Hscan in H; injection H as <- <- end.
      match goal with H : py_incr _ _ = _ |- _ => by rewrite H end.
Qed.

(** C4.  When the first onboard passenger that gets off at the stop is
    removed from the bus: if, as the scan leaves it, its [change] flag is
    set and [changed_and_alight] is not, it is appended to the waiting list
    of that stop with [arrive_time] reset to the current time, and the one
    event is [CHANGES]; otherwise the one event is [ALIGHTS] and no stop
    receives the passenger.  (The scan sets [changed_and_alight] on a
    passenger whose destination is this stop, so such a passenger never
    transfers.) *)
Theorem alighting_outcome (w : World) (bi si : nat) (bus : Bus)
    (stop : BusStop) (i : nat) (p0 : BusPassenger) :
  buses w !! bi = Some bus ->
  stop_objs w !! si = Some stop ->
  find_first (alights_at (stop_name stop)) (bus_passengers bus) = Some (i, p0) ->
  let w' := state_after (stop_at bi si) w in
  let now := time_tape (env w) (clock_reads w) in
  let p := mark_arrival (stop_name stop) p0 in
  let last := List.last (scanned stop bus) p in
  transfer_pending p
    = change p0 && negb (changed_and_alight p0)
      && negb (String.eqb (destination p0) (stop_name stop))
  /\ (exists bus', buses w' !! bi = Some bus'
        /\ bus_passengers bus' = delete i (scanned stop bus)
        /\ stopped bus' = true)
  /\ if transfer_pending p then
       result_of (stop_at bi si) w = Returned [alight_fields CHANGES p last]
       /\ stop_objs w' !! si
          = Some (set_stop_passengers
                    (stop_passengers stop ++ [deposited (move bus) now p]) stop)
       /\ arrive_time (deposited (move bus) now p) = now
     else
       result_of (stop_at bi si) w = Returned [alight_fields ALIGHTS p last]
       /\ stop_objs w' = stop_objs w.
Proof.
  intros Hb Hs Hff w' now p last. subst w' now p last.
  assert (Hbi : (bi < length (buses w))%nat) by by eapply lookup_lt_Some.
  assert (Hsi : (si < length (stop_objs w))%nat) by by eapply lookup_lt_Some.
  apply find_first_mark in Hff. fold (scanned stop bus) in Hff.
  split.
  { unfold transfer_pending, mark_arrival.
    destruct (String.eqb (destination p0) (stop_name stop)); simpl.
    - by rewrite !andb_false_r.
    - by rewrite andb_true_r. }
  sa_inv w bi si; try congruence.
  -     match goal with H : transfer_pending _ = _ |- _ => rewrite H end.
    rewrite !list_lookup_insert_eq by done.
    split; [eexists; split; [done|]; by split|].
    split; [done|]. split; [done|].
    unfold deposited. by destruct (move bus).
  -     match goal with H : transfer_pending _ = _ |- _ => rewrite H end.
    rewrite !list_lookup_insert_eq by done.
    split; [eexists; split; [done|]; by split|]. done.
Qed.

Lemma leave_stop_cases w si :
  match stop_objs w !! si with
  | None => leave_stop si w = (Raised InvalidRef, w)
  | Some stop =>
      match find_first (impatient (time_tape (env w) (clock_reads w)))
              (stop_passengers stop) with
      | Some (i, p) =>
          match py_incr (avg_wait_time w) (-1) with
          | Some hist' =>
              leave_stop si w
              = (Returned [LEFT (name p)],
                 mkWorld (route w)
                   (<[si := set_stop_passengers
                              (delete i (stop_passengers stop)) stop]>
                      (stop_objs w))
                   (buses w)
                   (set_leave_passengers (leave_passengers (tally w) + 1)
                      (tally w))
                   hist' (env w) (S (clock_reads w)) (random_draws w)
                   (choice_draws w))
          | None =>
              leave_stop si w
              = (Raised IndexError,
                 mkWorld (route w)
                   (<[si := set_stop_passengers
                              (delete i (stop_passengers stop)) stop]>
                      (stop_objs w))
                   (buses w) (tally w) (avg_wait_time w) (env w)
                   (S (clock_reads w)) (random_draws w) (choice_draws w))
          end
      | None =>
          leave_stop si w
          = (Returned [], set_clock_reads (S (clock_reads w)) w)
      end
  end.
Proof.
  unfold leave_stop, bind, get_stop.
  destruct (stop_objs w !! si) as [stop|]; [|done].
  unfold time_time. cbv beta iota. cbn [clock_reads env set_clock_reads].
  fold (impatient (time_tape (env w) (clock_reads w))).
  destruct (find_first _ _) as [[i p]|]; [|done].
  unfold put_stop, modify, gets, modify_tally, raise, ret. simpl.
  by destruct (py_incr _ _).
Qed.

Lemma impatient_true now p :
  impatient now p = true <-> (12 < now - arrive_time p)%Q.
Proof. apply Qltb_lt. Qed.

Lemma impatient_false now p :
  impatient now p = false <-> (now - arrive_time p <= 12)%Q.
Proof. apply Qltb_ge. Qed.

Lemma for_each_cons {A : Type} (body : A -> M (list event)) x l w :
  for_each (x :: l) body w =
  match body x w with
  | (Returned evs, w1) =>
      match for_each l body w1 with
      | (Returned evs', w2) => (Returned (evs ++ evs'), w2)
      | (Raised e, w2) => (Raised e, w2)
      end
  | (Raised e, w1) => (Raised e, w1)
  end.
Proof.
  simpl. unfold bind. destruct (body x w) as [[evs|e] w1]; [|done].
  by destruct (for_each l body w1) as [[evs'|e] w2].
Qed.

Lemma loses_same l w w' :
  stop_objs w' = stop_objs w -> loses_at_most_one l w w'.
Proof.
  intros E si stop H. exists stop. rewrite E.
  split; [done|]. split; [done|]. lia.
Qed.

Lemma leave_stop_loses w si :
  loses_at_most_one [si] w (state_after (leave_stop si) w).
Proof.
  unfold state_after. pose proof (leave_stop_cases w si) as H.
  destruct (stop_objs w !! si) as [stop|] eqn:Hs.
  2: { rewrite H. by apply loses_same. }
  assert (Hlose : forall i p t h c,
    find_first (impatient (time_tape (env w) (clock_reads w)))
      (stop_passengers stop) = Some (i, p) ->
    loses_at_most_one [si] w
      (mkWorld (route w)
         (<[si := set_stop_passengers (delete i (stop_passengers stop)) stop]>
            (stop_objs w)) (buses w) t h (env w) c (random_draws w)
         (choice_draws w))).
  { intros i p t h c Hff sj st Hsj. simpl.
    destruct (decide (sj = si)) as [->|Hne].
    - rewrite list_lookup_insert_eq by by eapply lookup_lt_Some.
      eexists. split; [done|]. split.
      + intros Hn. exfalso. apply Hn. by apply list_elem_of_singleton.
      + simpl. assert (st = stop) as -> by congruence.
        rewrite length_delete_lt; [lia|]. by eapply find_first_lt.
    - rewrite list_lookup_insert_ne by done. exists st.
      split; [done|]. split; [done|]. lia. }
  destruct (find_first _ _) as [[i p]|] eqn:Hff.
  - destruct (py_incr _ _); rewrite H; simpl; by eapply Hlose.
  - rewrite H. by apply loses_same.
Qed.

Lemma leave_loop_loses l :
  NoDup l -> forall w,
  loses_at_most_one l w (state_after (for_each l leave_stop) w).
Proof.
  induction 1 as [|x l Hx Hnd IH]; intros w; [by apply loses_same|].
  unfold state_after. rewrite for_each_cons.
  pose proof (leave_stop_loses w x) as H1. unfold state_after in H1.
  destruct (leave_stop x w) as [[evs|e] w1]; simpl in H1.
  - pose proof (IH w1) as H2. unfold state_after in H2.
    assert (Hgoal : loses_at_most_one (x :: l) w (for_each l leave_stop w1).2).
    { intros si stop Hs.
      destruct (H1 si stop Hs) as (st1 & Hs1 & Hsame1 & Hlen1).
      destruct (H2 si st1 Hs1) as (st2 & Hs2 & Hsame2 & Hlen2).
      exists st2. split; [done|]. split.
      - intros Hn.
        assert (Hn1 : si ∉ [x]).
        { intros ?%list_elem_of_singleton. apply Hn. subst. left. }
        assert (Hn2 : si ∉ l) by (intros ?; apply Hn; by right).
        by rewrite (Hsame2 Hn2), (Hsame1 Hn1).
      - destruct (decide (si = x)) as [->|Hne].
        + rewrite Hsame2 by done. done.
        + assert (st1 = stop) as ->; [|done].
          apply Hsame1. by intros ?%list_elem_of_singleton. }
    by destruct (for_each l leave_stop w1) as [[evs'|e] w2].
  - intros si stop Hs. destruct (H1 si stop Hs) as (st1 & Hs1 & Hsame1 & Hlen1).
    exists st1. split; [done|]. split; [|done].
    intros Hn. apply Hsame1. intros ?%list_elem_of_singleton. apply Hn.
    subst. left.
Qed.

Lemma leave_stop_events w si evs :
  result_of (leave_stop si) w = Returned evs ->
  (exists p, evs = [LEFT p]) \/ evs = [].
Proof.
  unfold result_of. pose proof (leave_stop_cases w si) as H.
  destruct (stop_objs w !! si) as [stop|]; [|by rewrite H].
  destruct (find_first _ _) as [[i p]|].
  - destruct (py_incr _ _); rewrite H; simpl; [|done].
    intros [= <-]. left. by eexists.
  - rewrite H. simpl. intros [= <-]. by right.
Qed.

Lemma leave_loop_events l : forall w evs,
  result_of (for_each l leave_stop) w = Returned evs ->
  (length evs <= length l)%nat /\ Forall (fun e => is_LEFT e = true) evs.
Proof.
  induction l as [|x l IH]; intros w evs.
  - intros [= <-]. split; [done|constructor].
  - unfold result_of. rewrite for_each_cons.
    pose proof (leave_stop_events w x) as H1. unfold result_of in H1.
    destruct (leave_stop x w) as [[evs1|e] w1]; [|done].
    pose proof (IH w1) as H2. unfold result_of in H2.
    destruct (for_each l leave_stop w1) as [[evs2|e] w2]; [|done].
    simpl. intros [= <-].
    destruct (H2 _ eq_refl) as [Hlen Hall].
    destruct (H1 _ eq_refl) as [[p ->]| ->]; simpl.
    + split; [lia|]. by constructor.
    + split; [lia|done].
Qed.

Lemma count_events_le f evs : (count_events f evs <= length evs)%nat.
Proof. unfold count_events. apply length_filter. Qed.

(** One call of [leave_stop]: it removes the first waiting passenger, in
    arrival order, whose wait exceeds 12: one [LEFT] event,
    [leave_passengers] incremented by one, and nobody else removed even
    when several have waited too long; when nobody has, nothing changes.
    In the abandonment loop over pairwise distinct stops, every stop loses
    at most one passenger and there are at most as many [LEFT] events as
    stops. *)
Lemma leave_stop_first_impatient (w : World) (si : nat) (stop : BusStop) :
  stop_objs w !! si = Some stop ->
  length (avg_wait_time w) = 9%nat ->
  NoDup (stops (route w)) ->
  let now := time_tape (env w) (clock_reads w) in
  let w' := state_after (leave_stop si) w in
  (forall i p,
      stop_passengers stop !! i = Some p ->
      (12 < now - arrive_time p)%Q ->
      (forall k q, (k < i)%nat -> stop_passengers stop !! k = Some q ->
                   (now - arrive_time q <= 12)%Q) ->
      result_of (leave_stop si) w = Returned [LEFT (name p)]
      /\ stop_objs w' !! si
         = Some (set_stop_passengers (delete i (stop_passengers stop)) stop)
      /\ leave_passengers (tally w') = leave_passengers (tally w) + 1)
  /\ ((forall p, p ∈ stop_passengers stop -> (now - arrive_time p <= 12)%Q) ->
      result_of (leave_stop si) w = Returned []
      /\ stop_objs w' = stop_objs w
      /\ leave_passengers (tally w') = leave_passengers (tally w))
  /\ (exists evs, result_of (leave_stop si) w = Returned evs
                  /\ (count_events is_LEFT evs <= 1)%nat)
  /\ (exists stop',
         stop_objs (state_after leave_phase w) !! si = Some stop'
         /\ (length (stop_passengers stop)
             <= S (length (stop_passengers stop')))%nat)
  /\ (forall evs, result_of leave_phase w = Returned evs ->
                  (count_events is_LEFT evs <= length (stops (route w)))%nat).
Proof.
  intros Hs Hlen Hnd now w'. subst now w'.
  assert (Hsi : (si < length (stop_objs w))%nat) by by eapply lookup_lt_Some.
  destruct (py_incr_last _ Hlen) as (x & Hx & Hinc).
  pose proof (leave_stop_cases w si) as Hc. rewrite Hs, Hinc in Hc.
  unfold result_of, state_after.
  split; [|split; [|split; [|split]]].
  - intros i p Hi Hp Hlt.
    rewrite (find_first_intro _ _ i p) in Hc; [| done | by apply impatient_true |].
    + rewrite Hc. simpl. by rewrite list_lookup_insert_eq.
    + intros k q Hk Hq. apply impatient_false. eauto.
  - intros Hall.
    destruct (find_first _ _) as [[i p]|] eqn:Hff.
    + apply find_first_Some in Hff as (Hi & Hp & _).
      apply impatient_true in Hp. apply list_elem_of_lookup_2 in Hi.
      specialize (Hall _ Hi). exfalso. eapply Qlt_not_le; eauto.
    + by rewrite Hc.
  - destruct (find_first _ _) as [[i p]|]; rewrite Hc; simpl;
      eexists; (split; [done|]); unfold count_events; simpl; lia.
  - pose proof (leave_loop_loses _ Hnd w si stop Hs) as (stop' & H1 & _ & H2).
    exists stop'. by split.
  - intros evs Hev. etrans; [apply count_events_le|].
    eapply (leave_loop_events _ w evs). exact Hev.
Qed.

(** C10.  An abandonment performed by [leave_stop] increments the last
    bucket (position 8) of the histogram [avg_wait_time], the list that
    [get_wait] returns and that a boarding increments as well. *)
Theorem abandonment_counted_in_last_bucket (w : World) (si : nat)
    (stop : BusStop) (i : nat) (p : BusPassenger) :
  stop_objs w !! si = Some stop ->
  length (avg_wait_time w) = 9%nat ->
  find_first (impatient (time_tape (env w) (clock_reads w)))
    (stop_passengers stop) = Some (i, p) ->
  let w' := state_after (leave_stop si) w in
  result_of (leave_stop si) w = Returned [LEFT (name p)]
  /\ stop_objs w' !! si
     = Some (set_stop_passengers (delete i (stop_passengers stop)) stop)
  /\ (exists x, avg_wait_time w !! 8%nat = Some x
                /\ avg_wait_time w' = <[8%nat := x + 1]> (avg_wait_time w))
  /\ result_of get_wait w' = Returned (avg_wait_time w')
  /\ length (avg_wait_time w') = 9%nat
  /\ (forall bi sj evs e,
         result_of (stop_at bi sj) w' = Returned evs ->
         e ∈ evs -> is_BOARDS e = true ->
         exists k y, avg_wait_time w' !! k = Some y
                     /\ avg_wait_time (state_after (stop_at bi sj) w')
                        = <[k := y + 1]> (avg_wait_time w')).
Proof.
  intros Hs Hlen Hff w'. subst w'.
  assert (Hsi : (si < length (stop_objs w))%nat) by by eapply lookup_lt_Some.
  destruct (py_incr_last _ Hlen) as (x & Hx & Hinc).
  pose proof (leave_stop_cases w si) as Hc. rewrite Hs, Hff, Hinc in Hc.
  unfold result_of, state_after. rewrite Hc. simpl.
  split; [done|]. split; [by rewrite list_lookup_insert_eq|].
  split; [by exists x|]. split; [done|]. split; [by rewrite length_insert|].
  intros bi sj evs e.
  match goal with |- context [stop_at bi sj ?w1] => sa_inv w1 bi sj end;
    intros [= <-] He Hbo.
  - apply list_elem_of_singleton in He as ->. done.
  - apply list_elem_of_singleton in He as ->. done.
  - match goal with H : py_incr _ _ = Some _ |- _ =>
      unfold py_incr in H; simpl in H end.
    destruct (py_index _ _) as [k|]; [|done].
    destruct (_ !! k) as [y|] eqn:Hy; [|done]. simplify_eq.
    by exists k, y.
  - by apply elem_of_nil in He.
Qed.

Section Steps.
Context (R : World -> World -> Prop) `{!PreOrder R}.

Lemma steps_ret {A} (a : A) : steps R (ret a).
Proof. intros w. reflexivity. Qed.

Lemma steps_raise {A} (e : exn) : steps R (@raise A e).
Proof. intros w. reflexivity. Qed.

Lemma steps_gets {A} (f : World -> A) : steps R (gets f).
Proof. intros w. reflexivity. Qed.

Lemma steps_get_bus bi : steps R (get_bus bi).
Proof.
  intros w. unfold state_after, get_bus. destruct (buses w !! bi); reflexivity.
Qed.

Lemma steps_get_stop si : steps R (get_stop si).
Proof.
  intros w. unfold state_after, get_stop.
  destruct (stop_objs w !! si); reflexivity.
Qed.

Lemma steps_bind {A B} (m : M A) (k : A -> M B) :
  steps R m -> (forall a, steps R (k a)) -> steps R (bind m k).
Proof.
  intros Hm Hk w. specialize (Hm w). unfold state_after, bind in *.
  destruct (m w) as [[a|e] w1]; simpl in *; [|done].
  etrans; [exact Hm|]. apply Hk.
Qed.

Lemma steps_for_each {A} (l : list A) (body : A -> M (list event)) :
  (forall x, steps R (body x)) -> steps R (for_each l body).
Proof.
  intros Hb. induction l as [|x l IH]; simpl.
  - apply steps_ret.
  - apply steps_bind; [apply Hb|]. intros evs.
    apply steps_bind; [apply IH|]. intros evs'. apply steps_ret.
Qed.
End Steps.

Lemma emits_for_each {A} (P : event -> Prop) (l : list A)
    (body : A -> M (list event)) :
  (forall x, emits P (body x)) -> emits P (for_each l body).
Proof.
  intros Hb. induction l as [|x l IH]; intros w evs.
  - intros [= <-]. constructor.
  - unfold result_of. rewrite for_each_cons.
    pose proof (Hb x w) as H1. unfold result_of in H1.
    destruct (body x w) as [[evs1|e] w1]; [|done].
    pose proof (IH w1) as H2. unfold result_of in H2.
    destruct (for_each l body w1) as [[evs2|e] w2]; [|done].
    simpl. intros [= <-]. apply Forall_app. split; [by apply H1|by apply H2].
Qed.

Lemma Forall2_insert_r {A} (P : A -> A -> Prop) `{!Reflexive P} l i x y :
  l !! i = Some x -> P x y -> Forall2 P l (<[i := y]> l).
Proof.
  intros Hl Hxy. rewrite <- (list_insert_id l i x Hl) at 1.
  apply Forall2_insert; [|done]. by apply Forall_Forall2_diag, Forall_true.
Qed.

#[local] Instance bus_served_preorder : PreOrder bus_served.
Proof.
  split.
  - intros b. unfold bus_served. repeat (split; [reflexivity|]). auto.
  - intros b1 b2 b3 H1 H2. unfold bus_served in *.
    destruct H1 as (?&?&?&?&?&?&?&?), H2 as (?&?&?&?&?&?&?&?).
    repeat (split; [congruence|]). auto.
Qed.

#[local] Instance stop_evolves_preorder : PreOrder stop_evolves.
Proof.
  split.
  - intros b. unfold stop_evolves. repeat (split; [reflexivity|]). auto.
  - intros b1 b2 b3 (?&?&?) (?&?&?). unfold stop_evolves.
    repeat (split; [congruence|]). auto.
Qed.

#[local] Instance bus_evolves_preorder rt : PreOrder (bus_evolves rt).
Proof.
  split.
  - intros b. unfold bus_evolves. tauto.
  - intros b1 b2 b3 [] []. unfold bus_evolves. tauto.
Qed.

#[local] Instance service_preorder : PreOrder service.
Proof.
  split.
  - intros w. unfold service. repeat (split; [reflexivity|]). reflexivity.
  - intros w1 w2 w3 (?&?&?&?&?) (?&?&?&?&?). unfold service.
    split; [congruence|]. split; [congruence|].
    split; [etrans; eauto|]. split; [etrans; eauto|]. congruence.
Qed.

#[local] Instance evolves_preorder : PreOrder evolves.
Proof.
  split.
  - intros w. unfold evolves. repeat (split; [reflexivity|]). reflexivity.
  - intros w1 w2 w3 (E1&?&?&?) (E2&?&?&?). unfold evolves.
    rewrite E1 in *.
    split; [congruence|]. split; [etrans; eauto|].
    split; [etrans; eauto|]. congruence.
Qed.

Lemma bus_served_evolves rt b b' : bus_served b b' -> bus_evolves rt b b'.
Proof.
  intros (?&Hp&Hd&Hsp&Hm&?&?&?). split; [done|].
  unfold bus_sane, near_bounds, on_plateaus, free_coordinate.
  by rewrite Hp, Hd, Hsp, Hm.
Qed.

Lemma service_evolves w w' : service w w' -> evolves w w'.
Proof.
  intros (?&?&Hb&?&?). repeat split; try done.
  eapply Forall2_impl; [exact Hb|]. intros. by apply bus_served_evolves.
Qed.

Lemma deposited_fields m now p :
  source (deposited m now p) = source p
  /\ destination (deposited m now p) = destination p
  /\ transfer_pending (deposited m now p) = transfer_pending p.
Proof. unfold deposited. by destruct m. Qed.

Lemma located_deposit stop bus i leaving0 now :
  find_first (alights_at (stop_name stop)) (scanned stop bus)
    = Some (i, leaving0) ->
  transfer_pending leaving0 = true ->
  located_at stop (deposited (move bus) now leaving0).
Proof.
  intros Hff Hp. apply find_first_Some in Hff as (Hi & Ha & _).
  apply list_elem_of_lookup_2 in Hi. unfold scanned in Hi.
  apply list_elem_of_fmap in Hi as (p0 & -> & _).
  destruct (deposited_fields (move bus) now
              (mark_arrival (stop_name stop) p0)) as (_ & Hd & Ht).
  right. rewrite Hd, Ht. clear Hd Ht.
  unfold transfer_pending, mark_arrival, alights_at in *.
  destruct (String.eqb (destination p0) (stop_name stop)) eqn:E.
  { simpl in Hp. by rewrite andb_false_r in Hp. }
  rewrite E in Ha. apply String.eqb_neq in E.
  split; [|done]. unfold transfer_hub.
  destruct (String.eqb (stop_name stop) "Centre St"); [done|].
  destruct (String.eqb (stop_name stop) "Queens St"); [done|].
  destruct (String.eqb (stop_name stop) "North St"); done.
Qed.

Lemma stop_evolves_set stop ps :
  (stop_located stop -> Forall (located_at stop) ps) ->
  stop_evolves stop (set_stop_passengers ps stop).
Proof. intros H. split; [done|]. split; [done|]. exact H. Qed.

Lemma cap_ok_length b b' :
  capacity b' = capacity b ->
  (length (bus_passengers b') <= length (bus_passengers b))%nat ->
  cap_ok b -> cap_ok b'.
Proof. unfold cap_ok. intros -> ?. lia. Qed.

Lemma service_buses w w' bi b b' :
  buses w !! bi = Some b ->
  route w' = route w -> oil_cost (tally w') = oil_cost (tally w) ->
  buses w' = <[bi := b']> (buses w) ->
  bus_served b b' ->
  Forall2 stop_evolves (stop_objs w) (stop_objs w') ->
  length (avg_wait_time w') = length (avg_wait_time w) ->
  service w w'.
Proof.
  intros Hb ? ? Hbs ? ? ?. unfold service. rewrite Hbs.
  repeat (split; [done|]). split; [|done].
  by eapply Forall2_insert_r.
Qed.

Lemma stop_at_service bi si : steps service (stop_at bi si).
Proof.
  intros w. sa_inv w bi si; try reflexivity.
  - (* transfer *)
    eapply service_buses; try done.
    + repeat (split; [done|]). apply cap_ok_length; [done|]. simpl.
      rewrite <- (length_scanned stop). pose proof (length_delete_lt
        (scanned stop bus) i ltac:(by eapply find_first_lt)). lia.
    + simpl. eapply Forall2_insert_r; [apply _|done|].
      apply stop_evolves_set. intros Hl. apply Forall_app. split; [done|].
      constructor; [|done]. by eapply located_deposit.
  - (* alighting *)
    eapply service_buses; try done.
    repeat (split; [done|]). apply cap_ok_length; [done|]. simpl.
    rewrite <- (length_scanned stop). pose proof (length_delete_lt
      (scanned stop bus) i ltac:(by eapply find_first_lt)). lia.
  - (* boarding *)
    match goal with H : board_scan _ _ _ _ = _ |- _ =>
      apply scan_board_eligible in H as (Hj & He & Hlt) end.
    apply eligible_wanted in He as [_ Hc].
    eapply service_buses; try done.
    + repeat (split; [done|]). unfold cap_ok. simpl.
      rewrite length_app, length_scanned. simpl. lia.
    + simpl. eapply Forall2_insert_r; [apply _|done|].
      apply stop_evolves_set. intros Hl. by apply Forall_delete.
    + simpl. by eapply py_incr_length.
  - (* the histogram update raises *)
    eapply service_buses; try done.
    repeat (split; [done|]). apply cap_ok_length; [done|]. simpl.
    by rewrite length_scanned.
  - (* nothing to do *)
    eapply service_buses; try done.
    repeat (split; [done|]). apply cap_ok_length; [done|]. simpl.
    by rewrite length_scanned.
Qed.

Lemma stop_at_emits bi si :
  emits (fun e => is_BUS_TURNS e = false) (stop_at bi si).
Proof.
  intros w evs. sa_inv w bi si; intros [= <-]; repeat constructor.
Qed.

Lemma serve_crossed_service bi refs coord old new :
  steps service (serve_crossed bi refs coord old new).
Proof.
  unfold serve_crossed. apply steps_bind; [apply _|apply steps_get_bus, _|].
  intros bus. destruct (direction bus =? 1).
  - apply steps_for_each; [apply _|]. intros si.
    apply steps_bind; [apply _|apply steps_get_stop, _|]. intros stop.
    destruct (_ && _); [apply stop_at_service|apply steps_ret, _].
  - apply steps_for_each; [apply _|]. intros si.
    apply steps_bind; [apply _|apply steps_get_stop, _|]. intros stop.
    destruct (_ && _); [apply stop_at_service|apply steps_ret, _].
Qed.

Lemma emits_bind_get {A B} (P : B -> Prop) (m : M A) (k : A -> M (list B)) :
  (forall a, emits P (k a)) -> emits P (bind m k).
Proof.
  intros Hk w evs. unfold result_of, bind.
  destruct (m w) as [[a|e] w1] eqn:E; [|done]. apply (Hk a w1).
Qed.

Lemma emits_ret_nil {A} (P : A -> Prop) : emits P (ret []).
Proof. intros w evs [= <-]. constructor. Qed.

Lemma serve_crossed_emits bi refs coord old new :
  emits (fun e => is_BUS_TURNS e = false) (serve_crossed bi refs coord old new).
Proof.
  unfold serve_crossed. apply emits_bind_get. intros bus.
  destruct (direction bus =? 1); apply emits_for_each; intros si;
    apply emits_bind_get; intros stop;
    (destruct (_ && _); [apply stop_at_emits|apply emits_ret_nil]).
Qed.

Lemma outcome_eta {A} (r : outcome A * World) :
  (let (o, w3) := r in
   match o with
   | Returned a => (Returned a, w3)
   | Raised e => (Raised e, w3)
   end) = r.
Proof. by destruct r as [[?|?] ?]. Qed.

Lemma update_bus_eq w bi bus :
  buses w !! bi = Some bus ->
  exists refs coord old new,
    update_bus bi w =
    match serve_crossed bi refs coord old new (after_move w bi bus) with
    | (Returned evs', w3) => (Returned (move_events (route w) bus ++ evs'), w3)
    | (Raised e, w3) => (Raised e, w3)
    end.
Proof.
  intros Hb.
  assert (Hbi : (bi < length (buses w))%nat) by by eapply lookup_lt_Some.
  unfold update_bus, bind, get_bus. rewrite Hb.
  unfold after_move, move_events, exits, moved, free_coordinate.
  destruct (move bus) eqn:Hm.
  - unfold update_bus_hori, bind, get_bus, gets. rewrite Hb.
    destruct (bus_position bus) as [x y] eqn:Hp.
    exists (hori_stops (route w)), fst.
    destruct (stopped bus) eqn:Hst; simpl.
    + unfold put_bus, modify.
      exists (x - speed bus * inject_Z (direction bus))%Q, x.
      by rewrite outcome_eta.
    + exists x, (x + speed bus * inject_Z (direction bus))%Q.
      rewrite Hm. simpl.
      destruct (Qbetween _ _ _); simpl.
      * unfold put_bus, modify, ret. reflexivity.
      * unfold turn_around, bind, get_bus, put_bus, modify, modify_tally, ret.
        simpl. rewrite list_lookup_insert_eq by done. simpl.
        rewrite list_insert_insert_eq.
        unfold after_turn, turned, moved. rewrite Hm, Hp.
        simpl. reflexivity.
  - unfold update_bus_vert, bind, get_bus, gets. rewrite Hb.
    destruct (bus_position bus) as [x y] eqn:Hp.
    exists (vert_stops (route w)), snd.
    destruct (stopped bus) eqn:Hst; simpl.
    + unfold put_bus, modify.
      exists (y - speed bus * inject_Z (direction bus))%Q, y.
      by rewrite outcome_eta.
    + exists y, (y + speed bus * inject_Z (direction bus))%Q.
      rewrite Hm. simpl.
      destruct (Qbetween _ _ _); simpl.
      * unfold put_bus, modify, ret. reflexivity.
      * unfold turn_around, bind, get_bus, put_bus, modify, modify_tally, ret.
        simpl. rewrite list_lookup_insert_eq by done. simpl.
        rewrite list_insert_insert_eq.
        unfold after_turn, turned, moved. rewrite Hm, Hp.
        simpl. reflexivity.
  - unfold update_bus_s, bind, get_bus, gets. rewrite Hb.
    destruct (bus_position bus) as [x y] eqn:Hp.
    exists (s_stops (route w)), fst.
    destruct (stopped bus) eqn:Hst; simpl.
    + unfold put_bus, modify.
      exists (x - speed bus * inject_Z (direction bus))%Q, x.
      by rewrite outcome_eta.
    + exists x, (fst (s_new_position bus)).
      destruct (s_new_position bus) as [nx ny] eqn:Hn.
      rewrite Hm. simpl.
      destruct (Qbetween _ _ _); simpl.
      * unfold put_bus, modify, ret. reflexivity.
      * unfold turn_around, bind, get_bus, put_bus, modify, modify_tally, ret.
        simpl. rewrite list_lookup_insert_eq by done. simpl.
        rewrite list_insert_insert_eq.
        unfold after_turn, turned, moved. rewrite Hm, Hn.
        simpl. reflexivity.
Qed.

Lemma Qle_bool_false (x y : Q) : Qle_bool x y = false -> (y < x)%Q.
Proof.
  intros H. apply Qnot_le_lt. intros Hle. apply Qle_bool_iff in Hle. congruence.
Qed.

Lemma s_new_position_spec b :
  fst (s_new_position b)
    = (fst (bus_position b) + speed b * inject_Z (direction b))%Q
  /\ (-20 <= snd (s_new_position b) <= 30)%Q.
Proof.
  unfold s_new_position. destruct (bus_position b) as [x y]. simpl.
  repeat match goal with
         | |- context [if ?c then _ else _] => destruct c eqn:?; simpl
         end; (split; [reflexivity|]);
    repeat match goal with
           | H : Qle_bool _ _ = true |- _ => apply Qle_bool_iff in H
           | H : Qle_bool _ _ = false |- _ => apply Qle_bool_false in H
           | H : _ && _ = _ |- _ => clear H
           end; lra.
Qed.

Lemma free_coordinate_moved b : free_coordinate (moved b) = new_coordinate b.
Proof.
  unfold free_coordinate, moved, new_coordinate, free_coordinate.
  destruct (move b) eqn:Hm; simpl; rewrite ?Hm; try reflexivity.
  exact (proj1 (s_new_position_spec b)).
Qed.

Lemma on_plateaus_moved b : on_plateaus (moved b).
Proof.
  unfold on_plateaus, moved. destruct (move b) eqn:Hm; simpl; rewrite ?Hm;
    try done.
  intros _. exact (proj2 (s_new_position_spec b)).
Qed.

Lemma moved_fields b :
  direction (moved b) = direction b /\ speed (moved b) = speed b
  /\ move (moved b) = move b /\ bus_passengers (moved b) = bus_passengers b
  /\ capacity (moved b) = capacity b.
Proof. unfold moved. destruct (move b) eqn:Hm; simpl; by rewrite ?Hm. Qed.

Lemma turned_fields m b :
  direction (turned m b) = - direction b /\ speed (turned m b) = speed b
  /\ move (turned m b) = move b
  /\ bus_position (turned m b) = bus_position b
  /\ bus_passengers (turned m b) = bus_passengers b
  /\ capacity (turned m b) = capacity b
  /\ busdir_get (busdir (turned m b)) m = - busdir_get (busdir b) m.
Proof. unfold turned. by destruct m. Qed.

Lemma turned_geometry m b :
  free_coordinate (turned m b) = free_coordinate b
  /\ (on_plateaus b -> on_plateaus (turned m b)).
Proof. unfold turned, free_coordinate, on_plateaus. by destruct m. Qed.

Lemma motion_step rt b :
  bus_sane rt b -> near_bounds rt b ->
  let b' := if exits rt b then turned (move b) (moved b) else moved b in
  bus_sane rt b' /\ near_bounds rt b'.
Proof.
  intros (Hd & Hs & Hlh) (Hr & Hhi & Hlo & _).
  destruct (moved_fields b) as (Md & Ms & Mm & _).
  destruct (turned_fields (move b) (moved b)) as (Td & Ts & Tm & Tp & _).
  pose proof (free_coordinate_moved b) as Hc.
  pose proof (on_plateaus_moved b) as Hpl.
  unfold exits. rewrite Hc.
  set (lo := fst (bounds_of rt (move b))) in *.
  set (hi := snd (bounds_of rt (move b))) in *.
  assert (Hn : (lo - speed b <= new_coordinate b <= hi + speed b)%Q
               /\ (direction b = -1 -> (new_coordinate b <= hi)%Q)
               /\ (direction b = 1 -> (lo <= new_coordinate b)%Q)).
  { unfold new_coordinate. destruct Hd as [Hd|Hd]; rewrite Hd.
    - change (inject_Z 1) with 1%Q.
      assert (free_coordinate b <= hi)%Q.
      { apply Qnot_lt_le. intros H. specialize (Hhi H). lia. }
      split; [lra|]. split; [intros; lia|]. intros _. lra.
    - change (inject_Z (-1)) with (-1)%Q.
      assert (lo <= free_coordinate b)%Q.
      { apply Qnot_lt_le. intros H. specialize (Hlo H). lia. }
      split; [lra|]. split; [|intros; lia]. intros _. lra. }
  destruct Hn as (Hn1 & Hn2 & Hn3).
  destruct (Qbetween lo (new_coordinate b) hi) eqn:Hb; simpl.
  - apply Qbetween_true in Hb.
    unfold bus_sane, near_bounds. rewrite Md, Ms, Mm, Hc. fold lo hi.
    split; [done|]. split; [done|]. split.
    + intros H. exfalso. lra.
    + split; [|done]. intros H. exfalso. lra.
  - assert (Hout : ~ (lo <= new_coordinate b <= hi)%Q).
    { intros H. apply Qbetween_true in H. congruence. }
    destruct (turned_geometry (move b) (moved b)) as [Tc Tpl].
    unfold bus_sane, near_bounds.
    rewrite Td, Ts, Tm, Tc, Ms, Mm, Md, Hc. fold lo hi.
    split; [split; [lia|done]|]. split; [done|].
    split; [|split; [|exact (Tpl Hpl)]].
    + intros H. destruct Hd as [Hd|Hd]; [lia|]. specialize (Hn2 Hd). lra.
    + intros H. destruct Hd as [Hd|Hd]; [|lia]. specialize (Hn3 Hd). lra.
Qed.

Lemma evolves_buses w w' bi b b' :
  buses w !! bi = Some b ->
  route w' = route w ->
  buses w' = <[bi := b']> (buses w) ->
  bus_evolves (route w) b b' ->
  stop_objs w' = stop_objs w ->
  avg_wait_time w' = avg_wait_time w ->
  evolves w w'.
Proof.
  intros Hb ? Hbs ? Hs Hh. unfold evolves. rewrite Hbs, Hs, Hh.
  split; [done|]. split; [by eapply Forall2_insert_r; [apply _|..]|].
  split; reflexivity.
Qed.

Lemma evolves_stops w w' si st st' :
  stop_objs w !! si = Some st ->
  route w' = route w ->
  buses w' = buses w ->
  stop_objs w' = <[si := st']> (stop_objs w) ->
  stop_evolves st st' ->
  length (avg_wait_time w') = length (avg_wait_time w) ->
  evolves w w'.
Proof.
  intros Hs ? Hb Hss ? Hh. unfold evolves. rewrite Hb, Hss.
  split; [done|]. split; [reflexivity|].
  split; [by eapply Forall2_insert_r; [apply _|..]|done].
Qed.

Lemma evolves_same w w' :
  route w' = route w -> buses w' = buses w -> stop_objs w' = stop_objs w ->
  avg_wait_time w' = avg_wait_time w -> evolves w w'.
Proof.
  intros ? Hb Hs Hh. unfold evolves. rewrite Hb, Hs, Hh.
  split; [done|]. repeat split; reflexivity.
Qed.

Lemma after_move_evolves w bi bus :
  buses w !! bi = Some bus -> evolves w (after_move w bi bus).
Proof.
  intros Hb. unfold after_move.
  destruct (stopped bus) eqn:Hst; [|destruct (exits (route w) bus) eqn:Hex].
  - by eapply evolves_buses.
  - eapply evolves_buses; try done. split.
    + destruct (turned_fields (move bus) (moved bus)) as (_&_&_&_&Tp&Tc&_).
      destruct (moved_fields bus) as (_&_&_&Mp&Mc).
      unfold cap_ok. by rewrite Tp, Tc, Mp, Mc.
    + intros [Hsn Hnb]. pose proof (motion_step _ _ Hsn Hnb) as H.
      by rewrite Hex in H.
  - eapply evolves_buses; try done. split.
    + destruct (moved_fields bus) as (_&_&_&Mp&Mc).
      unfold cap_ok. by rewrite Mp, Mc.
    + intros [Hsn Hnb]. pose proof (motion_step _ _ Hsn Hnb) as H.
      by rewrite Hex in H.
Qed.

Lemma update_bus_evolves bi : steps evolves (update_bus bi).
Proof.
  intros w. destruct (buses w !! bi) as [bus|] eqn:Hb.
  - destruct (update_bus_eq w bi bus Hb) as (refs & coord & old & new & E).
    unfold state_after. rewrite E.
    pose proof (serve_crossed_service bi refs coord old new
                  (after_move w bi bus)) as Hs.
    unfold state_after in Hs.
    destruct (serve_crossed _ _ _ _ _ _) as [[evs|e] w3]; simpl in *;
      (etrans; [by apply after_move_evolves|by apply service_evolves]).
  - unfold state_after, update_bus, bind, get_bus. rewrite Hb. reflexivity.
Qed.

Lemma pick_destination_state fuel sn : forall w,
  exists k, state_after (pick_destination fuel sn) w = set_choice_draws k w.
Proof.
  induction fuel as [|fuel IH]; intros w; simpl.
  - exists (choice_draws w). unfold state_after, raise. simpl. by destruct w.
  - unfold state_after, bind, random_position. simpl.
    destruct (negb _).
    + by eexists.
    + destruct (IH (set_choice_draws (S (choice_draws w)) w)) as [k Hk].
      exists k. unfold state_after in Hk. by rewrite Hk.
Qed.

Lemma update_stop_evolves fuel si : steps evolves (update_stop fuel si).
Proof.
  intros w. unfold state_after, update_stop, bind, get_stop, gets.
  destruct (stop_objs w !! si) as [stop|] eqn:Hs; [|reflexivity].
  destruct (rates (route w) !! stop_name stop) as [rate|]; [|reflexivity].
  unfold random_random. simpl.
  destruct (Qltb _ rate); [|by apply evolves_same].
  destruct (pick_destination_state fuel (stop_name stop)
              (set_random_draws (S (random_draws w)) w)) as [k Hk].
  unfold state_after in Hk.
  destruct (pick_destination _ _ _) as [[dest|e] w2]; simpl in Hk; subst w2;
    [|by apply evolves_same].
  destruct (passenger_directions _ _ _) as [e|[[hd vd] sd]];
    [by apply evolves_same|].
  unfold modify_tally, modify, time_time, raise, put_stop, ret. simpl.
  destruct hd as [hd|]; [|by apply evolves_same].
  destruct vd as [vd|]; [|by apply evolves_same].
  destruct sd as [sd|]; [|by apply evolves_same].
  simpl. eapply evolves_stops; try done.
  apply stop_evolves_set. intros Hl. apply Forall_app. split; [done|].
  constructor; [|done]. by left.
Qed.

Lemma leave_stop_evolves si : steps evolves (leave_stop si).
Proof.
  intros w. unfold state_after. pose proof (leave_stop_cases w si) as H.
  destruct (stop_objs w !! si) as [stop|] eqn:Hs; [|rewrite H; reflexivity].
  destruct (find_first _ _) as [[i p]|].
  - destruct (py_incr _ _) as [hist'|] eqn:Hi; rewrite H; simpl.
    + eapply evolves_stops; try done.
      * apply stop_evolves_set. intros Hl. by apply Forall_delete.
      * simpl. by eapply py_incr_length.
    + eapply evolves_stops; try done.
      apply stop_evolves_set. intros Hl. by apply Forall_delete.
  - rewrite H. by apply evolves_same.
Qed.

Lemma update_evolves fuel : steps evolves (update fuel).
Proof.
  unfold update, leave_phase.
  apply steps_bind; [apply _|apply steps_gets, _|]. intros n.
  apply steps_bind; [apply _| |].
  { apply steps_for_each; [apply _|]. apply update_bus_evolves. }
  intros evs1. apply steps_bind; [apply _|apply steps_gets, _|]. intros sts.
  apply steps_bind; [apply _| |].
  { apply steps_for_each; [apply _|]. apply update_stop_evolves. }
  intros evs2. apply steps_bind; [apply _| |].
  { apply steps_bind; [apply _|apply steps_gets, _|]. intros sts'.
    apply steps_for_each; [apply _|]. apply leave_stop_evolves. }
  intros evs3. apply steps_ret, _.
Qed.

Lemma run_evolves fuel n : steps evolves (run fuel n).
Proof.
  induction n as [|n IH]; simpl.
  - apply steps_ret, _.
  - apply steps_bind; [apply _|apply update_evolves|]. intros evs.
    apply steps_bind; [apply _|apply IH|]. intros evs'. apply steps_ret, _.
Qed.

Lemma evolves_cap w w' :
  evolves w w' -> Forall cap_ok (buses w) -> Forall cap_ok (buses w').
Proof.
  intros (_ & Hb & _) H. induction Hb as [|b b' l l' [Hc _] _ IH]; [done|].
  apply Forall_cons in H as [? ?]. constructor; auto.
Qed.

Lemma evolves_located w w' :
  evolves w w' ->
  Forall stop_located (stop_objs w) -> Forall stop_located (stop_objs w').
Proof.
  intros (_ & _ & Hs & _) H.
  induction Hs as [|b b' l l' (_ & _ & Hc) _ IH]; [done|].
  apply Forall_cons in H as [? ?]. constructor; auto.
Qed.

Lemma evolves_near w w' :
  evolves w w' ->
  Forall (fun b => bus_sane (route w) b /\ near_bounds (route w) b) (buses w) ->
  Forall (fun b => bus_sane (route w') b /\ near_bounds (route w') b) (buses w').
Proof.
  intros (-> & Hb & _) H. induction Hb as [|b b' l l' [_ Hc] _ IH]; [done|].
  apply Forall_cons in H as [? ?]. constructor; auto.
Qed.

(** [init] leaves a histogram of nine zeros, whether it returns or raises,
    and the ticks keep its length. *)
Lemma init_histogram w : avg_wait_time (state_after init w) = repeat 0 9.
Proof.
  set (R := fun w1 w2 : World => avg_wait_time w2 = avg_wait_time w1).
  assert (HR : PreOrder R).
  { split; [by intros ?|]. intros ? ? ? H1 H2. unfold R in *. congruence. }
  assert (Hloop1 : forall sts, steps R (for_each sts (fun si =>
              do stop <- get_stop si;
              for_each (stop_passengers stop)
                       (fun passenger => raise AttributeError)))).
  { intros sts. apply steps_for_each; [done|]. intros si.
    apply steps_bind; [done|by apply steps_get_stop|]. intros stop.
    apply steps_for_each; [done|]. intros p. by apply steps_raise. }
  assert (Hmt : forall f, steps R (modify_tally f)) by by intros f w1.
  assert (Hloop2 : forall (sts : list nat) l, steps R (for_each l (fun bi =>
               do bus <- get_bus bi;
               modify_tally (fun t => set_fixed_cost (fixed_cost t + 25)%Q t) ;;
               for_each (bus_passengers bus)
                        (fun passenger =>
                           match sts with
                           | [] => raise UnboundLocalError
                           | _ => raise AttributeError
                           end)))).
  { intros sts l. apply steps_for_each; [done|]. intros bi.
    apply steps_bind; [done|by apply steps_get_bus|]. intros bus.
    apply steps_bind; [done|apply Hmt|]. intros _.
    apply steps_for_each; [done|]. intros p.
    destruct sts; by apply steps_raise. }
  unfold state_after, init.
  unfold bind at 1. unfold time_time. cbv beta iota.
  unfold bind at 1. unfold modify_tally at 1, modify at 1. cbv beta iota.
  unfold bind at 1. unfold modify at 1. cbv beta iota.
  match goal with |- avg_wait_time (snd (?m ?w1)) = _ =>
    assert (Hs : steps R m); [|exact (Hs w1)] end.
  apply steps_bind; [done|by apply steps_gets|]. intros sts.
  apply steps_bind; [done|apply Hloop1|]. intros evs.
  apply steps_bind; [done|by apply steps_gets|]. intros n.
  apply steps_bind; [done|apply Hloop2|]. intros evs'.
  by apply steps_ret.
Qed.

Lemma run_histogram_length fuel n w :
  length (avg_wait_time (state_after (run fuel n) w))
  = length (avg_wait_time w).
Proof. apply run_evolves. Qed.

Lemma count_events_none f evs :
  Forall (fun e => f e = false) evs -> count_events f evs = 0%nat.
Proof.
  unfold count_events. induction 1 as [|e evs He _ IH]; [done|].
  rewrite filter_cons. destruct (decide (f e = true)); [congruence|done].
Qed.

Lemma within_near rt b :
  bus_sane rt b -> within_bounds rt b -> near_bounds rt b.
Proof.
  intros (_ & Hs & _) ([Hlo Hhi] & Hpl). unfold near_bounds.
  split; [lra|]. split; [|split; [|done]]; intros H; exfalso; lra.
Qed.

(** C1.  From a network whose buses all carry no more passengers than
    their capacity, after any number of ticks every bus satisfies
    [0 <= len(bus.passengers) <= bus.capacity]; and a call of [stop_at]
    lengthens the passenger list of a bus only if the onboard count was
    strictly below the capacity. *)
Theorem onboard_within_capacity (fuel n : nat) (w : World) :
  Forall cap_ok (buses w) ->
  Forall cap_ok (buses (state_after (run fuel n) w))
  /\ (forall bi si bus bus',
         buses w !! bi = Some bus ->
         buses (state_after (stop_at bi si) w) !! bi = Some bus' ->
         (length (bus_passengers bus) < length (bus_passengers bus'))%nat ->
         Z.of_nat (length (bus_passengers bus)) < capacity bus).
Proof.
  intros Hcap. split.
  - eapply evolves_cap; [apply run_evolves|done].
  - intros bi si bus bus' Hb.
    assert (Hbi : (bi < length (buses w))%nat) by by eapply lookup_lt_Some.
    sa_inv w bi si; rewrite ?list_lookup_insert_eq by done.
    + intros ? ?. simplify_eq. lia.
    + intros [= <-]. simpl.
      pose proof (length_delete_lt (scanned stop bus) i
                    ltac:(by eapply find_first_lt)).
      rewrite length_scanned in *. lia.
    + intros [= <-]. simpl.
      pose proof (length_delete_lt (scanned stop bus) i
                    ltac:(by eapply find_first_lt)).
      rewrite length_scanned in *. lia.
    + intros _ _.
      match goal with H : board_scan _ _ _ _ = _ |- _ =>
        apply scan_board_eligible in H as (_ & He & _) end.
      by apply eligible_wanted in He as [_ ?].
    + intros [= <-]. simpl. rewrite length_scanned. lia.
    + intros [= <-]. simpl. rewrite length_scanned. lia.
Qed.

(** C9.  Every passenger waiting at a stop is located there: at the stop
    where it arrived or, with a transfer still to make, at the hub where it
    was set down.  This holds for a stop that [BusStop.__init__] accepts, and
    passenger arrival ([update_stop]), boarding removal and transfer deposit
    ([stop_at]), abandonment ([leave_stop]) and any number of ticks keep it
    for all stops. *)
Theorem waiting_passengers_located (fuel n : nat) (w : World) :
  Forall stop_located (stop_objs w) ->
  Forall stop_located (stop_objs (state_after (run fuel n) w))
  /\ (forall si,
         Forall stop_located (stop_objs (state_after (update_stop fuel si) w)))
  /\ (forall bi si,
         Forall stop_located (stop_objs (state_after (stop_at bi si) w)))
  /\ (forall si,
         Forall stop_located (stop_objs (state_after (leave_stop si) w)))
  /\ (forall nm pos ps st,
         BusStop_init nm pos ps = inr st -> stop_located st).
Proof.
  intros Hloc. split; [|split; [|split; [|split]]].
  - eapply evolves_located; [apply run_evolves|done].
  - intros si. eapply evolves_located; [apply update_stop_evolves|done].
  - intros bi si.
    eapply evolves_located; [apply service_evolves, stop_at_service|done].
  - intros si. eapply evolves_located; [apply leave_stop_evolves|done].
  - intros nm pos ps st. unfold BusStop_init.
    destruct (forallb _ ps) eqn:Hall; [|done]. simpl. intros [= <-].
    unfold stop_located. simpl. apply Forall_forall. intros p Hp. left.
    rewrite forallb_forall in Hall. apply String.eqb_eq, Hall.
    by apply list_elem_of_In.
Qed.

Lemma moved_busdir b :
  busdir (moved b) = busdir b /\ bus_name (moved b) = bus_name b.
Proof. unfold moved. destruct (move b); done. Qed.

(** C6.  When a bus that is not stopped computes a coordinate outside the
    interval of its line, its update in that tick negates its direction and
    its [busdir] entry for its geometry, adds 2.5 to [oil_cost], and the
    events it returns contain exactly one [BUS_TURNS], for this bus. *)
Theorem turn_around_at_bounds (w : World) (bi : nat) (bus : Bus) :
  buses w !! bi = Some bus ->
  stopped bus = false ->
  ~ (fst (bounds_of (route w) (move bus)) <= new_coordinate bus
     <= snd (bounds_of (route w) (move bus)))%Q ->
  let w' := state_after (update_bus bi) w in
  (exists bus',
      buses w' !! bi = Some bus'
      /\ direction bus' = - direction bus
      /\ busdir_get (busdir bus') (move bus)
         = - busdir_get (busdir bus) (move bus)
      /\ free_coordinate bus' = new_coordinate bus)
  /\ oil_cost (tally w') = (oil_cost (tally w) + 2.5)%Q
  /\ (forall evs,
         result_of (update_bus bi) w = Returned evs ->
         count_events is_BUS_TURNS evs = 1%nat
         /\ BUS_TURNS (bus_name bus) ∈ evs).
Proof.
  intros Hb Hst Hout w'. subst w'.
  assert (Hbi : (bi < length (buses w))%nat) by by eapply lookup_lt_Some.
  assert (Hex : exits (route w) bus = true).
  { unfold exits. rewrite free_coordinate_moved.
    destruct (Qbetween _ _ _) eqn:E; [|done].
    apply Qbetween_true in E. done. }
  destruct (update_bus_eq w bi bus Hb) as (refs & coord & old & new & E).
  unfold state_after, result_of. rewrite E. clear E.
  unfold after_move, move_events. rewrite Hst, Hex.
  pose proof (serve_crossed_service bi refs coord old new
                (after_turn w bi bus)) as (_ & Hoil & Hbs & _).
  pose proof (serve_crossed_emits bi refs coord old new
                (after_turn w bi bus)) as Hem.
  unfold state_after, result_of in *.
  destruct (serve_crossed _ _ _ _ _) as [[evs'|e] w3]; simpl in *.
  - split; [|split; [done|]].
    + assert (Hl : <[bi:=turned (move bus) (moved bus)]> (buses w) !! bi
                   = Some (turned (move bus) (moved bus)))
        by by apply list_lookup_insert_eq.
      destruct (Forall2_lookup_l _ _ _ _ _ Hbs Hl)
        as (bus' & Hl' & (_ & Hp & Hd & _ & Hm & Hbd & _)).
      exists bus'. split; [done|].
      destruct (turned_fields (move bus) (moved bus))
        as (Td & _ & Tm & Tp & _ & _ & Tb).
      destruct (moved_fields bus) as (Md & _ & Mm & _).
      destruct (turned_geometry (move bus) (moved bus)) as [Tc _].
      destruct (moved_busdir bus) as [Mb _].
      split; [congruence|]. split; [congruence|].
      rewrite <- free_coordinate_moved, <- Tc.
      unfold free_coordinate. by rewrite Hm, Hp.
    + intros evs [= <-]. split; [|left].
      unfold count_events. rewrite filter_cons. simpl.
      fold (count_events is_BUS_TURNS evs').
      rewrite count_events_none; [done|]. by apply Hem.
  - split; [|split; [done|done]].
    assert (Hl : <[bi:=turned (move bus) (moved bus)]> (buses w) !! bi
                 = Some (turned (move bus) (moved bus)))
      by by apply list_lookup_insert_eq.
    destruct (Forall2_lookup_l _ _ _ _ _ Hbs Hl)
      as (bus' & Hl' & (_ & Hp & Hd & _ & Hm & Hbd & _)).
    exists bus'. split; [done|].
    destruct (turned_fields (move bus) (moved bus))
      as (Td & _ & Tm & Tp & _ & _ & Tb).
    destruct (moved_fields bus) as (Md & _ & Mm & _).
    destruct (turned_geometry (move bus) (moved bus)) as [Tc _].
    destruct (moved_busdir bus) as [Mb _].
    split; [congruence|]. split; [congruence|].
    rewrite <- free_coordinate_moved, <- Tc.
    unfold free_coordinate. by rewrite Hm, Hp.
Qed.

(** Where [avg_wait_time[r - 5]] lands in a list of nine buckets: the
    bucket [r - 5] for [5 <= r <= 13], the bucket [r + 4], counted from the
    end, for [-4 <= r <= 4], and nowhere ([IndexError]) otherwise. *)
Lemma histogram_position (hist : list Z) (r : Z) :
  length hist = 9%nat ->
  py_index hist (r - 5)
  = if (5 <=? r) && (r <=? 13) then Some (Z.to_nat (r - 5))
    else if (-4 <=? r) && (r <=? 4) then Some (Z.to_nat (r + 4))
    else None.
Proof.
  intros Hl. unfold py_index. rewrite Hl.
  change (Z.of_nat 9) with 9.
  destruct (5 <=? r) eqn:E1, (r <=? 13) eqn:E2, (-4 <=? r) eqn:E3,
    (r <=? 4) eqn:E4, (0 <=? r - 5) eqn:E5, (r - 5 <? 9) eqn:E6,
    (- (9) <=? r - 5) eqn:E7, (r - 5 <? 0) eqn:E8; simpl;
    try reflexivity; try (f_equal; lia); exfalso;
    repeat match goal with
           | H : (_ <=? _) = true |- _ => apply Z.leb_le in H
           | H : (_ <=? _) = false |- _ => apply Z.leb_gt in H
           | H : (_ <? _) = true |- _ => apply Z.ltb_lt in H
           | H : (_ <? _) = false |- _ => apply Z.ltb_ge in H
           end; lia.
Qed.

Example py_round_ties :
  py_round 2.5 = 2 /\ py_round 3.5 = 4 /\ py_round (-0.5) = 0
  /\ py_round 13.4 = 13 /\ py_round 13.6 = 14 /\ py_round1 1.26 == 1.3.
Proof. vm_compute. repeat split; reflexivity. Qed.

(** C8 (defect).  The histogram position [round(wait) - 5] is used as it
    is.  In a tick in which bus L2 reaches Abbey St and cat boards after a
    wait of 3 seconds, the sample is counted at position -2, that is in
    bucket 7 (labelled "12"), not in bucket 0 (labelled "<=5"); when cat has
    waited 14 seconds, the update of the histogram raises [IndexError] and
    the tick is aborted, instead of the sample being counted in bucket 8
    (labelled ">12"). *)
Theorem short_wait_wraps_around :
  result_of (update 0) (demo 3) = Returned [BUS_TURNS "L1"; boards_event cat]
  /\ avg_wait_time (state_after (update 0) (demo 3))
     = [0; 0; 0; 0; 0; 0; 0; 1; 0]
  /\ labelled_bucket (py_round (3 - arrive_time cat)) = 0%nat
  /\ result_of (update 0) (demo 14) = Raised IndexError
  /\ labelled_bucket (py_round (14 - arrive_time cat)) = 8%nat.
Proof. vm_compute. repeat split; reflexivity. Qed.

Lemma demo_after_one_tick :
  result_of (run 0 1) (demo 3) = Returned [BUS_TURNS "L1"; boards_event cat]
  /\ buses (state_after (run 0 1) (demo 3))
     = [mkBus "L1" (102%Q, 0%Q) (-1) 3%Q [bob] false [] MoveH Local 10 1
          (mkBusDir (-1) 0 0);
        mkBus "L2" (52%Q, 0%Q) 1 3%Q [cat] true [] MoveH Local 10 1
          (mkBusDir 1 0 0)].
Proof. vm_compute. split; reflexivity. Qed.

Lemma demo_buses_within :
  Forall (fun b => bus_sane (route (demo 3)) b
                   /\ within_bounds (route (demo 3)) b) (buses (demo 3)).
Proof.
  repeat constructor; unfold on_plateaus; simpl; try lra; try done.
Qed.

(** C7, as stated, fails: the bus L1 starts inside [0, 100], at 99 with
    speed 3, and after one tick it is at 102. *)
Lemma position_leaves_bounds :
  Forall (fun b => bus_sane (route (demo 3)) b
                   /\ within_bounds (route (demo 3)) b) (buses (demo 3))
  /\ result_of (run 0 1) (demo 3) = Returned [BUS_TURNS "L1"; boards_event cat]
  /\ ~ Forall (within_bounds (route (demo 3)))
         (buses (state_after (run 0 1) (demo 3))).
Proof.
  split; [apply demo_buses_within|].
  destruct demo_after_one_tick as [Hr Hb]. split; [exact Hr|].
  rewrite Hb. intros H. apply Forall_cons in H as [[[_ H] _] _].
  vm_compute in H. by apply H.
Qed.

Lemma onboard_within_capacity_witness :
  Forall cap_ok (buses (demo 3))
  /\ Forall cap_ok (buses (state_after (run 0 2) (demo 3))).
Proof.
  assert (H : Forall cap_ok (buses (demo 3))).
  { repeat constructor; simpl; lia. }
  split; [exact H|]. exact (proj1 (onboard_within_capacity 0 2 (demo 3) H)).
Defined.

Lemma waiting_passengers_located_witness :
  Forall stop_located (stop_objs (demo 3))
  /\ Forall stop_located (stop_objs (state_after (run 0 2) (demo 3))).
Proof.
  assert (H : Forall stop_located (stop_objs (demo 3))).
  { repeat constructor. }
  split; [exact H|].
  exact (proj1 (waiting_passengers_located 0 2 (demo 3) H)).
Defined.

Lemma turn_around_at_bounds_witness :
  buses (demo 3) !! 0%nat = Some local1
  /\ stopped local1 = false
  /\ ~ (fst (bounds_of (route (demo 3)) (move local1)) <= new_coordinate local1
        <= snd (bounds_of (route (demo 3)) (move local1)))%Q
  /\ oil_cost (tally (state_after (update_bus 0) (demo 3)))
     = (oil_cost (tally (demo 3)) + 2.5)%Q.
Proof.
  assert (H : ~ (fst (bounds_of (route (demo 3)) (move local1))
                 <= new_coordinate local1
                 <= snd (bounds_of (route (demo 3)) (move local1)))%Q).
  { simpl. unfold new_coordinate. simpl. intros [_ H]. vm_compute in H.
    apply H. reflexivity. }
  split; [reflexivity|]. split; [reflexivity|]. split; [exact H|].
  exact (proj1 (proj2 (turn_around_at_bounds (demo 3) 0 local1
                         eq_refl eq_refl H))).
Defined.

Lemma stop_at_one_action_witness :
  buses (demo 3) !! 0%nat = Some local1
  /\ stop_objs (demo 3) !! 0%nat = Some west_st
  /\ (nobody_alights local1 west_st ->
      Forall (fun p => wanted local1 (stop_name west_st) p = false)
             (stop_passengers west_st)
      \/ capacity local1 <= Z.of_nat (length (bus_passengers local1)) ->
      result_of (stop_at 0 0) (demo 3) = Returned []
      /\ exists bus', buses (state_after (stop_at 0 0) (demo 3)) !! 0%nat
                      = Some bus' /\ stopped bus' = false)
  /\ match result_of (stop_at 0 0) (demo 3) with
     | Returned evs =>
         alighted_once (demo 3) (state_after (stop_at 0 0) (demo 3)) 0 0
           local1 west_st evs
         \/ boarded_once (demo 3) (state_after (stop_at 0 0) (demo 3)) 0 0
              local1 west_st evs
         \/ nothing_resolved (demo 3) (state_after (stop_at 0 0) (demo 3)) 0 0
              local1 west_st evs
     | Raised e =>
         e = IndexError
         /\ stop_objs (state_after (stop_at 0 0) (demo 3)) = stop_objs (demo 3)
         /\ tally (state_after (stop_at 0 0) (demo 3)) = tally (demo 3)
         /\ avg_wait_time (state_after (stop_at 0 0) (demo 3))
            = avg_wait_time (demo 3)
         /\ exists bus', buses (state_after (stop_at 0 0) (demo 3)) !! 0%nat
                         = Some bus'
              /\ length (bus_passengers bus') = length (bus_passengers local1)
     end.
Proof.
  split; [reflexivity|]. split; [reflexivity|].
  split.
  - exact (proj2 (stop_at_one_action (demo 3) 0 0 local1 west_st
                    eq_refl eq_refl)).
  - exact (proj1 (stop_at_one_action (demo 3) 0 0 local1 west_st
                    eq_refl eq_refl)).
Defined.

Lemma boarding_rule_witness :
  buses (demo 3) !! 0%nat = Some local1
  /\ stop_objs (demo 3) !! 0%nat = Some west_st
  /\ forall evs e,
       result_of (stop_at 0 0) (demo 3) = Returned evs ->
       e ∈ evs -> is_BOARDS e = true ->
       exists j p bus',
         first_eligible local1 west_st j p /\ nobody_alights local1 west_st
         /\ evs = [boards_event p]
         /\ buses (state_after (stop_at 0 0) (demo 3)) !! 0%nat = Some bus'
         /\ bus_passengers bus' = bus_passengers local1 ++ [p]
         /\ stop_objs (state_after (stop_at 0 0) (demo 3)) !! 0%nat
            = Some (set_stop_passengers
                      (delete j (stop_passengers west_st)) west_st).
Proof.
  split; [reflexivity|]. split; [reflexivity|].
  exact (proj1 (boarding_rule (demo 3) 0 0 local1 west_st eq_refl eq_refl)).
Defined.

Lemma alighting_outcome_witness :
  buses (demo 3) !! 0%nat = Some local1
  /\ stop_objs (demo 3) !! 1%nat = Some east_st
  /\ find_first (alights_at (stop_name east_st)) (bus_passengers local1)
     = Some (0%nat, bob)
  /\ exists bus',
       buses (state_after (stop_at 0 1) (demo 3)) !! 0%nat = Some bus'
       /\ bus_passengers bus' = delete 0%nat (scanned east_st local1)
       /\ stopped bus' = true.
Proof.
  split; [reflexivity|]. split; [reflexivity|]. split; [reflexivity|].
  exact (proj1 (proj2 (alighting_outcome (demo 3) 0 1 local1 east_st 0 bob
                         eq_refl eq_refl eq_refl))).
Defined.

Lemma abandonment_counted_in_last_bucket_witness :
  stop_objs (demo 20) !! 0%nat = Some west_st
  /\ length (avg_wait_time (demo 20)) = 9%nat
  /\ find_first (impatient (time_tape (env (demo 20)) (clock_reads (demo 20))))
       (stop_passengers west_st) = Some (0%nat, ann)
  /\ result_of (leave_stop 0) (demo 20) = Returned [LEFT (name ann)].
Proof.
  split; [reflexivity|]. split; [reflexivity|]. split; [reflexivity|].
  exact (proj1 (abandonment_counted_in_last_bucket (demo 20) 0 west_st 0 ann
                  eq_refl eq_refl eq_refl)).
Defined.

(* ===================================================================== *)
(** ** Further properties: serving a stop, movement, accounting, start-up,
    arrivals *)
(* ===================================================================== *)

(** X1.  [stop_at(bus, stop)] touches nothing but that bus and that stop:
    every other bus and every other stop is as before, the stop keeps its
    name and position, the bus keeps everything but its passengers, its
    passenger count and its stopped flag, and the network attributes set by
    the constructor, the cost accumulators and the random draws are
    untouched -- whether the call returns or raises. *)
Theorem stop_at_frame (w : World) (bi si : nat) :
  let w' := state_after (stop_at bi si) w in
  (forall bj, bj <> bi -> buses w' !! bj = buses w !! bj)
  /\ (forall sj, sj <> si -> stop_objs w' !! sj = stop_objs w !! sj)
  /\ length (buses w') = length (buses w)
  /\ length (stop_objs w') = length (stop_objs w)
  /\ (forall stop stop',
         stop_objs w !! si = Some stop -> stop_objs w' !! si = Some stop' ->
         stop_name stop' = stop_name stop
         /\ stop_position stop' = stop_position stop)
  /\ (forall bus bus',
         buses w !! bi = Some bus -> buses w' !! bi = Some bus' ->
         set_bus_passenger_count (bus_passenger_count bus)
           (set_stopped (stopped bus)
              (set_bus_passengers (bus_passengers bus) bus')) = bus)
  /\ route w' = route w /\ env w' = env w
  /\ random_draws w' = random_draws w /\ choice_draws w' = choice_draws w
  /\ fixed_cost (tally w') = fixed_cost (tally w)
  /\ oil_cost (tally w') = oil_cost (tally w)
  /\ leave_passengers (tally w') = leave_passengers (tally w)
  /\ passenger_num (tally w') = passenger_num (tally w).
Proof.
  intros w'. subst w'.
  sa_inv w bi si;
    repeat match goal with
           | |- _ /\ _ => split
           end;
    try done;
    try (intros bj Hne; by rewrite list_lookup_insert_ne);
    try (intros sj Hne; by rewrite list_lookup_insert_ne);
    try by rewrite length_insert.
  all: intros x x' Hx Hl;
       rewrite ?list_lookup_insert_eq in Hl by (by eapply lookup_lt_Some);
       simplify_eq; try done;
       match goal with |- _ = ?b => by destruct b end.
Qed.

Lemma deposited_direction m now p :
  direction_of m (deposited m now p) = 0
  /\ (forall m', m' <> m ->
        direction_of m' (deposited m now p) = direction_of m' p)
  /\ arrive_time (deposited m now p) = now
  /\ name (deposited m now p) = name p
  /\ change (deposited m now p) = change p.
Proof.
  unfold deposited. destruct m; simpl; repeat split; try done;
    intros []; simpl; done.
Qed.

(** X2.  A passenger set down for a transfer ([CHANGES]) re-enters the
    waiting list of the stop, at its end, with the direction flag of the
    line it came on set to 0 and the two other flags as they were; so no bus
    of that geometry whose sign-table entry is not 0 will take it again. *)
Theorem transfer_zeroes_line_flag (w : World) (bi si : nat) (bus : Bus)
    (stop : BusStop) (evs : list event) (e : event) :
  buses w !! bi = Some bus ->
  stop_objs w !! si = Some stop ->
  result_of (stop_at bi si) w = Returned evs ->
  e ∈ evs -> is_CHANGES e = true ->
  exists p p',
    p ∈ scanned stop bus
    /\ stop_objs (state_after (stop_at bi si) w) !! si
       = Some (set_stop_passengers (stop_passengers stop ++ [p']) stop)
    /\ name p' = name p
    /\ direction_of (move bus) p' = 0
    /\ (forall m, m <> move bus -> direction_of m p' = direction_of m p)
    /\ (forall b2 sn,
           move b2 = move bus ->
           busdir_get (busdir b2) (move b2) <> 0 ->
           wanted b2 sn p' = false /\ boarding_eligible b2 sn p' = false).
Proof.
  intros Hb Hs.
  assert (Hsi : (si < length (stop_objs w))%nat) by by eapply lookup_lt_Some.
  sa_inv w bi si; intros [= <-] He Hc;
    try (apply list_elem_of_singleton in He as ->; done);
    try (by apply elem_of_nil in He).
  match goal with H : find_first _ _ = Some _ |- _ =>
    apply find_first_Some in H as (Hi & _ & _) end.
  apply list_elem_of_lookup_2 in Hi.
  destruct (deposited_direction (move bus)
              (time_tape (env w) (clock_reads w)) leaving0)
    as (Hz & Hoth & _ & Hn & _).
  eexists leaving0, _. split; [done|].
  rewrite list_lookup_insert_eq by done. split; [done|].
  split; [done|]. split; [done|]. split; [done|].
  intros b2 sn Hm Hnz.
  assert (Hw : wanted b2 sn
                 (deposited (move bus) (time_tape (env w) (clock_reads w))
                    leaving0) = false).
  { unfold wanted. rewrite Hm, Hz. rewrite Hm in Hnz.
    destruct (0 =? busdir_get (busdir b2) (move bus)) eqn:E.
    - apply Z.eqb_eq in E. congruence.
    - apply andb_false_r. }
  split; [done|]. unfold boarding_eligible. fold (wanted b2 sn).
  fold (wanted b2 sn (deposited (move bus)
          (time_tape (env w) (clock_reads w)) leaving0)).
  by rewrite Hw.
Qed.

(** X3.  The accumulators move only with a boarding.  When [stop_at]
    returns a [BOARDS] event, the fare of the bus class (3.5 rapid, 5
    express, 2 local) is added to [income], the profit
    [income - fixed_cost - oil_cost] after the fare is appended to
    [revenue_list], the time since [start_time] rounded to one decimal is
    appended to [plot_times], and [passenger_count], [board_passengers] and
    the bus's own [passenger_count] go up by one.  In every other outcome
    the accumulators and the histogram are as before. *)
Theorem boarding_credits_fare (w : World) (bi si : nat) (bus : Bus) :
  buses w !! bi = Some bus ->
  let w' := state_after (stop_at bi si) w in
  let now := time_tape (env w) (clock_reads w) in
  (forall evs e,
      result_of (stop_at bi si) w = Returned evs ->
      e ∈ evs -> is_BOARDS e = true ->
      income (tally w')
      = (income (tally w) + fare (rapid_express_local bus))%Q
      /\ revenue_list (tally w')
         = revenue_list (tally w)
           ++ [(income (tally w') - fixed_cost (tally w)
                - oil_cost (tally w))%Q]
      /\ plot_times (tally w')
         = plot_times (tally w) ++ [py_round1 (now - start_time (tally w))]
      /\ passenger_count (tally w') = passenger_count (tally w) + 1
      /\ board_passengers (tally w') = board_passengers (tally w) + 1
      /\ exists bus', buses w' !! bi = Some bus'
           /\ bus_passenger_count bus' = bus_passenger_count bus + 1)
  /\ ((forall evs, result_of (stop_at bi si) w = Returned evs ->
                   Forall (fun e => is_BOARDS e = false) evs) ->
      tally w' = tally w /\ avg_wait_time w' = avg_wait_time w).
Proof.
  intros Hb w' now. subst w' now.
  assert (Hbi : (bi < length (buses w))%nat) by by eapply lookup_lt_Some.
  split.
  - intros evs e. sa_inv w bi si; intros [= <-] He Hbo;
      try (apply list_elem_of_singleton in He as ->; done);
      try (by apply elem_of_nil in He).
    rewrite list_lookup_insert_eq by done.
    repeat (split; [done|]). eexists. split; [done|]. done.
  - sa_inv w bi si; intros Hno; try done.
    specialize (Hno _ eq_refl). by apply Forall_cons in Hno as [? _].
Qed.

(** X4.  Where a wait-time sample lands, for a histogram of nine buckets.
    When nobody gets off and [p] is the first eligible passenger, with [r]
    its wait rounded to whole seconds: for [5 <= r <= 13] the call returns
    and counts the sample in bucket [r - 5]; for [-4 <= r <= 4] it returns
    and counts it in bucket [r + 4] (the index [r - 5] is negative and is
    taken from the end of the list); for any other [r] it raises
    [IndexError] and counts nothing. *)
Theorem wait_sample_bucket (w : World) (bi si : nat) (bus : Bus)
    (stop : BusStop) (j : nat) (p : BusPassenger) :
  buses w !! bi = Some bus ->
  stop_objs w !! si = Some stop ->
  length (avg_wait_time w) = 9%nat ->
  nobody_alights bus stop ->
  first_eligible bus stop j p ->
  let w' := state_after (stop_at bi si) w in
  let r := py_round (time_tape (env w) (clock_reads w) - arrive_time p) in
  let counted k :=
    result_of (stop_at bi si) w = Returned [boards_event p]
    /\ exists x, avg_wait_time w !! k = Some x
                 /\ avg_wait_time w' = <[k := x + 1]> (avg_wait_time w) in
  (5 <= r <= 13 -> counted (Z.to_nat (r - 5)))
  /\ (-4 <= r <= 4 -> counted (Z.to_nat (r + 4)))
  /\ (r < -4 \/ 13 < r ->
      result_of (stop_at bi si) w = Raised IndexError
      /\ avg_wait_time w' = avg_wait_time w).
Proof.
  intros Hb Hs Hl Hna Hfe w' r counted. subst w' counted.
  pose proof (first_eligible_scan _ _ _ _ Hfe) as Hscan.
  pose proof (proj2 (find_first_scanned bus stop) Hna) as Hff.
  pose proof (histogram_position (avg_wait_time w) r Hl) as Hpos.
  assert (Hcase :
    match py_index (avg_wait_time w) (r - 5) with
    | Some k =>
        result_of (stop_at bi si) w = Returned [boards_event p]
        /\ exists x, avg_wait_time w !! k = Some x
             /\ avg_wait_time (state_after (stop_at bi si) w)
                = <[k := x + 1]> (avg_wait_time w)
    | None =>
        result_of (stop_at bi si) w = Raised IndexError
        /\ avg_wait_time (state_after (stop_at bi si) w) = avg_wait_time w
    end).
  { sa_inv w bi si; try congruence.
    - match goal with H : board_scan _ _ _ _ = ScanBoard _ _ |- _ =>
        rewrite Hscan in H; injection H as <- <- end.
      match goal with H : py_incr _ _ = Some _ |- _ =>
        unfold py_incr in H; fold r in H end.
      destruct (py_index (avg_wait_time w) (r - 5)) as [k|]; [|done].
      destruct (avg_wait_time w !! k) as [x|] eqn:Hx; [|done].
      simplify_eq. split; [done|]. by exists x.
    - match goal with H : board_scan _ _ _ _ = ScanBoard _ _ |- _ =>
        rewrite Hscan in H; injection H as <- <- end.
      match goal with H : py_incr _ _ = None |- _ =>
        unfold py_incr in H; fold r in H end.
      destruct (py_index (avg_wait_time w) (r - 5)) as [k|] eqn:Hk; [|done].
      destruct (avg_wait_time w !! k) as [x|] eqn:Hx; [done|].
      exfalso. apply lookup_ge_None in Hx. rewrite Hpos in Hk.
      destruct ((5 <=? r) && (r <=? 13)) eqn:E1.
      + apply andb_true_iff in E1 as [?%Z.leb_le ?%Z.leb_le].
        simplify_eq. lia.
      + destruct ((-4 <=? r) && (r <=? 4)) eqn:E2; [|done].
        apply andb_true_iff in E2 as [?%Z.leb_le ?%Z.leb_le].
        simplify_eq. lia. }
  rewrite Hpos in Hcase.
  split; [|split].
  - intros [H1 H2]. apply Z.leb_le in H1, H2. by rewrite H1, H2 in Hcase.
  - intros [H1 H2].
    assert ((5 <=? r) = false) as E by (apply Z.leb_gt; lia).
    apply Z.leb_le in H1, H2. by rewrite E, H1, H2 in Hcase.
  - intros Hout.
    assert ((5 <=? r) && (r <=? 13) = false) as E1.
    { apply andb_false_iff. destruct Hout; [left; apply Z.leb_gt|right; apply Z.leb_gt]; lia. }
    assert ((-4 <=? r) && (r <=? 4) = false) as E2.
    { apply andb_false_iff. destruct Hout; [left; apply Z.leb_gt|right; apply Z.leb_gt]; lia. }
    by rewrite E1, E2 in Hcase.
Qed.

#[local] Instance same_but_load_preorder : PreOrder same_but_load.
Proof.
  split.
  - intros b. unfold same_but_load. by destruct b.
  - intros b1 b2 b3 H1 H2. unfold same_but_load in *.
    destruct b1, b2, b3. simpl in *.
    injection H1 as <- <- <- <- <- <- <- <- <-.
    injection H2 as <- <- <- <- <- <- <- <- <-. reflexivity.
Qed.

Lemma same_but_load_set b ps st cnt :
  same_but_load b
    (set_bus_passenger_count cnt (set_bus_passengers ps (set_stopped st b))).
Proof. unfold same_but_load. by destruct b. Qed.

Lemma stop_at_load bi si :
  steps (fun w w' => Forall2 same_but_load (buses w) (buses w')) (stop_at bi si).
Proof.
  intros w. sa_inv w bi si; try reflexivity;
    (eapply Forall2_insert_r; [apply _|done|]);
    unfold same_but_load; by destruct bus.
Qed.

Section BusRelation.
Context (P : Bus -> Bus -> Prop) `{!PreOrder P}.
Hypothesis P_load : forall b b', same_but_load b b' -> P b b'.
Hypothesis P_moved : forall b, P b (moved b).
Hypothesis P_turned : forall b, P b (turned (move b) b).

#[local] Instance buses_rel_preorder : PreOrder (buses_rel P).
Proof.
  split.
  - intros w. unfold buses_rel. reflexivity.
  - intros w1 w2 w3. unfold buses_rel. intros. by etrans.
Qed.

Lemma stop_at_rel bi si : steps (buses_rel P) (stop_at bi si).
Proof.
  intros w. unfold buses_rel.
  eapply Forall2_impl; [apply stop_at_load|]. apply P_load.
Qed.

Lemma serve_crossed_rel bi refs coord old new :
  steps (buses_rel P) (serve_crossed bi refs coord old new).
Proof.
  unfold serve_crossed. apply steps_bind; [apply _|apply steps_get_bus, _|].
  intros bus. destruct (direction bus =? 1).
  - apply steps_for_each; [apply _|]. intros si.
    apply steps_bind; [apply _|apply steps_get_stop, _|]. intros stop.
    destruct (_ && _); [apply stop_at_rel|apply steps_ret, _].
  - apply steps_for_each; [apply _|]. intros si.
    apply steps_bind; [apply _|apply steps_get_stop, _|]. intros stop.
    destruct (_ && _); [apply stop_at_rel|apply steps_ret, _].
Qed.

Lemma after_move_rel w bi bus :
  buses w !! bi = Some bus -> buses_rel P w (after_move w bi bus).
Proof.
  intros Hb. unfold buses_rel, after_move.
  destruct (stopped bus); [|destruct (exits (route w) bus)]; simpl;
    (eapply Forall2_insert_r; [apply _|done|]).
  - apply P_load. unfold same_but_load. by destruct bus.
  - etrans; [apply P_moved|].
    replace (move bus) with (move (moved bus)); [apply P_turned|].
    apply moved_fields.
  - apply P_moved.
Qed.

Lemma update_bus_rel bi : steps (buses_rel P) (update_bus bi).
Proof.
  intros w. destruct (buses w !! bi) as [bus|] eqn:Hb.
  - destruct (update_bus_eq w bi bus Hb) as (refs & coord & old & new & E).
    unfold state_after. rewrite E.
    pose proof (serve_crossed_rel bi refs coord old new
                  (after_move w bi bus)) as Hs.
    unfold state_after in Hs.
    destruct (serve_crossed _ _ _ _ _ _) as [[evs|e] w3]; simpl in *;
      (etrans; [by apply after_move_rel|done]).
  - unfold state_after, update_bus, bind, get_bus. rewrite Hb. reflexivity.
Qed.

Lemma update_stop_buses fuel si w :
  buses (state_after (update_stop fuel si) w) = buses w.
Proof.
  unfold state_after, update_stop, bind, get_stop, gets.
  destruct (stop_objs w !! si) as [stop|] eqn:Hs; [|reflexivity].
  destruct (rates (route w) !! stop_name stop) as [rate|]; [|reflexivity].
  unfold random_random. simpl.
  destruct (Qltb _ rate); [|reflexivity].
  destruct (pick_destination_state fuel (stop_name stop)
              (set_random_draws (S (random_draws w)) w)) as [k Hk].
  unfold state_after in Hk.
  destruct (pick_destination _ _ _) as [[dest|e] w2]; simpl in Hk; subst w2;
    [|reflexivity].
  destruct (passenger_directions _ _ _) as [e|[[hd vd] sd]]; [reflexivity|].
  unfold modify_tally, modify, time_time, raise, put_stop, ret. simpl.
  destruct hd as [hd|]; [|reflexivity].
  destruct vd as [vd|]; [|reflexivity].
  destruct sd as [sd|]; reflexivity.
Qed.

Lemma leave_stop_buses si w : buses (state_after (leave_stop si) w) = buses w.
Proof.
  unfold state_after. pose proof (leave_stop_cases w si) as H.
  destruct (stop_objs w !! si) as [stop|] eqn:Hs; [|by rewrite H].
  destruct (find_first _ _) as [[i p]|]; [|by rewrite H].
  destruct (py_incr _ _) as [hist'|]; by rewrite H.
Qed.

Lemma update_rel fuel : steps (buses_rel P) (update fuel).
Proof.
  unfold update, leave_phase.
  apply steps_bind; [apply _|apply steps_gets, _|]. intros n.
  apply steps_bind; [apply _| |].
  { apply steps_for_each; [apply _|]. apply update_bus_rel. }
  intros evs1. apply steps_bind; [apply _|apply steps_gets, _|]. intros sts.
  apply steps_bind; [apply _| |].
  { apply steps_for_each; [apply _|]. intros si w. unfold buses_rel.
    rewrite update_stop_buses. reflexivity. }
  intros evs2. apply steps_bind; [apply _| |].
  { apply steps_bind; [apply _|apply steps_gets, _|]. intros sts'.
    apply steps_for_each; [apply _|]. intros si w. unfold buses_rel.
    rewrite leave_stop_buses. reflexivity. }
  intros evs3. apply steps_ret, _.
Qed.

Lemma run_rel fuel n : steps (buses_rel P) (run fuel n).
Proof.
  induction n as [|n IH]; simpl.
  - apply steps_ret, _.
  - apply steps_bind; [apply _|apply update_rel|]. intros evs.
    apply steps_bind; [apply _|apply IH|]. intros evs'. apply steps_ret, _.
Qed.
End BusRelation.

#[local] Instance bus_fixed_preorder : PreOrder bus_fixed.
Proof.
  split.
  - intros b. unfold bus_fixed. tauto.
  - intros b1 b2 b3 (N1&S1&T1&M1&R1&C1&D1&H1&V1) (N2&S2&T2&M2&R2&C2&D2&H2&V2).
    unfold bus_fixed. rewrite M1 in *.
    repeat split; try congruence.
    + intros m Hm. rewrite D2, D1; done.
    + intros Hm. rewrite H2, H1; done.
    + intros Hm. rewrite V2, V1; done.
Qed.

#[local] Instance signs_kept_preorder : PreOrder signs_kept.
Proof.
  split; [intros b H; exact H|].
  intros b1 b2 b3 H1 H2. unfold signs_kept in *. tauto.
Qed.

Lemma same_but_load_eq b b' :
  same_but_load b b' ->
  bus_name b' = bus_name b /\ bus_position b' = bus_position b
  /\ direction b' = direction b /\ speed b' = speed b
  /\ stations b' = stations b /\ move b' = move b
  /\ rapid_express_local b' = rapid_express_local b
  /\ capacity b' = capacity b /\ busdir b' = busdir b.
Proof.
  unfold same_but_load. destruct b, b'. simpl.
  intros H. injection H as <- <- <- <- <- <- <- <- <-. done.
Qed.

Lemma bus_fixed_moved b : bus_fixed b (moved b).
Proof.
  unfold bus_fixed, moved. destruct (move b) eqn:Hm; simpl; rewrite ?Hm;
    repeat split; try done.
Qed.

Lemma busdir_get_set d m x : busdir_get (busdir_set d m x) m = x.
Proof. by destruct d, m. Qed.

Lemma busdir_get_set_ne d m m' x :
  m' <> m -> busdir_get (busdir_set d m x) m' = busdir_get d m'.
Proof. by destruct d, m, m'. Qed.

Lemma bus_fixed_turned b : bus_fixed b (turned (move b) b).
Proof.
  unfold bus_fixed, turned. simpl. repeat split; try done.
  intros m Hm. by apply busdir_get_set_ne.
Qed.

Lemma signs_kept_moved b : signs_kept b (moved b).
Proof.
  unfold signs_kept, signs_agree, moved.
  destruct (move b) eqn:Hm; simpl; by rewrite ?Hm.
Qed.

Lemma signs_kept_turned b : signs_kept b (turned (move b) b).
Proof.
  unfold signs_kept, signs_agree, turned. simpl.
  rewrite busdir_get_set. intros [Hd ->]. lia.
Qed.

(** X5. Whatever a run does, it leaves every bus on its line: name, speed,
    stations, geometry, service class and capacity are those of the start,
    a horizontal bus keeps its second coordinate and a vertical bus its
    first, and only the sign-table entry of the bus's own geometry may
    have changed. *)
Theorem bus_stays_on_its_line (fuel n : nat) (w : World) :
  Forall2 bus_fixed (buses w) (buses (state_after (run fuel n) w)).
Proof.
  apply (run_rel bus_fixed).
  - intros b b' H. apply same_but_load_eq in H as (?&Hp&?&?&?&Hm&?&?&Hd).
    unfold bus_fixed. rewrite Hp, Hd. tauto.
  - apply bus_fixed_moved.
  - apply bus_fixed_turned.
Qed.

(** X6. If every bus starts with a direction of 1 or -1 that its
    sign-table entry for its own geometry repeats, this is still so after
    any number of ticks: the turn-around negates both together and nothing
    else writes either. *)
Theorem direction_and_sign_table_agree (fuel n : nat) (w : World) :
  Forall signs_agree (buses w) ->
  Forall signs_agree (buses (state_after (run fuel n) w)).
Proof.
  intros H.
  assert (Hr : Forall2 signs_kept (buses w)
                 (buses (state_after (run fuel n) w))).
  { apply (run_rel signs_kept).
    - intros b b' Hl. apply same_but_load_eq in Hl as (?&?&Hd&?&?&Hm&?&?&Hb).
      unfold signs_kept, signs_agree. by rewrite Hd, Hm, Hb.
    - apply signs_kept_moved.
    - apply signs_kept_turned. }
  induction Hr as [|b b' l l' Hk _ IH]; [done|].
  apply Forall_cons in H as [? ?]. constructor; auto.
Qed.

Lemma bus_after_service w w' bi b :
  service w w' -> buses w !! bi = Some b ->
  exists b', buses w' !! bi = Some b' /\ bus_served b b'.
Proof.
  intros (_ & _ & Hbs & _) Hl.
  destruct (Forall2_lookup_l _ _ _ _ _ Hbs Hl) as (b' & ? & ?). eauto.
Qed.

(** X7.  The update of a stopped bus moves nothing: its position, its
    direction and its sign table are as before, no oil cost is added and
    no [BUS_TURNS] event is returned. *)
Theorem stopped_bus_stays_put (w : World) (bi : nat) (bus : Bus) :
  buses w !! bi = Some bus ->
  stopped bus = true ->
  let w' := state_after (update_bus bi) w in
  (exists bus',
      buses w' !! bi = Some bus'
      /\ bus_position bus' = bus_position bus
      /\ direction bus' = direction bus
      /\ busdir bus' = busdir bus)
  /\ oil_cost (tally w') = oil_cost (tally w)
  /\ (forall evs,
         result_of (update_bus bi) w = Returned evs ->
         Forall (fun e => is_BUS_TURNS e = false) evs).
Proof.
  intros Hb Hst w'. subst w'.
  assert (Hbi : (bi < length (buses w))%nat) by by eapply lookup_lt_Some.
  destruct (update_bus_eq w bi bus Hb) as (refs & coord & old & new & E).
  unfold state_after, result_of. rewrite E. clear E.
  unfold after_move, move_events. rewrite Hst.
  set (w1 := set_buses _ w).
  pose proof (serve_crossed_service bi refs coord old new w1) as Hs.
  pose proof (serve_crossed_emits bi refs coord old new w1) as Hem.
  assert (Hl : buses w1 !! bi = Some (set_bus_position (bus_position bus) bus))
    by by apply list_lookup_insert_eq.
  destruct (bus_after_service _ _ _ _ Hs Hl)
    as (bus' & Hl' & (_ & Hp & Hd & _ & _ & Hbd & _)).
  destruct Hs as (_ & Hoil & _).
  unfold state_after, result_of in *.
  destruct (serve_crossed _ _ _ _ _) as [[evs'|e] w3]; simpl in *;
    (split; [by exists bus'|]); (split; [done|]); [|done].
  intros evs [= <-]. by apply Hem.
Qed.

(** X8.  A bus that is not stopped and whose new coordinate is inside the
    interval of its line moves there and does not turn: its direction and
    its sign table are as before, no oil cost is added and no [BUS_TURNS]
    event is returned.  A horizontal bus keeps its second coordinate, a
    vertical bus its first. *)
Theorem moving_bus_advances (w : World) (bi : nat) (bus : Bus) :
  buses w !! bi = Some bus ->
  stopped bus = false ->
  (fst (bounds_of (route w) (move bus)) <= new_coordinate bus
   <= snd (bounds_of (route w) (move bus)))%Q ->
  let w' := state_after (update_bus bi) w in
  (exists bus',
      buses w' !! bi = Some bus'
      /\ free_coordinate bus' = new_coordinate bus
      /\ (move bus = MoveH -> snd (bus_position bus') = snd (bus_position bus))
      /\ (move bus = MoveV -> fst (bus_position bus') = fst (bus_position bus))
      /\ (move bus = MoveS -> bus_position bus' = s_new_position bus)
      /\ direction bus' = direction bus
      /\ busdir bus' = busdir bus)
  /\ oil_cost (tally w') = oil_cost (tally w)
  /\ (forall evs,
         result_of (update_bus bi) w = Returned evs ->
         Forall (fun e => is_BUS_TURNS e = false) evs).
Proof.
  intros Hb Hst Hin w'. subst w'.
  assert (Hbi : (bi < length (buses w))%nat) by by eapply lookup_lt_Some.
  assert (Hex : exits (route w) bus = false).
  { unfold exits. rewrite free_coordinate_moved.
    apply Qbetween_true in Hin. by rewrite Hin. }
  destruct (update_bus_eq w bi bus Hb) as (refs & coord & old & new & E).
  unfold state_after, result_of. rewrite E. clear E.
  unfold after_move, move_events. rewrite Hst, Hex.
  set (w1 := set_buses _ w).
  pose proof (serve_crossed_service bi refs coord old new w1) as Hs.
  pose proof (serve_crossed_emits bi refs coord old new w1) as Hem.
  assert (Hl : buses w1 !! bi = Some (moved bus))
    by by apply list_lookup_insert_eq.
  destruct (bus_after_service _ _ _ _ Hs Hl)
    as (bus' & Hl' & (_ & Hp & Hd & _ & Hm & Hbd & _)).
  destruct Hs as (_ & Hoil & _).
  destruct (moved_fields bus) as (Md & _ & Mm & _).
  destruct (moved_busdir bus) as [Mb _].
  assert (Hbus : free_coordinate bus' = new_coordinate bus
      /\ (move bus = MoveH -> snd (bus_position bus') = snd (bus_position bus))
      /\ (move bus = MoveV -> fst (bus_position bus') = fst (bus_position bus))
      /\ (move bus = MoveS -> bus_position bus' = s_new_position bus)
      /\ direction bus' = direction bus
      /\ busdir bus' = busdir bus).
  { split.
    { rewrite <- free_coordinate_moved. unfold free_coordinate.
      by rewrite Hm, Hp. }
    rewrite Hp. unfold moved.
    repeat split; try congruence; intros Hmv; by rewrite Hmv. }
  unfold state_after, result_of in *.
  destruct (serve_crossed _ _ _ _ _) as [[evs'|e] w3]; simpl in *;
    (split; [by exists bus'|]); (split; [done|]); [|done].
  intros evs [= <-]. by apply Hem.
Qed.

Lemma hist_total_insert (l : list Z) k x y :
  l !! k = Some x -> hist_total (<[k := y]> l) = hist_total l - x + y.
Proof.
  revert k. induction l as [|a l IH]; intros [|k] H; simplify_eq/=.
  - lia.
  - rewrite (IH k) by done. lia.
Qed.

Lemma py_incr_total (l l' : list Z) (i : Z) :
  py_incr l i = Some l' -> hist_total l' = hist_total l + 1.
Proof.
  unfold py_incr. destruct (py_index l i) as [k|]; [|done].
  destruct (l !! k) as [x|] eqn:Hk; [|done]. intros [= <-].
  rewrite (hist_total_insert l k x) by done. lia.
Qed.

Lemma fare_bounds c : (2 <= fare c <= 5)%Q.
Proof. destruct c; simpl; lra. Qed.

#[local] Instance books_preorder : PreOrder books.
Proof.
  split.
  - intros w. unfold books. cbv zeta. repeat split; try lia; try lra.
  - intros w1 w2 w3. unfold books. cbv zeta.
    intros (S1&F1&B1&G1&N1&C1&R1&P1&H1&[I1 I1']&O1)
           (S2&F2&B2&G2&N2&C2&R2&P2&H2&[I2 I2']&O2).
    repeat split; try congruence; try lia; try lra.
Qed.

Lemma books_same w w' :
  tally w' = tally w -> avg_wait_time w' = avg_wait_time w -> books w w'.
Proof.
  intros Ht Hh. unfold books. cbv zeta. rewrite Ht, Hh.
  repeat split; try lia; try lra.
Qed.

Lemma stop_at_books bi si : steps books (stop_at bi si).
Proof.
  intros w. sa_inv w bi si; try reflexivity; try (by apply books_same).
  match goal with H : py_incr _ _ = Some _ |- _ =>
    apply py_incr_total in H; rename H into Hh end.
  unfold books. cbv zeta. simpl.
  rewrite !length_app. simpl.
  pose proof (fare_bounds (rapid_express_local bus)) as [Hf1 Hf2].
  rewrite inject_Z_plus. change (inject_Z 1) with 1%Q.
  repeat split; try lia; lra.
Qed.

Lemma serve_crossed_books bi refs coord old new :
  steps books (serve_crossed bi refs coord old new).
Proof.
  unfold serve_crossed. apply steps_bind; [apply _|apply steps_get_bus, _|].
  intros bus. destruct (direction bus =? 1).
  - apply steps_for_each; [apply _|]. intros si.
    apply steps_bind; [apply _|apply steps_get_stop, _|]. intros stop.
    destruct (_ && _); [apply stop_at_books|apply steps_ret, _].
  - apply steps_for_each; [apply _|]. intros si.
    apply steps_bind; [apply _|apply steps_get_stop, _|]. intros stop.
    destruct (_ && _); [apply stop_at_books|apply steps_ret, _].
Qed.

Lemma after_move_books w bi bus : books w (after_move w bi bus).
Proof.
  unfold after_move.
  destruct (stopped bus); [|destruct (exits (route w) bus)];
    try (by apply books_same).
  unfold books, after_turn. cbv zeta. simpl.
  repeat split; try lia; lra.
Qed.

Lemma update_bus_books bi : steps books (update_bus bi).
Proof.
  intros w. destruct (buses w !! bi) as [bus|] eqn:Hb.
  - destruct (update_bus_eq w bi bus Hb) as (refs & coord & old & new & E).
    unfold state_after. rewrite E.
    pose proof (serve_crossed_books bi refs coord old new
                  (after_move w bi bus)) as Hs.
    unfold state_after in Hs.
    destruct (serve_crossed _ _ _ _ _ _) as [[evs|e] w3]; simpl in *;
      (etrans; [by apply after_move_books|done]).
  - unfold state_after, update_bus, bind, get_bus. rewrite Hb. reflexivity.
Qed.

Lemma update_stop_books fuel si : steps books (update_stop fuel si).
Proof.
  intros w. unfold state_after, update_stop, bind, get_stop, gets.
  destruct (stop_objs w !! si) as [stop|] eqn:Hs; [|reflexivity].
  destruct (rates (route w) !! stop_name stop) as [rate|]; [|reflexivity].
  unfold random_random. simpl.
  destruct (Qltb _ rate); [|by apply books_same].
  destruct (pick_destination_state fuel (stop_name stop)
              (set_random_draws (S (random_draws w)) w)) as [k Hk].
  unfold state_after in Hk.
  destruct (pick_destination _ _ _) as [[dest|e] w2]; simpl in Hk; subst w2;
    [|by apply books_same].
  destruct (passenger_directions _ _ _) as [e|[[hd vd] sd]];
    [by apply books_same|].
  unfold modify_tally, modify, time_time, raise, put_stop, ret. simpl.
  assert (Hb : forall w', tally w' = set_passenger_num
                  (passenger_num (tally w) + 1) (tally w) ->
                avg_wait_time w' = avg_wait_time w -> books w w').
  { intros w' Ht Hh. unfold books. cbv zeta. rewrite Ht, Hh. simpl.
    repeat split; try lia; lra. }
  destruct hd as [hd|]; [|by apply Hb].
  destruct vd as [vd|]; [|by apply Hb].
  destruct sd as [sd|]; by apply Hb.
Qed.

Lemma leave_stop_books si : steps books (leave_stop si).
Proof.
  intros w. unfold state_after. pose proof (leave_stop_cases w si) as H.
  destruct (stop_objs w !! si) as [stop|] eqn:Hs; [|rewrite H; reflexivity].
  destruct (find_first _ _) as [[i p]|]; [|rewrite H; by apply books_same].
  destruct (py_incr _ _) as [hist'|] eqn:Hi; rewrite H; simpl;
    [|by apply books_same].
  apply py_incr_total in Hi. unfold books. cbv zeta. simpl.
  repeat split; try lia; lra.
Qed.

Lemma update_books fuel : steps books (update fuel).
Proof.
  unfold update, leave_phase.
  apply steps_bind; [apply _|apply steps_gets, _|]. intros n.
  apply steps_bind; [apply _| |].
  { apply steps_for_each; [apply _|]. apply update_bus_books. }
  intros evs1. apply steps_bind; [apply _|apply steps_gets, _|]. intros sts.
  apply steps_bind; [apply _| |].
  { apply steps_for_each; [apply _|]. apply update_stop_books. }
  intros evs2. apply steps_bind; [apply _| |].
  { apply steps_bind; [apply _|apply steps_gets, _|]. intros sts'.
    apply steps_for_each; [apply _|]. apply leave_stop_books. }
  intros evs3. apply steps_ret, _.
Qed.

Lemma run_books fuel n : steps books (run fuel n).
Proof.
  induction n as [|n IH]; simpl.
  - apply steps_ret, _.
  - apply steps_bind; [apply _|apply update_books|]. intros evs.
    apply steps_bind; [apply _|apply IH|]. intros evs'. apply steps_ret, _.
Qed.

(** X9.  The accumulators move together over any number of ticks, whether
    or not a tick raises: the passenger count, the revenue samples and the
    plot times all grow by the number of boardings, the histogram gains one
    sample per boarding and per passenger that gave up, each boarding adds
    between 2 and 5 to the income, the oil cost does not go down, and the
    fixed cost and the start time are not touched. *)
Theorem accumulators_move_together (fuel n : nat) (w : World) :
  books w (state_after (run fuel n) w).
Proof. apply run_books. Qed.

Lemma init_stop_loop (body : BusPassenger -> M (list event)) sts w :
  Forall (fun si => exists st, stop_objs w !! si = Some st
                               /\ stop_passengers st = []) sts ->
  for_each sts (fun si => do stop <- get_stop si;
                          for_each (stop_passengers stop) body) w
  = (Returned [], w).
Proof.
  induction 1 as [|si sts (st & Hs & He) _ IH]; [done|].
  rewrite for_each_cons. cbv beta. unfold bind at 1. unfold get_stop at 1.
  rewrite Hs, He. simpl for_each at 1. unfold ret at 1. by rewrite IH.
Qed.

Lemma init_bus_loop (body : BusPassenger -> M (list event)) k : forall a w,
  Forall (fun b => bus_passengers b = []) (buses w) ->
  (a + k <= length (buses w))%nat ->
  exists f,
    (f == fixed_cost (tally w) + 25 * inject_Z (Z.of_nat k))%Q
    /\ for_each (seq a k) (fun bi =>
         do bus <- get_bus bi;
         modify_tally (fun t => set_fixed_cost (fixed_cost t + 25)%Q t) ;;
         for_each (bus_passengers bus) body) w
       = (Returned [], set_tally (set_fixed_cost f (tally w)) w).
Proof.
  induction k as [|k IH]; intros a w Hall Hlen.
  - exists (fixed_cost (tally w)). split; [change (inject_Z (Z.of_nat 0)) with 0%Q; lra|].
    simpl. unfold ret. by destruct w as [? ? ? []].
  - destruct (lookup_lt_is_Some_2 (buses w) a ltac:(lia)) as [b Hb].
    pose proof (proj1 (Forall_lookup _ _) Hall a b Hb) as He. simpl in He.
    set (w1 := set_tally (set_fixed_cost (fixed_cost (tally w) + 25)%Q
                            (tally w)) w).
    destruct (IH (S a) w1 Hall ltac:(simpl; lia)) as (f & Hf & E).
    exists f. split.
    { rewrite Hf. simpl fixed_cost. rewrite Nat2Z.inj_succ. unfold Z.succ.
      rewrite inject_Z_plus. change (inject_Z 1) with 1%Q. lra. }
    change (seq a (S k)) with (a :: seq (S a) k). rewrite for_each_cons.
    cbv beta. unfold bind at 1. unfold get_bus at 1. rewrite Hb.
    unfold bind at 1. unfold modify_tally at 1. unfold modify at 1. rewrite He.
    simpl for_each at 1. unfold ret at 1. fold w1. rewrite E.
    simpl. by destruct w as [? ? ? []].
Qed.

Lemma init_returns (w : World) :
  network_empty w ->
  exists f,
    (f == 25 * inject_Z (Z.of_nat (length (buses w))))%Q
    /\ init w
       = (Returned [],
          mkWorld (route w) (stop_objs w) (buses w)
            (mkTally (time_tape (env w) (clock_reads w)) [] [] 0 0 0 0 0 f 0)
            (repeat 0 9) (env w) (S (clock_reads w)) (random_draws w)
            (choice_draws w)).
Proof.
  intros [Hs Hb]. unfold init.
  unfold bind at 1. unfold time_time. cbv beta iota.
  unfold bind at 1. unfold modify_tally at 1, modify at 1. cbv beta iota.
  unfold bind at 1. unfold modify at 1. cbv beta iota.
  unfold bind at 1. unfold gets at 1. cbv beta iota.
  set (w1 := set_avg_wait_time _ _).
  unfold bind at 1. rewrite (init_stop_loop _ _ w1) by exact Hs.
  unfold bind at 1. unfold gets at 1. cbv beta iota.
  destruct (init_bus_loop
              (fun _ => match stops (route w1) with
                        | [] => raise UnboundLocalError
                        | _ => raise AttributeError
                        end) (length (buses w1)) 0 w1 Hb ltac:(lia))
    as (f & Hf & E).
  unfold bind at 1. rewrite E. exists f. split; [|reflexivity].
  rewrite Hf. simpl. lra.
Qed.

(** X10.  On a network with nobody waiting and nobody on board, [init]
    returns no event; it leaves stops and buses as they are, zeroes the
    counters, the income and the oil cost, empties the revenue samples and
    plot times, sets the histogram to nine zeros, reads the clock once for
    the start time, and charges a fixed cost of 25 per bus. *)
Theorem init_on_empty_network (w : World) :
  network_empty w ->
  let w' := state_after init w in
  let t' := tally w' in
  result_of init w = Returned []
  /\ stop_objs w' = stop_objs w /\ buses w' = buses w /\ route w' = route w
  /\ start_time t' = time_tape (env w) (clock_reads w)
  /\ clock_reads w' = S (clock_reads w)
  /\ revenue_list t' = [] /\ plot_times t' = []
  /\ passenger_count t' = 0 /\ passenger_num t' = 0
  /\ board_passengers t' = 0 /\ leave_passengers t' = 0
  /\ income t' = 0%Q /\ oil_cost t' = 0%Q
  /\ (fixed_cost t' == 25 * inject_Z (Z.of_nat (length (buses w))))%Q
  /\ avg_wait_time w' = repeat 0 9.
Proof.
  intros Hne w' t'. subst t' w'.
  destruct (init_returns w Hne) as (f & Hf & E).
  unfold state_after, result_of. rewrite E. simpl.
  repeat (split; [reflexivity|]). split; [exact Hf|reflexivity].
Qed.

Lemma result_of_bind_raised {A B} (m : M A) (k : A -> M B) w e :
  result_of m w = Raised e -> result_of (bind m k) w = Raised e.
Proof.
  unfold result_of, bind. destruct (m w) as [[a|e'] w1]; simpl; congruence.
Qed.

Lemma raise_loop (e : exn) (ps : list BusPassenger) w :
  ps <> [] -> for_each ps (fun _ => raise e) w = (Raised e, w).
Proof. destruct ps as [|p ps]; [done|]. intros _. by rewrite for_each_cons. Qed.

Lemma init_stop_loop_cases (e : exn) sts w :
  Forall (fun si => is_Some (stop_objs w !! si)) sts ->
  let loop := for_each sts (fun si => do stop <- get_stop si;
                for_each (stop_passengers stop) (fun _ => raise e)) in
  (Forall (fun si => exists st, stop_objs w !! si = Some st
                                /\ stop_passengers st = []) sts
   /\ loop w = (Returned [], w))
  \/ (Exists (fun si => exists st, stop_objs w !! si = Some st
                                   /\ stop_passengers st <> []) sts
      /\ loop w = (Raised e, w)).
Proof.
  intros H loop. subst loop.
  induction H as [|si sts [st Hs] _ IH]; [left; by split|].
  assert (Hstep : stop_passengers st = [] ->
            for_each (si :: sts) (fun si => do stop <- get_stop si;
                for_each (stop_passengers stop) (fun _ => raise e)) w
            = match for_each sts (fun si => do stop <- get_stop si;
                for_each (stop_passengers stop) (fun _ => raise e)) w with
              | (Returned evs', w2) => (Returned evs', w2)
              | (Raised e0, w2) => (Raised e0, w2)
              end).
  { intros Hp. rewrite for_each_cons. cbv beta. unfold bind at 1.
    unfold get_stop at 1. rewrite Hs, Hp. simpl for_each at 1.
    unfold ret at 1. done. }
  destruct (stop_passengers st) as [|p ps] eqn:Hp.
  - destruct IH as [[Ha E]|[Hex E]].
    + left. split; [constructor; [by exists st|done]|].
      by rewrite Hstep, E.
    + right. split; [by right|]. by rewrite Hstep, E.
  - right. split; [left; exists st; by rewrite Hp|].
    rewrite for_each_cons. cbv beta. unfold bind at 1.
    unfold get_stop at 1. rewrite Hs, Hp. by rewrite raise_loop.
Qed.

Lemma init_bus_loop_raises (e : exn) k : forall a w,
  (exists bi b, (a <= bi < a + k)%nat /\ buses w !! bi = Some b
                /\ bus_passengers b <> []) ->
  result_of (for_each (seq a k) (fun bi =>
         do bus <- get_bus bi;
         modify_tally (fun t => set_fixed_cost (fixed_cost t + 25)%Q t) ;;
         for_each (bus_passengers bus) (fun _ => raise e))) w
  = Raised e.
Proof.
  induction k as [|k IH]; intros a w (bi & b & Hr & Hb & Hne); [lia|].
  destruct (lookup_lt_is_Some_2 (buses w) a) as [ba Ha].
  { apply lookup_lt_Some in Hb. lia. }
  change (seq a (S k)) with (a :: seq (S a) k). unfold result_of.
  rewrite for_each_cons.
  cbv beta. unfold bind at 1. unfold get_bus at 1. rewrite Ha.
  unfold bind at 1. unfold modify_tally at 1. unfold modify at 1.
  set (w1 := set_tally _ w).
  destruct (bus_passengers ba) as [|p ps] eqn:Hp.
  - simpl for_each at 1. unfold ret at 1.
    assert (bi <> a) by (intros ->; simplify_eq; congruence).
    pose proof (IH (S a) w1 ltac:(exists bi, b; split; [lia|done])) as E.
    unfold result_of in E.
    destruct (for_each (seq (S a) k) _ w1) as [[evs|e'] w2]; simpl in *;
      congruence.
  - by rewrite raise_loop.
Qed.

(** X11.  [init] cannot report initial passengers.  On a network whose
    stop list refers to existing stops and where somebody is waiting at a
    stop or on board a bus, [init] raises: reading the attribute
    [map_direction], which no passenger has, gives [AttributeError]; with an
    empty stop list the loop over the buses first reads [stop], a local
    variable that no iteration has bound, and gives [UnboundLocalError]. *)
Theorem init_rejects_passengers (w : World) :
  Forall (fun si => is_Some (stop_objs w !! si)) (stops (route w)) ->
  Exists (fun si => exists st, stop_objs w !! si = Some st
                               /\ stop_passengers st <> []) (stops (route w))
  \/ Exists (fun b => bus_passengers b <> []) (buses w) ->
  result_of init w
  = Raised (match stops (route w) with
            | [] => UnboundLocalError
            | _ => AttributeError
            end).
Proof.
  intros Hv Hsome. unfold result_of, init.
  unfold bind at 1. unfold time_time. cbv beta iota.
  unfold bind at 1. unfold modify_tally at 1, modify at 1. cbv beta iota.
  unfold bind at 1. unfold modify at 1. cbv beta iota.
  unfold bind at 1. unfold gets at 1. cbv beta iota.
  set (w1 := set_avg_wait_time _ _).
  change (stops (route w1)) with (stops (route w)).
  unfold bind at 1.
  destruct (init_stop_loop_cases AttributeError (stops (route w)) w1 Hv)
    as [[Ha E]|[Hex E]]; rewrite E.
  - destruct Hsome as [Hex|Hex].
    { exfalso. apply Exists_exists in Hex as (si & Hin & st & Hs & Hne).
      pose proof (proj1 (Forall_forall _ _) Ha si Hin) as (st' & Hs' & He).
      simpl in Hs'. congruence. }
    unfold bind at 1. unfold gets at 1. cbv beta iota.
    assert (Hb : exists bi b, (0 <= bi < 0 + length (buses w1))%nat
                   /\ buses w1 !! bi = Some b /\ bus_passengers b <> []).
    { apply Exists_exists in Hex as (b & Hin & Hne).
      apply list_elem_of_lookup_1 in Hin as [bi Hbi].
      exists bi, b. split; [|done]. apply lookup_lt_Some in Hbi.
      simpl. lia. }
    apply (result_of_bind_raised _ _ w1).
    destruct (stops (route w)) as [|s0 sts] eqn:Hst.
    + exact (init_bus_loop_raises UnboundLocalError _ 0 w1 Hb).
    + exact (init_bus_loop_raises AttributeError _ 0 w1 Hb).
  - simpl. destruct (stops (route w)); [|done]. by apply Exists_nil in Hex.
Qed.

Lemma randint_range (a b : Z) (k : nat) :
  a <= b -> a <= a + Z.of_nat k mod (b - a + 1) <= b.
Proof.
  intros H. pose proof (Z.mod_pos_bound (Z.of_nat k) (b - a + 1)). lia.
Qed.

Lemma for_do_cons {A} (body : A -> M unit) x l w :
  for_do (x :: l) body w =
  match body x w with
  | (Returned _, w1) => for_do l body w1
  | (Raised e, w1) => (Raised e, w1)
  end.
Proof.
  simpl. unfold bind. destruct (body x w) as [[[]|e] w1]; [|done].
  by destruct (for_do l body w1) as [[[]|e] w2].
Qed.

Lemma reset_stops_loop srefs : forall w,
  Forall (fun si => is_Some (stop_objs w !! si)) srefs ->
  exists sts',
    for_do srefs (fun si =>
      do stop <- get_stop si;
      put_stop si (set_stop_passengers [] stop)) w
    = (Returned tt, set_stop_objs sts' w)
    /\ length sts' = length (stop_objs w)
    /\ forall si st, stop_objs w !! si = Some st ->
         sts' !! si = Some (if bool_decide (si ∈ srefs)
                            then set_stop_passengers [] st else st).
Proof.
  induction srefs as [|s srefs IH]; intros w Hv.
  - exists (stop_objs w). split; [by destruct w|]. split; [done|].
    intros si st Hs. rewrite bool_decide_eq_false_2; [done|].
    by apply not_elem_of_nil.
  - apply Forall_cons in Hv as [[st0 Hs0] Hv].
    set (w1 := set_stop_objs (<[s := set_stop_passengers [] st0]> (stop_objs w)) w).
    destruct (IH w1) as (sts' & E & Hl & Hsts).
    { eapply Forall_impl; [exact Hv|]. intros si [st Hst]. simpl.
      destruct (decide (si = s)) as [->|Hne].
      - rewrite list_lookup_insert_eq by by eapply lookup_lt_Some. eauto.
      - rewrite list_lookup_insert_ne by done. eauto. }
    exists sts'. split; [|split].
    + rewrite for_do_cons. cbv beta. unfold bind at 1. unfold get_stop at 1.
      rewrite Hs0. unfold put_stop, modify. cbv beta iota. fold w1.
      etrans; [exact E|]. by destruct w.
    + rewrite Hl. simpl. by rewrite length_insert.
    + intros si st Hst. destruct (decide (si = s)) as [->|Hne].
      * assert (st = st0) as -> by congruence.
        rewrite (Hsts s (set_stop_passengers [] st0)).
        2:{ simpl. rewrite list_lookup_insert_eq by by eapply lookup_lt_Some.
            done. }
        rewrite (bool_decide_eq_true_2 (s ∈ s :: srefs)) by by left.
        by destruct (bool_decide _).
      * rewrite (Hsts si st).
        2:{ simpl. by rewrite list_lookup_insert_ne. }
        destruct (bool_decide (si ∈ srefs)) eqn:Hd.
        -- apply bool_decide_eq_true_1 in Hd.
           rewrite bool_decide_eq_true_2; [done|by right].
        -- apply bool_decide_eq_false_1 in Hd.
           rewrite bool_decide_eq_false_2; [done|].
           intros Hin. apply elem_of_cons in Hin as [?|?]; done.
Qed.

Lemma bus_reset_again b b1 b' :
  bus_reset b b1 -> bus_reset b1 b' -> bus_reset b b'.
Proof.
  intros (_ & _ & E1 & _) (Hp & Hs & E2 & k & Hk).
  assert (Hm : move b1 = move b) by (rewrite <- E1; by destruct b1).
  split; [done|]. split; [done|]. split.
  - rewrite <- E1 at 4. rewrite <- E2. by destruct b'.
  - exists k. by rewrite <- Hm.
Qed.

Lemma reset_bus_step bi b w :
  buses w !! bi = Some b ->
  exists b1,
    bus_reset b b1
    /\ (do bus <- get_bus bi;
        let bus := set_stopped false (set_bus_passengers [] bus) in
        put_bus bi bus ;;
        match move bus with
        | MoveS =>
            do k <- random_randint 60 90;
            put_bus bi (set_bus_position (inject_Z k, 30%Q) bus)
        | MoveH =>
            do k <- random_randint 10 90;
            put_bus bi (set_bus_position (inject_Z k, 0%Q) bus)
        | MoveV =>
            do k <- random_randint (-20) 20;
            put_bus bi (set_bus_position (75%Q, inject_Z k) bus)
        end) w
       = (Returned tt,
          set_choice_draws (S (choice_draws w))
            (set_buses (<[bi := b1]> (buses w)) w)).
Proof.
  intros Hb. unfold bind at 1. unfold get_bus at 1. rewrite Hb. cbv zeta.
  unfold bind at 1. unfold put_bus at 1. unfold modify at 1.
  set (k := choice_tape (env w) (choice_draws w)).
  destruct (move b) eqn:Hm.
  - exists (set_bus_position
              (inject_Z (10 + Z.of_nat k mod (90 - 10 + 1)), 0%Q)
              (set_stopped false (set_bus_passengers [] b))).
    split.
    + split; [done|]. split; [done|]. split; [by destruct b|].
      exists (10 + Z.of_nat k mod (90 - 10 + 1)). rewrite Hm.
      split; [by apply randint_range|done].
    + simpl. rewrite Hm. unfold bind, random_randint, bind, random_position,
        ret, put_bus, modify. simpl. by rewrite list_insert_insert_eq.
  - exists (set_bus_position
              (75%Q, inject_Z (-20 + Z.of_nat k mod (20 - -20 + 1)))
              (set_stopped false (set_bus_passengers [] b))).
    split.
    + split; [done|]. split; [done|]. split; [by destruct b|].
      exists (-20 + Z.of_nat k mod (20 - -20 + 1)). rewrite Hm.
      split; [by apply randint_range|done].
    + simpl. rewrite Hm. unfold bind, random_randint, bind, random_position,
        ret, put_bus, modify. simpl. by rewrite list_insert_insert_eq.
  - exists (set_bus_position
              (inject_Z (60 + Z.of_nat k mod (90 - 60 + 1)), 30%Q)
              (set_stopped false (set_bus_passengers [] b))).
    split.
    + split; [done|]. split; [done|]. split; [by destruct b|].
      exists (60 + Z.of_nat k mod (90 - 60 + 1)). rewrite Hm.
      split; [by apply randint_range|done].
    + simpl. rewrite Hm. unfold bind, random_randint, bind, random_position,
        ret, put_bus, modify. simpl. by rewrite list_insert_insert_eq.
Qed.

Lemma reset_buses_loop brefs : forall w,
  Forall (fun bi => is_Some (buses w !! bi)) brefs ->
  exists bs' k,
    for_do brefs (fun bi =>
      do bus <- get_bus bi;
      let bus := set_stopped false (set_bus_passengers [] bus) in
      put_bus bi bus ;;
      match move bus with
      | MoveS =>
          do k <- random_randint 60 90;
          put_bus bi (set_bus_position (inject_Z k, 30%Q) bus)
      | MoveH =>
          do k <- random_randint 10 90;
          put_bus bi (set_bus_position (inject_Z k, 0%Q) bus)
      | MoveV =>
          do k <- random_randint (-20) 20;
          put_bus bi (set_bus_position (75%Q, inject_Z k) bus)
      end) w
    = (Returned tt, set_choice_draws k (set_buses bs' w))
    /\ length bs' = length (buses w)
    /\ forall bi b, buses w !! bi = Some b ->
         exists b', bs' !! bi = Some b'
                    /\ (bi ∈ brefs -> bus_reset b b')
                    /\ (bi ∉ brefs -> b' = b).
Proof.
  induction brefs as [|x brefs IH]; intros w Hv.
  - exists (buses w), (choice_draws w). split; [by destruct w|].
    split; [done|]. intros bi b Hb. exists b. split; [done|].
    split; [|done]. intros Hin. by apply not_elem_of_nil in Hin.
  - apply Forall_cons in Hv as [[b0 Hb0] Hv].
    destruct (reset_bus_step x b0 w Hb0) as (b1 & Hr & E1).
    set (w1 := set_choice_draws (S (choice_draws w))
                 (set_buses (<[x := b1]> (buses w)) w)) in *.
    assert (Hx : (x < length (buses w))%nat) by by eapply lookup_lt_Some.
    destruct (IH w1) as (bs' & k & E & Hl & Hbs).
    { eapply Forall_impl; [exact Hv|]. intros bi [b Hb]. simpl.
      destruct (decide (bi = x)) as [->|Hne].
      - rewrite list_lookup_insert_eq by done. eauto.
      - rewrite list_lookup_insert_ne by done. eauto. }
    exists bs', k. split; [|split].
    + rewrite for_do_cons. cbv beta. rewrite E1. etrans; [exact E|].
      by destruct w.
    + rewrite Hl. simpl. by rewrite length_insert.
    + intros bi b Hb. destruct (decide (bi = x)) as [->|Hne].
      * assert (b = b0) as -> by congruence.
        destruct (Hbs x b1) as (b' & Hb' & Hin & Hout).
        { simpl. by rewrite list_lookup_insert_eq. }
        exists b'. split; [done|]. split.
        -- intros _. destruct (decide (x ∈ brefs)) as [Hd|Hd].
           ++ eapply bus_reset_again; [exact Hr|by apply Hin].
           ++ by rewrite (Hout Hd).
        -- intros Hn. exfalso. apply Hn. by left.
      * destruct (Hbs bi b) as (b' & Hb' & Hin & Hout).
        { simpl. by rewrite list_lookup_insert_ne. }
        exists b'. split; [done|]. split.
        -- intros H. apply elem_of_cons in H as [?|?]; [done|by apply Hin].
        -- intros H. apply Hout. intros ?. apply H. by right.
Qed.

Lemma init_conditions_eq (w : World) (srefs brefs : list nat) :
  Forall (fun si => is_Some (stop_objs w !! si)) srefs ->
  Forall (fun bi => is_Some (buses w !! bi)) brefs ->
  exists sts' bs' k,
    init_conditions srefs brefs w
    = (Returned tt,
       set_choice_draws k (set_buses bs' (set_stop_objs sts' w)))
    /\ length sts' = length (stop_objs w)
    /\ length bs' = length (buses w)
    /\ (forall si st, stop_objs w !! si = Some st ->
          sts' !! si = Some (if bool_decide (si ∈ srefs)
                             then set_stop_passengers [] st else st))
    /\ (forall bi b, buses w !! bi = Some b ->
          exists b', bs' !! bi = Some b'
                     /\ (bi ∈ brefs -> bus_reset b b')
                     /\ (bi ∉ brefs -> b' = b)).
Proof.
  intros Hs Hb.
  destruct (reset_stops_loop srefs w Hs) as (sts' & E1 & Hl1 & Hsts).
  destruct (reset_buses_loop brefs (set_stop_objs sts' w) Hb)
    as (bs' & k & E2 & Hl2 & Hbs).
  exists sts', bs', k. split; [|done].
  unfold init_conditions. unfold bind at 1. rewrite E1. exact E2.
Qed.

(** X12.  [init_conditions(stops, buses)], given stops and buses of the
    model, returns; afterwards every listed stop has nobody waiting and
    every other stop is untouched; every listed bus has nobody on board, is
    not stopped and stands at a whole-number position of its line (x in
    10..90 at y = 0 for a horizontal bus, y in -20..20 at x = 75 for a
    vertical one, x in 60..90 at y = 30 for an inclined one), its other
    attributes, the passenger count among them, being as before; the other
    buses, the accumulators and the histogram are untouched. *)
Theorem init_conditions_resets (w : World) (srefs brefs : list nat) :
  Forall (fun si => is_Some (stop_objs w !! si)) srefs ->
  Forall (fun bi => is_Some (buses w !! bi)) brefs ->
  let w' := state_after (init_conditions srefs brefs) w in
  result_of (init_conditions srefs brefs) w = Returned tt
  /\ (forall si st, stop_objs w !! si = Some st ->
        stop_objs w' !! si
        = Some (if bool_decide (si ∈ srefs)
                then set_stop_passengers [] st else st))
  /\ (forall bi b, buses w !! bi = Some b ->
        exists b', buses w' !! bi = Some b'
                   /\ (bi ∈ brefs -> bus_reset b b')
                   /\ (bi ∉ brefs -> b' = b))
  /\ length (stop_objs w') = length (stop_objs w)
  /\ length (buses w') = length (buses w)
  /\ route w' = route w /\ tally w' = tally w
  /\ avg_wait_time w' = avg_wait_time w.
Proof.
  intros Hs Hb w'. subst w'.
  destruct (init_conditions_eq w srefs brefs Hs Hb)
    as (sts' & bs' & k & E & Hl1 & Hl2 & Hsts & Hbs).
  unfold state_after, result_of. rewrite E. simpl.
  repeat split; try done.
Qed.

(** X13.  After [init_conditions] has been given every stop and every bus
    of the model, nobody waits and nobody is on board, and the [init] that
    the animation calls next returns no event instead of raising. *)
Theorem init_after_reset_returns (w : World) (srefs brefs : list nat) :
  Forall (fun si => is_Some (stop_objs w !! si)) srefs ->
  Forall (fun bi => is_Some (buses w !! bi)) brefs ->
  stops (route w) ⊆ srefs ->
  (forall bi, (bi < length (buses w))%nat -> bi ∈ brefs) ->
  network_empty (state_after (init_conditions srefs brefs) w)
  /\ result_of (init_conditions srefs brefs ;; init) w = Returned [].
Proof.
  intros Hs Hb Hsub Hall.
  destruct (init_conditions_eq w srefs brefs Hs Hb)
    as (sts' & bs' & k & E & Hl1 & Hl2 & Hsts & Hbs).
  assert (Hne : network_empty
                  (set_choice_draws k (set_buses bs' (set_stop_objs sts' w)))).
  { split; simpl.
    - apply Forall_forall. intros si Hin.
      assert (Hin' : si ∈ srefs) by by apply Hsub.
      destruct (proj1 (Forall_forall _ _) Hs si Hin') as [st Hst].
      exists (set_stop_passengers [] st). split; [|done].
      rewrite (Hsts si st Hst). by rewrite bool_decide_eq_true_2.
    - apply Forall_lookup. intros bi b' Hb'.
      assert (Hlt : (bi < length (buses w))%nat).
      { rewrite <- Hl2. by eapply lookup_lt_Some. }
      destruct (lookup_lt_is_Some_2 _ _ Hlt) as [b Hbb].
      destruct (Hbs bi b Hbb) as (b'' & Hb'' & Hin & _).
      assert (b'' = b') as -> by congruence.
      by destruct (Hin (Hall bi Hlt)) as (? & _). }
  unfold state_after, result_of. rewrite E. simpl. split; [exact Hne|].
  destruct (init_returns _ Hne) as (f & _ & Ei).
  unfold bind. rewrite E, Ei. done.
Qed.

(** Whether it returns or raises, [init] leaves the counters at zero. *)
Lemma init_counters w :
  let w' := state_after init w in
  set_fixed_cost 0 (tally w')
  = mkTally (time_tape (env w) (clock_reads w)) [] [] 0 0 0 0 0 0 0
  /\ avg_wait_time w' = repeat 0 9.
Proof.
  set (view := fun w1 : World =>
                 (set_fixed_cost 0 (tally w1), avg_wait_time w1)).
  set (R := fun w1 w2 : World => view w2 = view w1).
  assert (HR : PreOrder R).
  { split; [by intros ?|]. intros ? ? ? H1 H2. unfold R in *. congruence. }
  assert (Hloop1 : forall sts, steps R (for_each sts (fun si =>
              do stop <- get_stop si;
              for_each (stop_passengers stop)
                       (fun passenger => raise AttributeError)))).
  { intros sts. apply steps_for_each; [done|]. intros si.
    apply steps_bind; [done|by apply steps_get_stop|]. intros stop.
    apply steps_for_each; [done|]. intros p. by apply steps_raise. }
  assert (Hmt : steps R (modify_tally
                  (fun t => set_fixed_cost (fixed_cost t + 25)%Q t))).
  { intros w1. unfold R, view. simpl. by destruct (tally w1). }
  assert (Hloop2 : forall (sts : list nat) l, steps R (for_each l (fun bi =>
               do bus <- get_bus bi;
               modify_tally (fun t => set_fixed_cost (fixed_cost t + 25)%Q t) ;;
               for_each (bus_passengers bus)
                        (fun passenger =>
                           match sts with
                           | [] => raise UnboundLocalError
                           | _ => raise AttributeError
                           end)))).
  { intros sts l. apply steps_for_each; [done|]. intros bi.
    apply steps_bind; [done|by apply steps_get_bus|]. intros bus.
    apply steps_bind; [done|apply Hmt|]. intros _.
    apply steps_for_each; [done|]. intros p.
    destruct sts; by apply steps_raise. }
  assert (Hv : view (state_after init w)
               = (mkTally (time_tape (env w) (clock_reads w)) [] [] 0 0 0 0 0
                    0 0, repeat 0 9)).
  { unfold state_after, init.
    unfold bind at 1. unfold time_time. cbv beta iota.
    unfold bind at 1. unfold modify_tally at 1, modify at 1. cbv beta iota.
    unfold bind at 1. unfold modify at 1. cbv beta iota.
    match goal with |- view (snd (?m ?w1)) = _ =>
      assert (Hs : steps R m); [|exact (Hs w1)] end.
    apply steps_bind; [done|by apply steps_gets|]. intros sts.
    apply steps_bind; [done|apply Hloop1|]. intros evs.
    apply steps_bind; [done|by apply steps_gets|]. intros n.
    apply steps_bind; [done|apply Hloop2|]. intros evs'.
    by apply steps_ret. }
  intros w'. subst w'.
  exact (conj (f_equal fst Hv) (f_equal snd Hv)).
Qed.

Lemma hist_total_zeros n : hist_total (repeat 0 n) = 0.
Proof. induction n as [|n IH]; [done|]. simpl. exact IH. Qed.

(** X14.  Counting from [init], as the animation does, the accumulators
    agree with each other after any number of ticks: [passenger_count],
    the number of revenue samples and the number of plot times all equal
    [board_passengers]; the samples in the histogram number
    [board_passengers + leave_passengers]; the income lies between 2 and 5
    per boarding. *)
Theorem counters_agree_from_init (fuel n : nat) (w : World) :
  let w' := state_after (init ;; run fuel n) w in
  let t' := tally w' in
  0 <= board_passengers t' /\ 0 <= leave_passengers t'
  /\ 0 <= passenger_num t'
  /\ passenger_count t' = board_passengers t'
  /\ Z.of_nat (length (revenue_list t')) = board_passengers t'
  /\ Z.of_nat (length (plot_times t')) = board_passengers t'
  /\ hist_total (avg_wait_time w')
     = board_passengers t' + leave_passengers t'
  /\ (2 * inject_Z (board_passengers t') <= income t'
      <= 5 * inject_Z (board_passengers t'))%Q
  /\ (0 <= oil_cost t')%Q
  /\ start_time t' = time_tape (env w) (clock_reads w).
Proof.
  intros w' t'. subst t' w'.
  pose proof (init_counters w) as [Ht Hh]. cbv zeta in Ht, Hh.
  assert (Hb : books (state_after init w)
                 (state_after (init ;; run fuel n) w)).
  { unfold state_after, bind. destruct (init w) as [[evs|e] w0]; simpl.
    - apply (run_books fuel n w0).
    - reflexivity. }
  revert Hb. generalize (state_after (init ;; run fuel n) w). intros w'.
  unfold books. cbv zeta. rewrite Hh, hist_total_zeros.
  destruct (tally (state_after init w)) as [st rl pt pc pn bp lp inc fc oc].
  simpl in Ht. injection Ht as -> -> -> -> -> -> -> -> ->.
  simpl. change (inject_Z 0) with 0%Q.
  intros (S1&F1&B1&G1&N1&C1&R1&P1&H1&[I1 I1']&O1).
  repeat split; try lia; try lra. done.
Qed.

Lemma pick_destination_S fuel sn w :
  pick_destination (S fuel) sn w
  = let d := nth (choice_tape (env w) (choice_draws w) mod length busstop)%nat
               busstop "" in
    let w1 := set_choice_draws (S (choice_draws w)) w in
    if negb (String.eqb sn d) then (Returned d, w1)
    else pick_destination fuel sn w1.
Proof.
  cbn [pick_destination]. unfold bind, random_position. cbv zeta.
  by destruct (negb _).
Qed.

Lemma pick_destination_result fuel sn : forall w d w',
  pick_destination fuel sn w = (Returned d, w') ->
  d ∈ busstop /\ d <> sn
  /\ exists k, w' = set_choice_draws k w /\ (choice_draws w < k)%nat.
Proof.
  induction fuel as [|fuel IH]; intros w d w'; [done|].
  rewrite pick_destination_S. cbv zeta.
  set (k := choice_tape (env w) (choice_draws w)).
  set (dd := nth _ _ _).
  assert (Hdd : dd ∈ busstop).
  { apply nth_elem_of. by apply Nat.mod_upper_bound. }
  clearbody dd.
  destruct (negb (String.eqb sn _)) eqn:Hn.
  - intros [= <- <-]. split; [|split].
    + done.
    + apply negb_true_iff, String.eqb_neq in Hn. congruence.
    + exists (S (choice_draws w)). split; [done|lia].
  - intros E. apply IH in E as (H1 & H2 & k' & -> & Hk). split; [done|].
    split; [done|]. exists k'. simpl in *. split; [by destruct w|lia].
Qed.

(** X15.  Between any two different stops of the ten that [init] names,
    [update_stop] finds a value for each of the three direction flags, each
    of them -1, 0 or 1: no flag is left unassigned and no coordinate lookup
    fails.  A passenger that needs no change gets exactly one flag that is
    not zero, a passenger that needs a change at least two. *)
Theorem every_trip_has_directions (sn dest : string) :
  sn ∈ busstop -> dest ∈ busstop -> sn <> dest ->
  exists h v s,
    passenger_directions sn dest (needs_change sn dest)
    = inr (Some h, Some v, Some s)
    /\ is_sign h /\ is_sign v /\ is_sign s
    /\ if needs_change sn dest then (2 <= flags_set h v s)%nat
       else flags_set h v s = 1%nat.
Proof.
  intros Hs Hd Hne. unfold busstop in Hs, Hd.
  repeat (apply elem_of_cons in Hs as [->|Hs]);
    [..|by apply elem_of_nil in Hs];
    repeat (apply elem_of_cons in Hd as [->|Hd]);
    try (by apply elem_of_nil in Hd); try done;
    vm_compute; eexists _, _, _; (split; [reflexivity|]);
    unfold is_sign; repeat split; auto.
Qed.

(** X16.  What [update_stop(stop)] does.  It never touches the buses, the
    histogram or the network.  When it returns no event, the stop and the
    accumulators are as before.  Otherwise the stop has a rate that exceeds
    the number drawn, the only event is the [WAITS] of one new passenger,
    and that passenger was appended to the stop's waiting list: it is named
    after the passenger numbering, which goes up by one, it starts at this
    stop, its destination is another one of the ten stops, its arrival
    time is the clock reading, its [change] flag is the one computed from
    the two stops and it has not alighted after a change. *)
Theorem arrival_outcome (fuel : nat) (w : World) (si : nat) (stop : BusStop) :
  stop_objs w !! si = Some stop ->
  let w' := state_after (update_stop fuel si) w in
  let sn := stop_name stop in
  buses w' = buses w /\ avg_wait_time w' = avg_wait_time w
  /\ route w' = route w
  /\ forall evs,
       result_of (update_stop fuel si) w = Returned evs ->
       (evs = [] /\ stop_objs w' = stop_objs w /\ tally w' = tally w)
       \/ exists rate p,
            rates (route w) !! sn = Some rate
            /\ (random_tape (env w) (random_draws w) < rate)%Q
            /\ evs = [WAITS (name p) sn (destination p)
                        (horizontal_direction p) (vertical_direction p)
                        (inclined_direction p)]
            /\ stop_objs w'
               = <[si := set_stop_passengers (stop_passengers stop ++ [p])
                           stop]> (stop_objs w)
            /\ tally w'
               = set_passenger_num (passenger_num (tally w) + 1) (tally w)
            /\ name p = "random" +:+ pretty (passenger_num (tally w))
            /\ source p = sn
            /\ destination p ∈ busstop /\ destination p <> sn
            /\ arrive_time p = time_tape (env w) (clock_reads w)
            /\ change p = needs_change sn (destination p)
            /\ changed_and_alight p = false
            /\ passenger_directions sn (destination p) (change p)
               = inr (Some (horizontal_direction p),
                      Some (vertical_direction p),
                      Some (inclined_direction p)).
Proof.
  intros Hs w' sn. subst w' sn.
  unfold state_after, result_of, update_stop, bind, get_stop, gets.
  rewrite Hs.
  destruct (rates (route w) !! stop_name stop) as [rate|] eqn:Hr;
    [|repeat (split; [done|]); intros evs [= <-]; by left].
  unfold random_random. simpl.
  destruct (Qltb _ rate) eqn:Hq;
    [|repeat (split; [done|]); intros evs [= <-]; by left].
  apply Qltb_lt in Hq.
  destruct (pick_destination fuel (stop_name stop)
              (set_random_draws (S (random_draws w)) w))
    as [[dest|e] w2] eqn:Hp.
  2:{ destruct (pick_destination_state fuel (stop_name stop)
                  (set_random_draws (S (random_draws w)) w)) as [k Hk].
      unfold state_after in Hk. rewrite Hp in Hk. simpl in Hk. subst w2.
      by repeat (split; [done|]). }
  apply pick_destination_result in Hp as (Hin & Hne & k & -> & _).
  destruct (passenger_directions _ _ _) as [e|[[hd vd] sd]] eqn:Hd;
    [by repeat (split; [done|])|].
  unfold modify_tally, modify, time_time, raise, put_stop, ret. simpl.
  destruct hd as [hd|]; [|by repeat (split; [done|])].
  destruct vd as [vd|]; [|by repeat (split; [done|])].
  destruct sd as [sd|]; [|by repeat (split; [done|])].
  simpl. repeat (split; [done|]). intros evs [= <-]. right.
  exists rate. eexists (mkBusPassenger _ _ _ _ _ _ _ _ _). simpl.
  repeat (split; [done|]). done.
Qed.

Lemma str_in_false (x : string) (l : list string) : x ∉ l -> str_in x l = false.
Proof.
  unfold str_in. induction l as [|y l IH]; [done|]. intros H. simpl.
  rewrite IH by (intros ?; apply H; by right).
  rewrite orb_false_r. apply String.eqb_neq. intros ->. apply H. by left.
Qed.

Lemma eqb_outside (x y : string) (l : list string) : x ∉ l -> y ∈ l -> String.eqb x y = false.
Proof. intros Hx Hy. apply String.eqb_neq. by intros ->. Qed.

Lemma names_known (x : string) :
  x ∈ busstop_x \/ x ∈ busstop_y \/ x ∈ busstop_s -> x ∈ busstop.
Proof.
  unfold busstop_x, busstop_y, busstop_s, busstop.
  rewrite !elem_of_cons, !elem_of_nil. tauto.
Qed.

(** X17.  At a stop whose name is not one of the ten that [init] names,
    an arrival cannot be completed: when the stop has a rate that exceeds
    the number drawn and a destination is drawn, no branch assigns the
    direction flags and [update_stop] raises [UnboundLocalError], after it
    has already advanced the passenger numbering; the stop gets no
    passenger. *)
Theorem arrival_at_unnamed_stop (fuel : nat) (w : World) (si : nat)
    (stop : BusStop) (rate : Q) :
  stop_objs w !! si = Some stop ->
  stop_name stop ∉ busstop ->
  rates (route w) !! stop_name stop = Some rate ->
  (random_tape (env w) (random_draws w) < rate)%Q ->
  (exists d w1, pick_destination fuel (stop_name stop)
                  (set_random_draws (S (random_draws w)) w)
                = (Returned d, w1)) ->
  let w' := state_after (update_stop fuel si) w in
  result_of (update_stop fuel si) w = Raised UnboundLocalError
  /\ passenger_num (tally w') = passenger_num (tally w) + 1
  /\ stop_objs w' = stop_objs w.
Proof.
  intros Hs Hout Hr Hq (d & w1 & Hp) w'. subst w'.
  assert (Hd : passenger_directions (stop_name stop) d
                 (needs_change (stop_name stop) d) = inr (None, None, None)).
  { assert (Hx : str_in (stop_name stop) busstop_x = false).
    { apply str_in_false. intros H. apply Hout, names_known. tauto. }
    assert (Hy : str_in (stop_name stop) busstop_y = false).
    { apply str_in_false. intros H. apply Hout, names_known. tauto. }
    assert (Hss : str_in (stop_name stop) busstop_s = false).
    { apply str_in_false. intros H. apply Hout, names_known. tauto. }
    assert (He : forall y, y ∈ busstop -> String.eqb (stop_name stop) y = false).
    { intros y. by apply eqb_outside. }
    unfold needs_change, passenger_directions.
    rewrite !He by (unfold busstop; repeat constructor).
    rewrite Hx, Hy, Hss. reflexivity. }
  apply Qltb_lt in Hq.
  unfold state_after, result_of, update_stop, bind, get_stop, gets.
  rewrite Hs, Hr. unfold random_random. simpl. rewrite Hq, Hp, Hd.
  apply pick_destination_result in Hp as (_ & _ & k & -> & _).
  unfold modify_tally, modify, time_time, raise. simpl. done.
Qed.

Lemma occurrences_app f evs1 evs2 :
  occurrences f (evs1 ++ evs2) = occurrences f evs1 + occurrences f evs2.
Proof.
  unfold occurrences, count_events. rewrite filter_app, length_app. lia.
Qed.

Lemma occurrences_nil f : occurrences f [] = 0.
Proof. reflexivity. Qed.

Lemma occurrences_one f e : occurrences f [e] = if f e then 1 else 0.
Proof.
  unfold occurrences, count_events. rewrite filter_cons.
  destruct (f e); by destruct (decide _).
Qed.

Ltac ledger_arith :=
  unfold ledger, headcount, waiting, on_board; simpl;
  rewrite ?occurrences_nil, ?occurrences_one; simpl;
  change (inject_Z 0) with 0%Q; change (inject_Z 1) with 1%Q.

Lemma ledger_nil w w' :
  tally w' = tally w -> stop_objs w' = stop_objs w -> buses w' = buses w ->
  ledger [] w w'.
Proof.
  intros Ht Hs Hb. unfold ledger, headcount, waiting, on_board.
  rewrite Ht, Hs, Hb, !occurrences_nil. change (inject_Z 0) with 0%Q.
  repeat split; try lia. lra.
Qed.

Lemma ledger_app evs1 evs2 w1 w2 w3 :
  ledger evs1 w1 w2 -> ledger evs2 w2 w3 -> ledger (evs1 ++ evs2) w1 w3.
Proof.
  intros (B1&L1&N1&O1&H1) (B2&L2&N2&O2&H2). unfold ledger.
  rewrite !occurrences_app. repeat split; try lia.
  rewrite O2, O1, inject_Z_plus. lra.
Qed.

Lemma logs_ret_nil : logs (ret []).
Proof. intros w evs [= <-]. by apply ledger_nil. Qed.

Lemma logs_bind_read {A} (m : M A) (k : A -> M (list event)) :
  (forall w a w1, m w = (Returned a, w1) -> w1 = w) ->
  (forall a, logs (k a)) -> logs (bind m k).
Proof.
  intros Hm Hk w evs. unfold result_of, state_after, bind.
  destruct (m w) as [[a|e] w1] eqn:E; [|done].
  apply Hm in E as ->. apply (Hk a w).
Qed.

Lemma get_bus_reads bi w a w1 : get_bus bi w = (Returned a, w1) -> w1 = w.
Proof. unfold get_bus. destruct (buses w !! bi); by intros [= ? ?]. Qed.

Lemma get_stop_reads si w a w1 : get_stop si w = (Returned a, w1) -> w1 = w.
Proof. unfold get_stop. destruct (stop_objs w !! si); by intros [= ? ?]. Qed.

Lemma gets_reads {A} (f : World -> A) w a w1 :
  gets f w = (Returned a, w1) -> w1 = w.
Proof. by intros [= ? ?]. Qed.

Lemma logs_seq (m1 m2 : M (list event)) :
  logs m1 -> logs m2 ->
  logs (do evs <- m1; do evs' <- m2; ret (evs ++ evs')).
Proof.
  intros H1 H2 w evs. unfold result_of, state_after, bind.
  pose proof (H1 w) as L1. unfold result_of, state_after in L1.
  destruct (m1 w) as [[evs1|e] w1]; [|done].
  pose proof (H2 w1) as L2. unfold result_of, state_after in L2.
  destruct (m2 w1) as [[evs2|e] w2]; [|done].
  simpl in *. intros [= <-]. eapply ledger_app; eauto.
Qed.

Lemma logs_for_each {A} (l : list A) (body : A -> M (list event)) :
  (forall x, logs (body x)) -> logs (for_each l body).
Proof.
  intros Hb. induction l as [|x l IH]; simpl.
  - apply logs_ret_nil.
  - by apply logs_seq.
Qed.

Lemma total_insert {A} (f : A -> nat) (l : list A) i x y :
  l !! i = Some x ->
  foldr (fun a n => Z.of_nat (f a) + n) 0 (<[i := y]> l)
  = foldr (fun a n => Z.of_nat (f a) + n) 0 l
    - Z.of_nat (f x) + Z.of_nat (f y).
Proof.
  revert i. induction l as [|a l IH]; intros [|i] H; simplify_eq/=.
  - lia.
  - rewrite (IH i) by done. lia.
Qed.

Lemma stop_at_logs bi si : logs (stop_at bi si).
Proof.
  intros w evs. sa_inv w bi si; intros [= <-]; ledger_arith.
  - (* transfer *)
    rewrite (total_insert (fun b => length (bus_passengers b)) _ _ bus) by done.
    rewrite (total_insert (fun s => length (stop_passengers s)) _ _ stop)
      by done.
    simpl. rewrite length_app. simpl.
    pose proof (length_delete_lt (scanned stop bus) i
                  ltac:(by eapply find_first_lt)) as Hl.
    rewrite length_scanned in Hl.
    repeat split; try lia; lra.
  - (* alighting *)
    rewrite (total_insert (fun b => length (bus_passengers b)) _ _ bus) by done.
    simpl.
    pose proof (length_delete_lt (scanned stop bus) i
                  ltac:(by eapply find_first_lt)) as Hl.
    rewrite length_scanned in Hl.
    repeat split; try lia; lra.
  - (* boarding *)
    match goal with H : board_scan _ _ _ _ = _ |- _ =>
      apply scan_board_eligible in H as (Hj & _) end.
    rewrite (total_insert (fun b => length (bus_passengers b)) _ _ bus) by done.
    rewrite (total_insert (fun s => length (stop_passengers s)) _ _ stop)
      by done.
    simpl. rewrite length_app, length_scanned. simpl.
    pose proof (length_delete_lt (stop_passengers stop) j
                  ltac:(by eapply lookup_lt_Some)) as Hl.
    repeat split; try lia; lra.
  - (* nothing to do *)
    rewrite (total_insert (fun b => length (bus_passengers b)) _ _ bus) by done.
    simpl. rewrite length_scanned.
    repeat split; try lia; lra.
Qed.

Lemma serve_crossed_logs bi refs coord old new :
  logs (serve_crossed bi refs coord old new).
Proof.
  unfold serve_crossed. apply logs_bind_read; [apply get_bus_reads|].
  intros bus.
  destruct (direction bus =? 1); apply logs_for_each; intros si;
    (apply logs_bind_read; [apply get_stop_reads|]); intros stop;
    (destruct (_ && _); [apply stop_at_logs|apply logs_ret_nil]).
Qed.

Lemma after_move_ledger w bi bus :
  buses w !! bi = Some bus ->
  ledger (move_events (route w) bus) w (after_move w bi bus).
Proof.
  intros Hb. unfold after_move, move_events.
  destruct (moved_fields bus) as (_ & _ & _ & Mp & _).
  destruct (turned_fields (move bus) (moved bus)) as (_ & _ & _ & _ & Tp & _).
  destruct (stopped bus); [|destruct (exits (route w) bus)];
    ledger_arith;
    rewrite (total_insert (fun b => length (bus_passengers b)) _ _ bus)
      by done.
  - simpl. repeat split; try lia; lra.
  - rewrite Tp, Mp. repeat split; try lia; lra.
  - rewrite Mp. repeat split; try lia; lra.
Qed.

Lemma update_bus_logs bi : logs (update_bus bi).
Proof.
  intros w evs. destruct (buses w !! bi) as [bus|] eqn:Hb.
  - destruct (update_bus_eq w bi bus Hb) as (refs & coord & old & new & E).
    unfold result_of, state_after. rewrite E.
    pose proof (serve_crossed_logs bi refs coord old new
                  (after_move w bi bus)) as Hs.
    unfold result_of, state_after in Hs.
    destruct (serve_crossed _ _ _ _ _ _) as [[evs'|e] w3]; [|done].
    simpl in *. intros [= <-].
    eapply ledger_app; [by apply after_move_ledger|by apply Hs].
  - unfold result_of, update_bus, bind, get_bus. by rewrite Hb.
Qed.

Lemma update_stop_logs fuel si : logs (update_stop fuel si).
Proof.
  intros w evs. unfold result_of, state_after, update_stop, bind, get_stop, gets.
  destruct (stop_objs w !! si) as [stop|] eqn:Hs; [|done].
  destruct (rates (route w) !! stop_name stop) as [rate|];
    [|intros [= <-]; by apply ledger_nil].
  unfold random_random. simpl.
  destruct (Qltb _ rate); [|intros [= <-]; by apply ledger_nil].
  destruct (pick_destination_state fuel (stop_name stop)
              (set_random_draws (S (random_draws w)) w)) as [k Hk].
  unfold state_after in Hk.
  destruct (pick_destination _ _ _) as [[dest|e] w2]; simpl in Hk; subst w2;
    [|done].
  destruct (passenger_directions _ _ _) as [e|[[hd vd] sd]]; [done|].
  unfold modify_tally, modify, time_time, raise, put_stop, ret. simpl.
  destruct hd as [hd|]; [|done].
  destruct vd as [vd|]; [|done].
  destruct sd as [sd|]; [|done].
  simpl. intros [= <-].
  ledger_arith.
  rewrite (total_insert (fun s => length (stop_passengers s)) _ _ stop)
    by done.
  simpl. rewrite length_app. simpl.
  repeat split; try lia; lra.
Qed.

Lemma leave_stop_logs si : logs (leave_stop si).
Proof.
  intros w evs. unfold result_of, state_after.
  pose proof (leave_stop_cases w si) as H.
  destruct (stop_objs w !! si) as [stop|] eqn:Hs; [|by rewrite H].
  destruct (find_first _ _) as [[i p]|] eqn:Hf;
    [|rewrite H; intros [= <-]; by apply ledger_nil].
  destruct (py_incr _ _) as [hist'|] eqn:Hi; rewrite H; [|done].
  simpl. intros [= <-].
  ledger_arith.
  rewrite (total_insert (fun s => length (stop_passengers s)) _ _ stop)
    by done.
  simpl.
  pose proof (length_delete_lt (stop_passengers stop) i
                ltac:(by eapply find_first_lt)) as Hl.
  repeat split; try lia; lra.
Qed.

Lemma update_logs fuel : logs (update fuel).
Proof.
  intros w evs. unfold result_of, state_after, update, leave_phase, bind, gets.
  pose proof (logs_for_each (seq 0 (length (buses w))) update_bus
                update_bus_logs w) as L1.
  unfold result_of, state_after in L1.
  destruct (for_each _ update_bus w) as [[evs1|e] w1]; [|done].
  pose proof (logs_for_each (stops (route w1)) (update_stop fuel)
                (update_stop_logs fuel) w1) as L2.
  unfold result_of, state_after in L2.
  destruct (for_each _ (update_stop fuel) w1) as [[evs2|e] w2]; [|done].
  pose proof (logs_for_each (stops (route w2)) leave_stop
                leave_stop_logs w2) as L3.
  unfold result_of, state_after in L3.
  destruct (for_each _ leave_stop w2) as [[evs3|e] w3]; [|done].
  simpl in *. intros [= <-].
  eapply ledger_app; [by apply L1|]. eapply ledger_app; [by apply L2|].
  by apply L3.
Qed.

Lemma run_logs fuel n : logs (run fuel n).
Proof.
  induction n as [|n IH]; simpl.
  - apply logs_ret_nil.
  - apply logs_seq; [apply update_logs|apply IH].
Qed.

(** X18.  The events returned by a run account for what it did to the
    model: the boardings, the abandonments and the passenger numbering
    went up by the number of [BOARDS], [LEFT] and [WAITS] events, the oil
    cost by 2.5 per [BUS_TURNS], and the number of passengers waiting or on
    board changed by the arrivals less the alightings and abandonments; a
    boarding or a transfer moves a passenger and changes no total. *)
Theorem events_account_for_run (fuel n : nat) (w : World) (evs : list event) :
  result_of (run fuel n) w = Returned evs ->
  ledger evs w (state_after (run fuel n) w).
Proof. apply run_logs. Qed.

Lemma update_bus_at w bi bus :
  buses w !! bi = Some bus ->
  update_bus bi w =
  match serve_crossed bi (line_stops (route w) (move bus))
          (line_coord (move bus)) (fst (stretch bus)) (snd (stretch bus))
          (after_move w bi bus) with
  | (Returned evs', w3) => (Returned (move_events (route w) bus ++ evs'), w3)
  | (Raised e, w3) => (Raised e, w3)
  end.
Proof.
  intros Hb.
  assert (Hbi : (bi < length (buses w))%nat) by by eapply lookup_lt_Some.
  unfold update_bus, bind, get_bus. rewrite Hb.
  unfold after_move, move_events, exits, moved, stretch, new_coordinate,
    free_coordinate.
  destruct (move bus) eqn:Hm.
  - unfold update_bus_hori, bind, get_bus, gets. rewrite Hb.
    destruct (bus_position bus) as [x y] eqn:Hp.
    destruct (stopped bus) eqn:Hst; simpl.
    + unfold put_bus, modify. by rewrite outcome_eta.
    + rewrite Hm. simpl.
      destruct (Qbetween _ _ _); simpl.
      * unfold put_bus, modify, ret. reflexivity.
      * unfold turn_around, bind, get_bus, put_bus, modify, modify_tally, ret.
        simpl. rewrite list_lookup_insert_eq by done. simpl.
        rewrite list_insert_insert_eq.
        unfold after_turn, turned, moved. rewrite Hm, Hp.
        simpl. reflexivity.
  - unfold update_bus_vert, bind, get_bus, gets. rewrite Hb.
    destruct (bus_position bus) as [x y] eqn:Hp.
    destruct (stopped bus) eqn:Hst; simpl.
    + unfold put_bus, modify. by rewrite outcome_eta.
    + rewrite Hm. simpl.
      destruct (Qbetween _ _ _); simpl.
      * unfold put_bus, modify, ret. reflexivity.
      * unfold turn_around, bind, get_bus, put_bus, modify, modify_tally, ret.
        simpl. rewrite list_lookup_insert_eq by done. simpl.
        rewrite list_insert_insert_eq.
        unfold after_turn, turned, moved. rewrite Hm, Hp.
        simpl. reflexivity.
  - unfold update_bus_s, bind, get_bus, gets. rewrite Hb.
    pose proof (proj1 (s_new_position_spec bus)) as Hx.
    destruct (bus_position bus) as [x y] eqn:Hp.
    destruct (stopped bus) eqn:Hst; simpl.
    + unfold put_bus, modify. by rewrite outcome_eta.
    + destruct (s_new_position bus) as [nx ny] eqn:Hn.
      simpl in Hx. subst nx.
      rewrite Hm. simpl.
      destruct (Qbetween _ _ _); simpl.
      * unfold put_bus, modify, ret. reflexivity.
      * unfold turn_around, bind, get_bus, put_bus, modify, modify_tally, ret.
        simpl. rewrite list_lookup_insert_eq by done. simpl.
        rewrite list_insert_insert_eq.
        unfold after_turn, turned, moved. rewrite Hm, Hn.
        simpl. reflexivity.
Qed.

Lemma steps_for_each_in (R : World -> World -> Prop) `{!PreOrder R} {A}
    (l : list A) (body : A -> M (list event)) :
  (forall x, x ∈ l -> steps R (body x)) -> steps R (for_each l body).
Proof.
  induction l as [|x l IH]; intros Hb; simpl.
  - by apply steps_ret.
  - apply steps_bind; [done|apply Hb; by left|]. intros evs.
    apply steps_bind; [done| |intros evs'; by apply steps_ret].
    apply IH. intros y Hy. apply Hb. by right.
Qed.

#[local] Instance touches_preorder bi served :
  (forall sj st st', stop_position st' = stop_position st ->
                     served sj st' -> served sj st) ->
  PreOrder (touches bi served).
Proof.
  intros Hserved. split.
  - intros w. repeat split; try done. intros sj st Hs. by exists st.
  - intros w1 w2 w3 (B1 & Lb1 & Ls1 & S1) (B2 & Lb2 & Ls2 & S2).
    split; [|split; [|split]]; try congruence.
    + intros bj Hne. by rewrite B2, B1.
    + intros sj st Hs.
      destruct (S1 sj st Hs) as (st1 & Hs1 & N1 & P1 & E1).
      destruct (S2 sj st1 Hs1) as (st2 & Hs2 & N2 & P2 & E2).
      exists st2. repeat split; try congruence.
      intros Hn. rewrite E2, E1; try done.
      intros H. apply Hn. by eapply Hserved.
Qed.

Lemma stop_at_touches bi si (served : nat -> BusStop -> Prop) w :
  (forall st, stop_objs w !! si = Some st -> served si st) ->
  touches bi served w (state_after (stop_at bi si) w).
Proof.
  intros Hsv.
  assert (Hins : forall st st',
            stop_objs w !! si = Some st ->
            stop_name st' = stop_name st ->
            stop_position st' = stop_position st ->
            forall sj st0, stop_objs w !! sj = Some st0 ->
              exists st1, <[si := st']> (stop_objs w) !! sj = Some st1
                          /\ stop_name st1 = stop_name st0
                          /\ stop_position st1 = stop_position st0
                          /\ (~ served sj st0 -> st1 = st0)).
  { intros st st' Hs Hn Hp sj st0 Hs0.
    destruct (decide (sj = si)) as [->|Hne].
    - assert (st0 = st) as -> by congruence.
      rewrite list_lookup_insert_eq by by eapply lookup_lt_Some.
      exists st'. repeat split; try done. intros H. exfalso. by apply H, Hsv.
    - rewrite list_lookup_insert_ne by done. by exists st0. }
  assert (Hsame : forall sj st0, stop_objs w !! sj = Some st0 ->
              exists st1, stop_objs w !! sj = Some st1
                          /\ stop_name st1 = stop_name st0
                          /\ stop_position st1 = stop_position st0
                          /\ (~ served sj st0 -> st1 = st0)).
  { intros sj st0 Hs0. by exists st0. }
  sa_inv w bi si; unfold touches; simpl;
    rewrite ?length_insert;
    (split; [intros bj Hne; by rewrite ?list_lookup_insert_ne by done|]);
    (split; [done|]); (split; [done|]); try exact Hsame;
    by eapply Hins.
Qed.

Lemma crossed_position refs coord d old new sj st st' :
  stop_position st' = stop_position st ->
  on_stretch refs coord d old new sj st' ->
  on_stretch refs coord d old new sj st.
Proof. unfold on_stretch. by intros ->. Qed.

Lemma serve_loop_touches bi refs (cond : BusStop -> bool)
    (served : nat -> BusStop -> Prop) `{!PreOrder (touches bi served)} :
  (forall sj st, sj ∈ refs -> cond st = true -> served sj st) ->
  steps (touches bi served)
    (for_each refs (fun si =>
       do stop <- get_stop si;
       if cond stop then stop_at bi si else ret [])).
Proof.
  intros Hc. apply steps_for_each_in; [done|].
  intros si Hin w1. unfold state_after, bind, get_stop.
  destruct (stop_objs w1 !! si) as [stop|] eqn:Hs; [|reflexivity].
  destruct (cond stop) eqn:Hcs; [|reflexivity].
  apply stop_at_touches. intros st Hst.
  assert (st = stop) as -> by congruence. by apply Hc.
Qed.

Lemma serve_crossed_touches bi refs coord old new w bus :
  buses w !! bi = Some bus ->
  touches bi (on_stretch refs coord (direction bus) old new) w
    (state_after (serve_crossed bi refs coord old new) w).
Proof.
  intros Hb.
  pose proof (touches_preorder bi _
                (crossed_position refs coord (direction bus) old new)) as HP.
  unfold state_after, serve_crossed, bind at 1, get_bus at 1. rewrite Hb.
  destruct (direction bus =? 1) eqn:Hd.
  - apply (@serve_loop_touches bi refs
             (fun stop => Qltb old (inject_Z (coord (stop_position stop)))
                          && Qle_bool (inject_Z (coord (stop_position stop)))
                               new) _ HP).
    intros sj st Hin Hc. split; [done|]. unfold crossed. by rewrite Hd.
  - apply (@serve_loop_touches bi refs
             (fun stop => Qltb (inject_Z (coord (stop_position stop))) old
                          && Qle_bool new
                               (inject_Z (coord (stop_position stop)))) _ HP).
    intros sj st Hin Hc. split; [done|]. unfold crossed. by rewrite Hd.
Qed.

Lemma after_move_touches w bi bus served :
  buses w !! bi = Some bus -> touches bi served w (after_move w bi bus).
Proof.
  intros Hb. unfold after_move, after_turn.
  destruct (stopped bus); [|destruct (exits (route w) bus)]; unfold touches;
    simpl; rewrite ?length_insert;
    (split; [intros bj Hne; by rewrite list_lookup_insert_ne|]);
    (split; [done|]); (split; [done|]); intros sj st Hs; by exists st.
Qed.

(** X19.  The update of one bus touches no other bus, and of the stops only
    those on the stop list of its geometry whose coordinate lies on the
    stretch it covers: behind the new coordinate and ahead of the old one
    when it moves without turning, the stretch of its last step when it is
    stopped.  Every stop keeps its name and position. *)
Theorem update_bus_serves_its_stretch (w : World) (bi : nat) (bus : Bus) :
  buses w !! bi = Some bus ->
  stopped bus = true \/ exits (route w) bus = false ->
  touches bi
    (on_stretch (line_stops (route w) (move bus)) (line_coord (move bus))
       (direction bus) (fst (stretch bus)) (snd (stretch bus)))
    w (state_after (update_bus bi) w).
Proof.
  intros Hb Hno.
  assert (Hbi : (bi < length (buses w))%nat) by by eapply lookup_lt_Some.
  pose proof (touches_preorder bi _
                (crossed_position (line_stops (route w) (move bus))
                   (line_coord (move bus)) (direction bus)
                   (fst (stretch bus)) (snd (stretch bus)))) as HP.
  unfold state_after. rewrite (update_bus_at w bi bus Hb).
  assert (Hb1 : exists bus1, buses (after_move w bi bus) !! bi = Some bus1
                             /\ direction bus1 = direction bus).
  { unfold after_move. destruct Hno as [Hst|Hex].
    - rewrite Hst. simpl. rewrite list_lookup_insert_eq by done.
      eexists. split; [done|]. by destruct bus.
    - destruct (stopped bus); simpl.
      + rewrite list_lookup_insert_eq by done.
        eexists. split; [done|]. by destruct bus.
      + rewrite Hex. simpl. rewrite list_lookup_insert_eq by done.
        eexists. split; [done|]. apply moved_fields. }
  destruct Hb1 as (bus1 & Hb1 & Hd1).
  pose proof (serve_crossed_touches bi (line_stops (route w) (move bus))
                (line_coord (move bus)) (fst (stretch bus))
                (snd (stretch bus)) (after_move w bi bus) bus1 Hb1) as Hs.
  rewrite Hd1 in Hs. unfold state_after in Hs.
  destruct (serve_crossed _ _ _ _ _ _) as [[evs'|e] w3]; simpl in *;
    (etrans; [by apply after_move_touches|exact Hs]).
Qed.

Lemma serve_loop_none bi refs (cond : BusStop -> bool) w :
  Forall (fun si => is_Some (stop_objs w !! si)) refs ->
  (forall si st, stop_objs w !! si = Some st -> cond st = false) ->
  for_each refs (fun si =>
    do stop <- get_stop si;
    if cond stop then stop_at bi si else ret []) w
  = (Returned [], w).
Proof.
  intros Hv Hc. induction Hv as [|si refs [st Hs] _ IH]; [done|].
  rewrite for_each_cons. cbv beta. unfold bind at 1. unfold get_stop at 1.
  rewrite Hs, (Hc si st Hs). unfold ret at 1. by rewrite IH.
Qed.

(** X20.  In the tick in which a bus turns around it serves no stop: for a
    bus with direction 1 or -1 and a speed that is not negative, whose new
    coordinate is outside the interval of its line, the update returns the
    [BUS_TURNS] event alone and changes nothing but the position, the
    direction and the sign table of the bus and the oil cost.  A stop just
    passed is served only on the way back. *)
Theorem turning_bus_serves_no_stop (w : World) (bi : nat) (bus : Bus) :
  buses w !! bi = Some bus ->
  stopped bus = false ->
  direction bus = 1 \/ direction bus = -1 ->
  (0 <= speed bus)%Q ->
  exits (route w) bus = true ->
  Forall (fun si => is_Some (stop_objs w !! si))
         (line_stops (route w) (move bus)) ->
  update_bus bi w
  = (Returned [BUS_TURNS (bus_name bus)], after_turn w bi bus).
Proof.
  intros Hb Hst Hd Hsp Hex Hv.
  assert (Hbi : (bi < length (buses w))%nat) by by eapply lookup_lt_Some.
  rewrite (update_bus_at w bi bus Hb).
  unfold after_move, move_events, stretch. rewrite Hst, Hex. simpl.
  unfold serve_crossed, bind at 1, get_bus at 1. simpl.
  rewrite list_lookup_insert_eq by done.
  destruct (turned_fields (move bus) (moved bus)) as (Td & _).
  destruct (moved_fields bus) as (Md & _).
  rewrite Td, Md.
  assert (Hnew : forall c : Q,
            (direction bus = 1 ->
             ~ ((c < free_coordinate bus)%Q /\ (new_coordinate bus <= c)%Q))
            /\ (direction bus = -1 ->
             ~ ((free_coordinate bus < c)%Q /\ (c <= new_coordinate bus)%Q))).
  { intros c. unfold new_coordinate. split; intros E; rewrite E.
    - change (inject_Z 1) with 1%Q. lra.
    - change (inject_Z (-1)) with (-1)%Q. lra. }
  destruct Hd as [Hd|Hd]; rewrite Hd; simpl.
  - rewrite serve_loop_none; [done|exact Hv|].
    intros si st _. apply andb_false_iff.
    destruct (Qltb _ (free_coordinate bus)) eqn:E1; [|by left]. right.
    destruct (Qle_bool (new_coordinate bus) _) eqn:E2; [|done].
    apply Qltb_lt in E1. apply Qle_bool_iff in E2.
    exfalso. exact (proj1 (Hnew _) Hd (conj E1 E2)).
  - rewrite serve_loop_none; [done|exact Hv|].
    intros si st _. apply andb_false_iff.
    destruct (Qltb (free_coordinate bus) _) eqn:E1; [|by left]. right.
    destruct (Qle_bool _ (new_coordinate bus)) eqn:E2; [|done].
    apply Qltb_lt in E1. apply Qle_bool_iff in E2.
    exfalso. exact (proj2 (Hnew _) Hd (conj E1 E2)).
Qed.

(** X21.  After [init] and a run that returns the events [evs], the
    accessors report those events: [get_tally] gives the number of
    [BOARDS], [get_passenger] the numbers of [BOARDS] and of [LEFT],
    [get_wait] a histogram with one sample for each of them, and
    [get_revenue] and [get_time] one entry per [BOARDS]. *)
Theorem accessors_report_the_events (fuel n : nat) (w : World)
    (evs : list event) :
  result_of (init ;; run fuel n) w = Returned evs ->
  let w' := state_after (init ;; run fuel n) w in
  let boarded := occurrences is_BOARDS evs in
  let gave_up := occurrences is_LEFT evs in
  result_of get_tally w' = Returned boarded
  /\ result_of get_passenger w' = Returned [boarded; gave_up]
  /\ (exists h, result_of get_wait w' = Returned h
                /\ hist_total h = boarded + gave_up)
  /\ (exists r, result_of get_revenue w' = Returned r
                /\ Z.of_nat (length r) = boarded)
  /\ (exists t, result_of get_time w' = Returned t
                /\ Z.of_nat (length t) = boarded).
Proof.
  intros Hr w' boarded gave_up. subst w' boarded gave_up.
  pose proof (init_counters w) as [Ht Hh]. cbv zeta in Ht, Hh.
  revert Hr. unfold result_of, state_after, bind.
  unfold state_after in Ht, Hh.
  destruct (init w) as [[evs0|e] w0]; [|done]. simpl in Ht, Hh.
  assert (Hz : hist_total (avg_wait_time w0) = 0)
    by (rewrite Hh; apply (hist_total_zeros 9)).
  clear Hh.
  pose proof (run_logs fuel n w0) as Hl.
  pose proof (run_books fuel n w0) as Hb.
  unfold result_of, state_after in Hl, Hb.
  destruct (run fuel n w0) as [[evs1|e] w1]; [|done]. simpl in *.
  intros [= ->]. specialize (Hl evs eq_refl).
  destruct Hl as (B & L & _). revert Hb B L.
  unfold books. cbv zeta. rewrite Hz.
  destruct (tally w0) as [st rl pt pc pn bp lp inc fc oc].
  simpl in Ht. injection Ht as -> -> -> -> -> -> -> -> ->. simpl.
  intros (S1&F1&B1&G1&N1&C1&R1&P1&H1&_) B L.
  unfold get_tally, get_passenger, get_wait, get_revenue, get_time, gets.
  simpl. split; [f_equal; lia|]. split; [do 2 f_equal; [lia|f_equal; lia]|].
  split; [eexists; split; [done|lia]|].
  split; eexists; (split; [done|lia]).
Qed.

Lemma built_on_axis b : built b -> on_axis b.
Proof.
  intros (nm & pos & d & sp & ps & st & sts & mv & rel & cap & cnt & bd & H).
  unfold Bus_init in H.
  destruct ((d =? 1) || (d =? -1)) eqn:Hd; simpl in H; [|done].
  destruct mv; simpl in H.
  - destruct (snd pos =? 0) eqn:Hy; simpl in H; [|done].
    injection H as <-. unfold on_axis. simpl. split; [lia|].
    split; [|done]. intros _. apply Z.eqb_eq in Hy. by rewrite Hy.
  - destruct (fst pos =? 75) eqn:Hx; simpl in H; [|done].
    injection H as <-. unfold on_axis. simpl. split; [lia|].
    split; [done|]. intros _. apply Z.eqb_eq in Hx. by rewrite Hx.
  - injection H as <-. unfold on_axis. simpl. split; [lia|]. done.
Qed.

#[local] Instance direction_kept_preorder : PreOrder direction_kept.
Proof.
  split; [intros b H; exact H|].
  intros b1 b2 b3 H1 H2. unfold direction_kept in *. tauto.
Qed.

(** X23.  Buses that [Bus.__init__] accepted never leave their axis: after
    any number of ticks every bus still has a direction of 1 or -1, every
    horizontal bus is at [y = 0] and every vertical bus at [x = 75]. *)
Theorem built_buses_stay_on_axis (fuel n : nat) (w : World) :
  Forall built (buses w) ->
  Forall on_axis (buses (state_after (run fuel n) w)).
Proof.
  intros H.
  assert (Hf : Forall2 bus_fixed (buses w)
                 (buses (state_after (run fuel n) w))).
  { apply (run_rel bus_fixed).
    - intros b b' Hl. apply same_but_load_eq in Hl as (?&Hp&?&?&?&Hm&?&?&Hd).
      unfold bus_fixed. rewrite Hp, Hd. tauto.
    - apply bus_fixed_moved.
    - apply bus_fixed_turned. }
  assert (Hd : Forall2 direction_kept (buses w)
                 (buses (state_after (run fuel n) w))).
  { apply (run_rel direction_kept).
    - intros b b' Hl. apply same_but_load_eq in Hl as (?&?&Hd&_).
      unfold direction_kept. by rewrite Hd.
    - intros b. unfold direction_kept.
      by destruct (moved_fields b) as (-> & _).
    - intros b. unfold direction_kept.
      destruct (turned_fields (move b) b) as (-> & _). lia. }
  revert Hf Hd. generalize (buses (state_after (run fuel n) w)).
  induction H as [|b l Hb _ IH]; intros l' Hf Hd.
  - apply Forall2_nil_inv_l in Hf as ->. constructor.
  - apply Forall2_cons_inv_l in Hf as (b' & l'' & Hfb & Hf & ->).
    apply Forall2_cons in Hd as [Hdb Hd].
    constructor; [|by apply IH].
    apply built_on_axis in Hb as (D & Hh & Hv).
    destruct Hfb as (_&_&_&Mm&_&_&_&Fh&Fv).
    split; [by apply Hdb|]. rewrite Mm.
    split; intros Hmv; [rewrite Fh|rewrite Fv]; auto.
Qed.




(** *** The further properties on the example networks *)

Lemma stop_at_frame_witness :
  stop_objs (state_after (stop_at 0 0) (demo 3)) !! 1%nat
  = stop_objs (demo 3) !! 1%nat
  /\ buses (state_after (stop_at 0 0) (demo 3)) !! 1%nat
     = buses (demo 3) !! 1%nat.
Proof.
  split.
  - apply (proj1 (proj2 (stop_at_frame (demo 3) 0 0))). lia.
  - apply (proj1 (stop_at_frame (demo 3) 0 0)). lia.
Defined.

Lemma transfer_zeroes_line_flag_witness :
  buses (hub_demo 3) !! 0%nat = Some local3
  /\ stop_objs (hub_demo 3) !! 0%nat = Some centre_st
  /\ result_of (stop_at 0 0) (hub_demo 3)
     = Returned [CHANGES "dan" "West St" "South St" 1 (-1) 0]
  /\ exists p p',
       p ∈ scanned centre_st local3
       /\ stop_objs (state_after (stop_at 0 0) (hub_demo 3)) !! 0%nat
          = Some (set_stop_passengers (stop_passengers centre_st ++ [p'])
                    centre_st)
       /\ name p' = name p
       /\ direction_of (move local3) p' = 0.
Proof.
  assert (H : result_of (stop_at 0 0) (hub_demo 3)
              = Returned [CHANGES "dan" "West St" "South St" 1 (-1) 0])
    by (vm_compute; reflexivity).
  split; [reflexivity|]. split; [reflexivity|]. split; [exact H|].
  destruct (transfer_zeroes_line_flag (hub_demo 3) 0 0 local3 centre_st
              [CHANGES "dan" "West St" "South St" 1 (-1) 0]
              (CHANGES "dan" "West St" "South St" 1 (-1) 0)
              eq_refl eq_refl H ltac:(by left) eq_refl)
    as (p & p' & H1 & H2 & H3 & H4 & _).
  exists p, p'. repeat split; assumption.
Defined.

Lemma boarding_credits_fare_witness :
  buses (demo 3) !! 1%nat = Some local2
  /\ result_of (stop_at 1 2) (demo 3) = Returned [boards_event cat]
  /\ income (tally (state_after (stop_at 1 2) (demo 3)))
     = (income (tally (demo 3)) + fare (rapid_express_local local2))%Q.
Proof.
  assert (H : result_of (stop_at 1 2) (demo 3) = Returned [boards_event cat])
    by (vm_compute; reflexivity).
  split; [reflexivity|]. split; [exact H|].
  refine (proj1 (proj1 (boarding_credits_fare (demo 3) 1 2 local2 eq_refl)
                   [boards_event cat] (boards_event cat) H _ eq_refl)).
  by left.
Defined.

Lemma wait_sample_bucket_witness :
  buses (demo 3) !! 1%nat = Some local2
  /\ stop_objs (demo 3) !! 2%nat = Some abbey_st
  /\ length (avg_wait_time (demo 3)) = 9%nat
  /\ nobody_alights local2 abbey_st
  /\ first_eligible local2 abbey_st 0 cat
  /\ py_round (time_tape (env (demo 3)) (clock_reads (demo 3))
               - arrive_time cat) = 3
  /\ result_of (stop_at 1 2) (demo 3) = Returned [boards_event cat]
  /\ exists x, avg_wait_time (demo 3) !! 7%nat = Some x
       /\ avg_wait_time (state_after (stop_at 1 2) (demo 3))
          = <[7%nat := x + 1]> (avg_wait_time (demo 3)).
Proof.
  assert (Hna : nobody_alights local2 abbey_st) by constructor.
  assert (Hfe : first_eligible local2 abbey_st 0 cat).
  { split; [reflexivity|]. split; [reflexivity|]. intros k q Hk. lia. }
  split; [reflexivity|]. split; [reflexivity|]. split; [reflexivity|].
  split; [exact Hna|]. split; [exact Hfe|]. split; [reflexivity|].
  apply (proj1 (proj2 (wait_sample_bucket (demo 3) 1 2 local2 abbey_st 0 cat
                         eq_refl eq_refl eq_refl Hna Hfe))).
  vm_compute. split; discriminate.
Defined.

Lemma bus_stays_on_its_line_witness :
  Forall2 bus_fixed (buses (demo 3)) (buses (state_after (run 0 2) (demo 3))).
Proof. exact (bus_stays_on_its_line 0 2 (demo 3)). Defined.

Lemma direction_and_sign_table_agree_witness :
  Forall signs_agree (buses (demo 3))
  /\ Forall signs_agree (buses (state_after (run 0 2) (demo 3))).
Proof.
  assert (H : Forall signs_agree (buses (demo 3))).
  { repeat constructor. }
  split; [exact H|]. exact (direction_and_sign_table_agree 0 2 (demo 3) H).
Defined.

Lemma stopped_bus_stays_put_witness :
  buses (state_after (run 0 1) (demo 3)) !! 1%nat
  = Some (mkBus "L2" (52%Q, 0%Q) 1 3%Q [cat] true [] MoveH Local 10 1
            (mkBusDir 1 0 0))
  /\ oil_cost (tally (state_after (update_bus 1)
                        (state_after (run 0 1) (demo 3))))
     = oil_cost (tally (state_after (run 0 1) (demo 3))).
Proof.
  assert (H : buses (state_after (run 0 1) (demo 3)) !! 1%nat
              = Some (mkBus "L2" (52%Q, 0%Q) 1 3%Q [cat] true [] MoveH Local
                        10 1 (mkBusDir 1 0 0)))
    by (vm_compute; reflexivity).
  split; [exact H|].
  exact (proj1 (proj2 (stopped_bus_stays_put _ 1 _ H eq_refl))).
Defined.

Lemma moving_bus_advances_witness :
  buses (demo 3) !! 1%nat = Some local2
  /\ stopped local2 = false
  /\ (fst (bounds_of (route (demo 3)) (move local2)) <= new_coordinate local2
      <= snd (bounds_of (route (demo 3)) (move local2)))%Q
  /\ oil_cost (tally (state_after (update_bus 1) (demo 3)))
     = oil_cost (tally (demo 3)).
Proof.
  assert (H : (fst (bounds_of (route (demo 3)) (move local2))
               <= new_coordinate local2
               <= snd (bounds_of (route (demo 3)) (move local2)))%Q).
  { split; vm_compute; discriminate. }
  split; [reflexivity|]. split; [reflexivity|]. split; [exact H|].
  exact (proj1 (proj2 (moving_bus_advances (demo 3) 1 local2
                         eq_refl eq_refl H))).
Defined.

Lemma accumulators_move_together_witness :
  books (demo 3) (state_after (run 0 2) (demo 3)).
Proof. exact (accumulators_move_together 0 2 (demo 3)). Defined.

Lemma init_on_empty_network_witness :
  network_empty (fresh_demo 3)
  /\ result_of init (fresh_demo 3) = Returned [].
Proof.
  assert (H : network_empty (fresh_demo 3)).
  { split; repeat constructor. by exists east_st. }
  split; [exact H|].
  exact (proj1 (init_on_empty_network (fresh_demo 3) H)).
Defined.

Lemma init_rejects_passengers_witness :
  Forall (fun si => is_Some (stop_objs (demo 3) !! si)) (stops (route (demo 3)))
  /\ Exists (fun b => bus_passengers b <> []) (buses (demo 3))
  /\ result_of init (demo 3) = Raised AttributeError.
Proof.
  assert (Hv : Forall (fun si => is_Some (stop_objs (demo 3) !! si))
                      (stops (route (demo 3)))).
  { repeat constructor; by eexists. }
  assert (He : Exists (fun b => bus_passengers b <> []) (buses (demo 3))).
  { left. simpl. discriminate. }
  split; [exact Hv|]. split; [exact He|].
  exact (init_rejects_passengers (demo 3) Hv (or_intror He)).
Defined.

Lemma init_conditions_resets_witness :
  Forall (fun si => is_Some (stop_objs (demo 3) !! si)) [0%nat; 1%nat; 2%nat]
  /\ Forall (fun bi => is_Some (buses (demo 3) !! bi)) [0%nat; 1%nat]
  /\ result_of (init_conditions [0%nat; 1%nat; 2%nat] [0%nat; 1%nat]) (demo 3)
     = Returned tt.
Proof.
  assert (Hs : Forall (fun si => is_Some (stop_objs (demo 3) !! si))
                      [0%nat; 1%nat; 2%nat])
    by (repeat constructor; by eexists).
  assert (Hb : Forall (fun bi => is_Some (buses (demo 3) !! bi))
                      [0%nat; 1%nat])
    by (repeat constructor; by eexists).
  split; [exact Hs|]. split; [exact Hb|].
  exact (proj1 (init_conditions_resets (demo 3) _ _ Hs Hb)).
Defined.

Lemma init_after_reset_returns_witness :
  Forall (fun si => is_Some (stop_objs (demo 3) !! si)) [0%nat; 1%nat; 2%nat]
  /\ Forall (fun bi => is_Some (buses (demo 3) !! bi)) [0%nat; 1%nat]
  /\ stops (route (demo 3)) ⊆ [0%nat; 1%nat; 2%nat]
  /\ (forall bi, (bi < length (buses (demo 3)))%nat -> bi ∈ [0%nat; 1%nat])
  /\ result_of ((init_conditions [0%nat; 1%nat; 2%nat] [0%nat; 1%nat]) ;; init)
       (demo 3) = Returned [].
Proof.
  assert (Hs : Forall (fun si => is_Some (stop_objs (demo 3) !! si))
                      [0%nat; 1%nat; 2%nat])
    by (repeat constructor; by eexists).
  assert (Hb : Forall (fun bi => is_Some (buses (demo 3) !! bi))
                      [0%nat; 1%nat])
    by (repeat constructor; by eexists).
  assert (H1 : stops (route (demo 3)) ⊆ [0%nat; 1%nat; 2%nat]) by done.
  assert (H2 : forall bi, (bi < length (buses (demo 3)))%nat
                          -> bi ∈ [0%nat; 1%nat]).
  { intros [|[|bi]] Hlt; [by left|by right; left|simpl in Hlt; lia]. }
  split; [exact Hs|]. split; [exact Hb|]. split; [exact H1|].
  split; [exact H2|].
  exact (proj2 (init_after_reset_returns (demo 3) _ _ Hs Hb H1 H2)).
Defined.

Lemma counters_agree_from_init_witness :
  passenger_count (tally (state_after (init ;; run 1 2) (fresh_demo 3)))
  = board_passengers (tally (state_after (init ;; run 1 2) (fresh_demo 3))).
Proof.
  exact (proj1 (proj2 (proj2 (proj2
           (counters_agree_from_init 1 2 (fresh_demo 3)))))).
Defined.

Lemma every_trip_has_directions_witness :
  "West St" ∈ busstop /\ "South St" ∈ busstop /\ "West St" <> "South St"
  /\ exists h v s,
       passenger_directions "West St" "South St"
         (needs_change "West St" "South St")
       = inr (Some h, Some v, Some s).
Proof.
  assert (H1 : "West St" ∈ busstop) by (unfold busstop; repeat constructor).
  assert (H2 : "South St" ∈ busstop) by (unfold busstop; repeat constructor).
  assert (H3 : "West St" <> "South St") by discriminate.
  split; [exact H1|]. split; [exact H2|]. split; [exact H3|].
  destruct (every_trip_has_directions "West St" "South St" H1 H2 H3)
    as (h & v & s & H & _).
  by exists h, v, s.
Defined.

Lemma arrival_outcome_witness :
  stop_objs (fresh_demo 3) !! 0%nat = Some east_st
  /\ buses (state_after (update_stop 1 0) (fresh_demo 3))
     = buses (fresh_demo 3).
Proof.
  split; [reflexivity|].
  exact (proj1 (arrival_outcome 1 (fresh_demo 3) 0 east_st eq_refl)).
Defined.

Lemma arrival_at_unnamed_stop_witness :
  stop_objs (fresh_demo 3) !! 1%nat = Some depot
  /\ (stop_name depot ∉ busstop)
  /\ rates (route (fresh_demo 3)) !! stop_name depot = Some 0.5%Q
  /\ (random_tape (env (fresh_demo 3)) (random_draws (fresh_demo 3)) < 0.5)%Q
  /\ result_of (update_stop 1 1) (fresh_demo 3) = Raised UnboundLocalError.
Proof.
  assert (H1 : stop_name depot ∉ busstop).
  { apply (bool_decide_unpack _). vm_compute. exact I. }
  assert (H2 : rates (route (fresh_demo 3)) !! stop_name depot = Some 0.5%Q)
    by (vm_compute; reflexivity).
  assert (H3 : (random_tape (env (fresh_demo 3))
                  (random_draws (fresh_demo 3)) < 0.5)%Q)
    by (vm_compute; reflexivity).
  split; [reflexivity|]. split; [exact H1|]. split; [exact H2|].
  split; [exact H3|].
  refine (proj1 (arrival_at_unnamed_stop 1 (fresh_demo 3) 1 depot 0.5%Q
                   eq_refl H1 H2 H3 _)).
  eexists _, _. vm_compute. reflexivity.
Defined.

Lemma events_account_for_run_witness :
  result_of (run 0 1) (demo 3) = Returned [BUS_TURNS "L1"; boards_event cat]
  /\ ledger [BUS_TURNS "L1"; boards_event cat] (demo 3)
       (state_after (run 0 1) (demo 3)).
Proof.
  assert (H : result_of (run 0 1) (demo 3)
              = Returned [BUS_TURNS "L1"; boards_event cat])
    by (vm_compute; reflexivity).
  split; [exact H|]. exact (events_account_for_run 0 1 (demo 3) _ H).
Defined.

Lemma update_bus_serves_its_stretch_witness :
  buses (demo 3) !! 1%nat = Some local2
  /\ exits (route (demo 3)) local2 = false
  /\ touches 1
       (on_stretch (line_stops (route (demo 3)) (move local2))
          (line_coord (move local2)) (direction local2)
          (fst (stretch local2)) (snd (stretch local2)))
       (demo 3) (state_after (update_bus 1) (demo 3)).
Proof.
  assert (H : exits (route (demo 3)) local2 = false)
    by (vm_compute; reflexivity).
  split; [reflexivity|]. split; [exact H|].
  exact (update_bus_serves_its_stretch (demo 3) 1 local2 eq_refl
           (or_intror H)).
Defined.

Lemma turning_bus_serves_no_stop_witness :
  buses (demo 3) !! 0%nat = Some local1
  /\ stopped local1 = false
  /\ (direction local1 = 1 \/ direction local1 = -1)
  /\ (0 <= speed local1)%Q
  /\ exits (route (demo 3)) local1 = true
  /\ Forall (fun si => is_Some (stop_objs (demo 3) !! si))
            (line_stops (route (demo 3)) (move local1))
  /\ update_bus 0 (demo 3)
     = (Returned [BUS_TURNS (bus_name local1)], after_turn (demo 3) 0 local1).
Proof.
  assert (H1 : (0 <= speed local1)%Q) by (vm_compute; discriminate).
  assert (H2 : exits (route (demo 3)) local1 = true)
    by (vm_compute; reflexivity).
  assert (H3 : Forall (fun si => is_Some (stop_objs (demo 3) !! si))
                      (line_stops (route (demo 3)) (move local1)))
    by (repeat constructor; by eexists).
  split; [reflexivity|]. split; [reflexivity|]. split; [by left|].
  split; [exact H1|]. split; [exact H2|]. split; [exact H3|].
  exact (turning_bus_serves_no_stop (demo 3) 0 local1 eq_refl eq_refl
           (or_introl eq_refl) H1 H2 H3).
Defined.

Lemma accessors_report_the_events_witness :
  exists evs,
    result_of (init ;; run 1 19) (fresh_demo 3) = Returned evs
    /\ occurrences is_BOARDS evs = 1
    /\ result_of get_tally (state_after (init ;; run 1 19) (fresh_demo 3))
       = Returned (occurrences is_BOARDS evs).
Proof.
  let r := eval vm_compute in (result_of (init ;; run 1 19) (fresh_demo 3)) in
  match r with
  | Returned ?evs =>
      assert (H : result_of (init ;; run 1 19) (fresh_demo 3) = Returned evs)
        by (vm_compute; reflexivity);
      exists evs
  end.
  split; [exact H|]. split; [vm_compute; reflexivity|].
  exact (proj1 (accessors_report_the_events 1 19 (fresh_demo 3) _ H)).
Defined.

Lemma built_buses_stay_on_axis_witness :
  Forall built (buses (demo 3))
  /\ Forall on_axis (buses (state_after (run 0 2) (demo 3))).
Proof.
  assert (H : Forall built (buses (demo 3))).
  { repeat constructor.
    - exists "L1", (99, 0), 1, 3%Q, [bob], false, [], MoveH, Local, 10, 1,
        (mkBusDir 1 0 0). reflexivity.
    - exists "L2", (49, 0), 1, 3%Q, [], false, [], MoveH, Local, 10, 0,
        (mkBusDir 1 0 0). reflexivity. }
  split; [exact H|].
  exact (built_buses_stay_on_axis 0 2 (demo 3) H).
Defined.


Lemma drawn_next w j :
  drawn (set_choice_draws (S (choice_draws w)) w) j = drawn w (S j).
Proof. unfold drawn. simpl. by rewrite Nat.add_succ_r. Qed.

(** X25.  The destination loop of [update_stop] returns the first drawn
    name that differs from the stop's name, having made exactly the draws
    up to it: if the draws before the [k]-th give the stop's own name and
    the [k]-th does not, then with more than [k] steps of fuel the loop
    returns the [k]-th name and has consumed [k + 1] draws.  The model's
    fuel runs out only when every draw it follows gives the stop's name. *)
Theorem destination_is_first_other_name (fuel : nat) (sn : string)
    (w : World) (k : nat) :
  (forall j, (j < k)%nat -> drawn w j = sn) ->
  (k < fuel)%nat ->
  drawn w k <> sn ->
  pick_destination fuel sn w
  = (Returned (drawn w k), set_choice_draws (choice_draws w + k + 1) w).
Proof.
  revert w k. induction fuel as [|fuel IH]; intros w k Hbefore Hlt Hk; [lia|].
  rewrite pick_destination_S. cbv zeta.
  change (nth _ busstop "") with (nth (choice_tape (env w) (choice_draws w)
                                        mod length busstop)%nat busstop "").
  destruct k as [|k].
  - assert (Hd : drawn w 0 = nth (choice_tape (env w) (choice_draws w)
                                  mod length busstop)%nat busstop "").
    { unfold drawn. by rewrite Nat.add_0_r. }
    rewrite <- Hd.
    destruct (String.eqb sn (drawn w 0)) eqn:E.
    + apply String.eqb_eq in E. congruence.
    + simpl. do 2 f_equal. lia.
  - assert (Hd : drawn w 0 = nth (choice_tape (env w) (choice_draws w)
                                  mod length busstop)%nat busstop "").
    { unfold drawn. by rewrite Nat.add_0_r. }
    rewrite <- Hd, (Hbefore 0%nat) by lia. rewrite String.eqb_refl. simpl.
    rewrite (IH _ k).
    + rewrite drawn_next. f_equal. destruct w. unfold set_choice_draws.
      simpl. f_equal. lia.
    + intros j Hj. rewrite drawn_next. apply Hbefore. lia.
    + lia.
    + by rewrite drawn_next.
Qed.

Lemma destination_is_first_other_name_witness :
  drawn (fresh_demo 3) 0 <> "East St"
  /\ pick_destination 1 "East St" (fresh_demo 3)
     = (Returned "Centre St", set_choice_draws 1 (fresh_demo 3)).
Proof.
  assert (H : drawn (fresh_demo 3) 0 <> "East St") by discriminate.
  split; [exact H|].
  refine (destination_is_first_other_name 1 "East St" (fresh_demo 3) 0 _ _ H).
  - intros j Hj. lia.
  - lia.
Defined.

(* ===================================================================== *)
(** ** The abandonment loop of a tick, and positions that doubles hold
    exactly *)
(* ===================================================================== *)
















Lemma on_grid_Z k (n : Z) : on_grid k (inject_Z n).
Proof.
  exists (n * 2 ^ Z.of_nat k). by rewrite inject_Z_mult.
Qed.

Lemma on_grid_plus k x y : on_grid k x -> on_grid k y -> on_grid k (x + y).
Proof.
  intros [n Hn] [m Hm]. exists (n + m).
  rewrite inject_Z_plus, <- Hn, <- Hm. ring.
Qed.

Lemma on_grid_scale k x (d : Z) : on_grid k x -> on_grid k (x * inject_Z d).
Proof.
  intros [n Hn]. exists (n * d).
  rewrite inject_Z_mult, <- Hn. ring.
Qed.

Lemma on_grid_step k x s (d : Z) :
  on_grid k x -> on_grid k s -> on_grid k (x + s * inject_Z d).
Proof. intros Hx Hs. apply on_grid_plus; [done|]. by apply on_grid_scale. Qed.

#[local] Instance grid_kept_preorder k : PreOrder (grid_kept k).
Proof.
  split; [intros b H; exact H|].
  intros b1 b2 b3 H1 H2. unfold grid_kept in *. tauto.
Qed.

Lemma grid_kept_moved k b : grid_kept k b (moved b).
Proof.
  intros (Hs & Hx & Hy). unfold bus_on_grid.
  assert (Hsp : speed (moved b) = speed b) by apply moved_fields.
  rewrite Hsp. split; [done|].
  assert (H30 : on_grid k 30) by apply (on_grid_Z k 30).
  assert (H20 : on_grid k (-20)) by apply (on_grid_Z k (-20)).
  unfold moved. destruct (move b); simpl.
  - split; [by apply on_grid_step|done].
  - split; [done|by apply on_grid_step].
  - unfold s_new_position. destruct (bus_position b) as [x y]. simpl in *.
    repeat match goal with
           | |- context [if ?c then _ else _] => destruct c; simpl
           end;
      (split; [by apply on_grid_step|]); try done;
      by apply on_grid_step.
Qed.

Lemma grid_kept_turned k b : grid_kept k b (turned (move b) b).
Proof. intros H. unfold bus_on_grid, turned. by simpl. Qed.

Lemma scale_le (K a b : Q) : (0 <= K)%Q -> (a <= b)%Q -> (a * K <= b * K)%Q.
Proof. intros HK Hab. by apply Qmult_le_compat_r. Qed.

Lemma pow2_nonneg k : (0 <= inject_Z (2 ^ Z.of_nat k))%Q.
Proof.
  change 0%Q with (inject_Z 0). rewrite <- Zle_Qle.
  apply Z.pow_nonneg. lia.
Qed.

(** C7, as the code has it.  A bus with direction 1 or -1 and a non-negative speed,
    on a line with [start <= end], whose numbers double precision adds
    exactly, and that starts within [start, end] (an inclined bus between
    the plateaus): after any number of ticks it is at most one step
    [speed] outside the interval, and when it is outside, its direction
    points back into it; the second coordinate of an inclined bus stays
    between the plateaus; and its numbers are still added exactly: the
    coordinate it has, and the ones one step ahead and one step back that
    its next update may compute, are doubles. *)
Theorem position_near_bounds (fuel n : nat) (w : World) (bi : nat) (b : Bus)
    (k : nat) :
  buses w !! bi = Some b ->
  bus_sane (route w) b ->
  exact_in_doubles k (route w) b ->
  within_bounds (route w) b ->
  exists b',
    buses (state_after (run fuel n) w) !! bi = Some b'
    /\ near_bounds (route w) b'
    /\ bus_sane (route w) b'
    /\ exact_in_doubles k (route w) b'
    /\ fits k (free_coordinate b')
    /\ forall d : Z, d = 1 \/ d = -1 ->
         fits k (free_coordinate b' + speed b' * inject_Z d)
         /\ (move b' = MoveS ->
             fits k (snd (bus_position b') + speed b' * inject_Z d)).
Proof.
  intros Hb Hsane (Hgrid & Hlo & Hhi & Hs) Hin.
  pose proof (run_evolves fuel n w) as (_ & He & _).
  assert (Hf : Forall2 bus_fixed (buses w)
                 (buses (state_after (run fuel n) w))).
  { apply (run_rel bus_fixed).
    - intros b1 b2 Hl. apply same_but_load_eq in Hl as (?&Hp&?&?&?&Hm&?&?&Hd).
      unfold bus_fixed. rewrite Hp, Hd. tauto.
    - apply bus_fixed_moved.
    - apply bus_fixed_turned. }
  assert (Hg : Forall2 (grid_kept k) (buses w)
                 (buses (state_after (run fuel n) w))).
  { apply (run_rel (grid_kept k)).
    - intros b1 b2 Hl. apply same_but_load_eq in Hl as (?&Hp&?&Hsp&_).
      unfold grid_kept, bus_on_grid. by rewrite Hp, Hsp.
    - apply grid_kept_moved.
    - apply grid_kept_turned. }
  destruct (Forall2_lookup_l _ _ _ _ _ He Hb) as (b' & Hb' & _ & Hnear).
  destruct (Forall2_lookup_l _ _ _ _ _ Hf Hb) as (b1 & Hb1 & Hfix).
  destruct (Forall2_lookup_l _ _ _ _ _ Hg Hb) as (b2 & Hb2 & Hgk).
  assert (b1 = b') as -> by congruence.
  assert (b2 = b') as -> by congruence.
  destruct (Hnear (conj Hsane (within_near _ _ Hsane Hin))) as [Hsane' Hnear'].
  destruct Hfix as (_ & Hsp & _ & Hmv & _).
  specialize (Hgk Hgrid).
  exists b'. split; [done|]. split; [done|]. split; [done|].
  split; [unfold exact_in_doubles; by rewrite Hsp, Hmv|].
  destruct Hnear' as ([Hl1 Hl2] & _ & _ & Hpl).
  destruct Hsane' as (_ & Hs0 & _).
  destruct Hgk as (Gs & Gx & Gy).
  rewrite Hsp, Hmv in *.
  assert (Gf : on_grid k (free_coordinate b')).
  { unfold free_coordinate. by destruct (move b'). }
  pose proof (pow2_nonneg k) as HK.
  set (K := inject_Z (2 ^ Z.of_nat k)) in *.
  set (lo := fst (bounds_of (route w) (move b))) in *.
  set (hi := snd (bounds_of (route w) (move b))) in *.
  assert (Hrange : forall x, (lo - 2 * speed b <= x <= hi + 2 * speed b)%Q ->
            (- inject_Z (2 ^ 53) <= x * K <= inject_Z (2 ^ 53))%Q).
  { intros x [Hx1 Hx2]. split.
    - eapply Qle_trans; [exact Hlo|]. by apply scale_le.
    - eapply Qle_trans; [|exact Hhi]. by apply scale_le. }
  split; [split; [done|]; apply Hrange; lra|].
  intros d Hd.
  assert (Hsd : (- speed b <= speed b * inject_Z d <= speed b)%Q).
  { destruct Hd as [-> | ->].
    - change (inject_Z 1) with 1%Q. lra.
    - change (inject_Z (-1)) with (-1)%Q. lra. }
  split.
  - split; [by apply on_grid_step|]. apply Hrange. lra.
  - intros HmS. destruct (Hs HmS) as [Hs1 Hs2].
    rewrite <- Hmv in HmS. specialize (Hpl HmS).
    split; [by apply on_grid_step|]. split.
    + eapply Qle_trans; [exact Hs1|]. apply scale_le; [done|]. lra.
    + eapply Qle_trans; [|exact Hs2]. apply scale_le; [done|]. lra.
Qed.

Lemma position_near_bounds_witness :
  buses (demo 3) !! 0%nat = Some local1
  /\ bus_sane (route (demo 3)) local1
  /\ exact_in_doubles 0 (route (demo 3)) local1
  /\ within_bounds (route (demo 3)) local1
  /\ exists b',
       buses (state_after (run 0 2) (demo 3)) !! 0%nat = Some b'
       /\ near_bounds (route (demo 3)) b'.
Proof.
  assert (H1 : bus_sane (route (demo 3)) local1).
  { split; [by left|]. split; vm_compute; discriminate. }
  assert (H2 : exact_in_doubles 0 (route (demo 3)) local1).
  { split; [|split; [|split]].
    - repeat split; [apply (on_grid_Z 0 3)|apply (on_grid_Z 0 99)
                     |apply (on_grid_Z 0 0)].
    - vm_compute. discriminate.
    - vm_compute. discriminate.
    - discriminate. }
  assert (H3 : within_bounds (route (demo 3)) local1).
  { split; [|discriminate]. vm_compute. split; discriminate. }
  split; [reflexivity|]. split; [exact H1|]. split; [exact H2|].
  split; [exact H3|].
  destruct (position_near_bounds 0 2 (demo 3) 0 local1 0 eq_refl H1 H2 H3)
    as (b' & Hb' & Hn & _).
  exists b'. split; [exact Hb'|exact Hn].
Defined.
